(** * Lumio study planner: the weekly session allocator of [app.py]

    A shallow embedding of the planner engine of [src/app.py]:
    [days_until], the urgency ranking ([get_priority_order]), the greedy
    allocator ([ai_generate_plan]) and [calc_productivity_score], with the
    properties of the specification stated and settled over them.

    Numbers.  Hours are Python floats in the source.  They are modelled as
    exact rationals ([Q]); [round(x, 1)] and [round(x)] are round-half-to-even
    on the exact value.  Binary representation error of floats, infinities
    and NaN are outside that model.  Integers are [Z].

    Where a property turns on how a float rounds (the order of two
    subjects whose urgencies are equal as fractions, the score at an exact
    half) the ranking key and the score are given a second time over
    binary64 floats, as the interpreter computes them: [urgency_float],
    [get_priority_order_float] and [calc_productivity_score_float].

    Control.  The [while] loop of the allocator is a fuel-bounded function:
    the loop test is evaluated first, and one unit of fuel is spent per
    iteration of the body, so a result [OutOfFuel] for every amount of fuel
    is a loop that never exits. *)

From Stdlib Require Import List Bool ZArith QArith Qround Qminmax Lqa Lia.
From Stdlib Require Import String Ascii Permutation Sorted.
From Stdlib Require Import Floats.
Import ListNotations.

Local Open Scope Q_scope.

(** ** Rounding *)

(** Python's [round(x)]: nearest integer, ties to the even one. *)
Definition round_half_even (x : Q) : Z :=
  let f := Qfloor x in
  match Qcompare (x - inject_Z f) (1 # 2) with
  | Lt => f
  | Gt => (f + 1)%Z
  | Eq => if Z.even f then f else (f + 1)%Z
  end.

(** Python's [round(x, 1)]: nearest multiple of one tenth. *)
Definition round1 (x : Q) : Q := round_half_even (x * 10) # 10.

Definition Qlt_bool (x y : Q) : bool := negb (Qle_bool y x).

(** ** Data *)

(** A subject row, as the dict the routes build from the [subjects] table
    (plus [completed_hours], which the progress route adds). *)
Record Subject := mkSubject {
  id : Z;
  total_hours : Q;
  priority : Z;
  deadline : string;
  completed_hours : Q
}.

(** A session row as far as the score reads it. *)
Record Session := mkSession {
  session_subject : Z;
  session_hours : Q;
  status : string
}.

(** An allocation block [{"subject_id": .., "hours": ..}]. *)
Record Block := mkBlock {
  subject_id : Z;
  hours : Q
}.

(** The plan dict [{day: [block, ...]}]; insertion order of the keys is kept. *)
Definition Plan := list (string * list Block).

Definition DAYS : list string :=
  ["Monday"; "Tuesday"; "Wednesday"; "Thursday"; "Friday"; "Saturday"; "Sunday"]%string.

(** [{d: [] for d in DAYS}] *)
Definition empty_plan : Plan := map (fun d => (d, [])) DAYS.

(** [plan[d]]; [None] is Python's [KeyError]. *)
Fixpoint plan_get (d : string) (p : Plan) : option (list Block) :=
  match p with
  | [] => None
  | (k, bs) :: p' => if String.eqb k d then Some bs else plan_get d p'
  end.

(** [plan[d].append(b)] on a key that is present. *)
Fixpoint plan_append (d : string) (b : Block) (p : Plan) : Plan :=
  match p with
  | [] => []
  | (k, bs) :: p' =>
      if String.eqb k d then (k, bs ++ [b]) :: p'
      else (k, bs) :: plan_append d b p'
  end.

Inductive exn := IndexError | KeyError.

(** What a call does: it returns, it raises, or the fuel ran out. *)
Inductive outcome (A : Type) :=
| Done (a : A)
| Raised (e : exn)
| OutOfFuel.
Arguments Done {A} a.
Arguments Raised {A} e.
Arguments OutOfFuel {A}.

(** ** Sorting: [sorted(xs, key=k, reverse=True)]

    Python's [sorted] is stable, also with [reverse=True]: the result is in
    descending key order and elements with equal keys keep their input
    order.  It is modelled by the stable insertion sort below. *)
Section Sorting.
Context {A : Type} (key : A -> Q).

(** [x] comes from in front of every element of [l] in the input: it goes
    behind the elements with a strictly greater key and in front of the
    first element whose key is at most its own. *)
Fixpoint insert_desc (x : A) (l : list A) : list A :=
  match l with
  | [] => [x]
  | y :: l' =>
      if Qlt_bool (key x) (key y) then y :: insert_desc x l'
      else x :: l
  end.

Fixpoint sorted_desc (l : list A) : list A :=
  match l with
  | [] => []
  | x :: l' => insert_desc x (sorted_desc l')
  end.

(** [a] may stand in front of [b]. *)
Definition desc (a b : A) : Prop := key b <= key a.

(** The elements whose key is [u], in list order. *)
Definition with_key (u : Q) (l : list A) : list A :=
  filter (fun x => Qeq_bool (key x) u) l.
End Sorting.

(** ** The planner engine *)

(** [sum(...)]: Python adds from the left, starting at [0]. *)
Definition sum_hours (l : list Q) : Q := fold_left Qplus l 0.

Section Planner.
(** [datetime.strptime(s, "%Y-%m-%d").date()] as a day number, [None] when
    it raises; and [date.today()] as a day number.  Both belong to the
    Python library and the clock, so the engine is stated over any such
    parser and any day. *)
Variable strptime : string -> option Z.
Variable today : Z.

Definition days_until (deadline_str : string) : Z :=
  match strptime deadline_str with
  | Some dl => Z.max 1 (dl - today)
  | None => 30%Z
  end.

(** The [urgency] closure of [ai_generate_plan] and [get_priority_order].
    [d] is at least 1, so the division is defined. *)
Definition urgency (s : Subject) : Q :=
  let d := days_until (deadline s) in
  inject_Z (priority s * 10) + Qmin 50 (100 / inject_Z d).

Definition get_priority_order (subjects : list Subject) : list Subject :=
  sorted_desc urgency subjects.

(** [3 if priority == 3 else (2 if priority == 2 else 1.5)] *)
Definition max_block (p : Z) : Q :=
  if (p =? 3)%Z then 3 else if (p =? 2)%Z then 2 else 3 # 2.

(** The variables of the two loops that live across subjects. *)
Record State := mkState {
  plan : Plan;
  day_idx : nat;
  day_hours : Q
}.

(** One run of the body of the [while] loop: the new values of
    [remaining] and of the state.  The first branch is the [continue]. *)
Definition loop_body (hours_per_day : Q) (sub : Subject)
           (remaining : Q) (st : State) : outcome (Q * State) :=
  let available := hours_per_day - day_hours st in
  if Qle_bool available 0 then
    Done (remaining, mkState (plan st) (S (day_idx st)) 0)
  else
    let block := round1 (Qmin (Qmin remaining available)
                              (max_block (priority sub))) in
    match nth_error DAYS (day_idx st) with
    | None => Raised IndexError
    | Some d =>
        match plan_get d (plan st) with
        | None => Raised KeyError
        | Some _ =>
            let plan' := plan_append d (mkBlock (id sub) block) (plan st) in
            let remaining' := round1 (remaining - block) in
            let day_hours' := round1 (day_hours st + block) in
            if Qle_bool hours_per_day day_hours' then
              Done (remaining', mkState plan' (S (day_idx st)) 0)
            else
              Done (remaining', mkState plan' (day_idx st) day_hours')
        end
    end.

(** [while remaining > 0 and day_idx < 7: ...] for one subject.  The
    result is the value of [remaining] and the state at loop exit. *)
Fixpoint while_loop (fuel : nat) (hours_per_day : Q) (sub : Subject)
         (remaining : Q) (st : State) : outcome (Q * State) :=
  if Qlt_bool 0 remaining && (day_idx st <? 7)%nat then
    match fuel with
    | O => OutOfFuel
    | S fuel' =>
        match loop_body hours_per_day sub remaining st with
        | Done (remaining', st') =>
            while_loop fuel' hours_per_day sub remaining' st'
        | Raised e => Raised e
        | OutOfFuel => OutOfFuel
        end
    end
  else Done (remaining, st).

(** [for sub in sorted_subs: remaining = float(sub["total_hours"]); while ...] *)
Fixpoint for_subjects (fuel : nat) (hours_per_day : Q)
         (subs : list Subject) (st : State) : outcome State :=
  match subs with
  | [] => Done st
  | sub :: rest =>
      match while_loop fuel hours_per_day sub (total_hours sub) st with
      | Done (_, st') => for_subjects fuel hours_per_day rest st'
      | Raised e => Raised e
      | OutOfFuel => OutOfFuel
      end
  end.

(** The first case is [if not subjects: return plan]. *)
Definition ai_generate_plan (fuel : nat) (subjects : list Subject)
           (hours_per_day : Q) : outcome Plan :=
  match subjects with
  | [] => Done empty_plan
  | _ :: _ =>
      let sorted_subs := sorted_desc urgency subjects in
      match for_subjects fuel hours_per_day sorted_subs
                         (mkState empty_plan 0 0) with
      | Done st => Done (plan st)
      | Raised e => Raised e
      | OutOfFuel => OutOfFuel
      end
  end.
End Planner.

Definition calc_productivity_score (subjects : list Subject)
           (sessions : list Session) : Z :=
  let total_h := sum_hours (map total_hours subjects) in
  let done_h := sum_hours (map completed_hours subjects) in
  let missed :=
    fold_left Z.add
              (map (fun _ => 1%Z)
                   (filter (fun s => String.eqb (status s) "missed") sessions))
              0%Z in
  if Qeq_bool total_h 0 then 0%Z
  else
    let base := done_h / total_h * 100 in
    let penalty := Z.min (missed * 3) 25 in
    Z.max 0 (round_half_even (base - inject_Z penalty)).

(** ** Measures on plans *)

Definition block_sum (bs : list Block) : Q :=
  fold_right (fun b acc => hours b + acc) 0 bs.

(** The blocks of day [d]; a day that is not a key has none. *)
Definition day_blocks (p : Plan) (d : string) : list Block :=
  match plan_get d p with
  | Some bs => bs
  | None => []
  end.

Definition day_total (p : Plan) (d : string) : Q := block_sum (day_blocks p d).

Definition all_blocks (p : Plan) : list Block := List.concat (map snd p).

Definition subject_blocks (p : Plan) (sid : Z) : list Block :=
  filter (fun b => (subject_id b =? sid)%Z) (all_blocks p).

Definition subject_total (p : Plan) (sid : Z) : Q :=
  block_sum (subject_blocks p sid).

(** A multiple of one tenth. *)
Definition is_tenth (x : Q) : Prop := exists z : Z, x == z # 10.

(** ** Invariants and auxiliary predicates *)

(** What holds of the plan, the day cursor and the day accumulator
    whenever the loop test is evaluated, for capacity [cap]. *)
Record Inv (cap : Q) (st : State) : Prop := mkInv {
  inv_keys : map fst (plan st) = DAYS;
  inv_idx : (day_idx st <= 7)%nat;
  inv_tenth : is_tenth (day_hours st);
  inv_nonneg : 0 <= day_hours st;
  inv_bound : forall d, day_total (plan st) d <= Qmax 0 cap + (1 # 20);
  inv_cur : forall d, nth_error DAYS (day_idx st) = Some d ->
                      day_total (plan st) d == day_hours st;
  inv_later : forall i d, (day_idx st < i)%nat -> nth_error DAYS i = Some d ->
                          day_blocks (plan st) d = [];
  inv_grand : inject_Z (Z.of_nat (day_idx st)) * cap + day_hours st
              <= block_sum (all_blocks (plan st))
}.

(** The blocks a subject can get satisfy [Pb]; all the blocks of a plan
    satisfy [Pb]. *)
Definition emits (Pb : Block -> Prop) (sub : Subject) : Prop :=
  forall h, 0 <= h -> h <= max_block (priority sub) -> is_tenth h ->
            Pb (mkBlock (id sub) h).

Definition all_in (Pb : Block -> Prop) (p : Plan) : Prop :=
  forall b, In b (all_blocks p) -> Pb b.

(** Accounting for subject [sub] from the values at loop entry: [r0] the
    remaining workload, [a0] the hours of the subject and [x0] the hours of
    the whole plan.  From a workload that is a multiple of one tenth
    nothing is lost: what is not yet in the plan is still in [remaining]. *)
Definition conserved (sub : Subject) (r0 a0 x0 : Q) (r : Q) (st : State) : Prop :=
  is_tenth r /\ 0 <= r /\
  subject_total (plan st) (id sub) + r == a0 + r0 /\
  block_sum (all_blocks (plan st)) + r == x0 + r0.


(** A workload as the data model has it and in the unit the allocator
    rounds to: a non-negative multiple of one tenth. *)
Definition tenth_hours (s : Subject) : Prop :=
  is_tenth (total_hours s) /\ 0 <= total_hours s.

(** Every day the cursor has left holds at least the capacity. *)
Definition closed_days_full (cap : Q) (st : State) : Prop :=
  forall i d, (i < day_idx st)%nat -> nth_error DAYS i = Some d ->
              cap <= day_total (plan st) d.

(** No day holds more than the capacity. *)
Definition within_capacity (cap : Q) (st : State) : Prop :=
  forall d, day_total (plan st) d <= Qmax 0 cap.


(** No non-negative multiple of one tenth lies in [[cap - 0.05, cap)]: a
    day that is not yet full has room for a block that does not round to
    zero.  Every multiple of one tenth is such a capacity, and so is every
    capacity of zero or less. *)
Definition clear_of_tenths (cap : Q) : Prop :=
  forall z : Z, (0 <= z)%Z -> z # 10 < cap -> 1 # 20 < cap - (z # 10).

(** ** Progress fields and the week

    What the routes [get_subjects] and [get_progress] add to a subject
    row, and [get_week_start].  Dates are day numbers as
    [date.toordinal()] gives them (day 1 is a Monday); the ISO string of
    the week start is not modelled. *)

(** [round((completed_hours / total_hours) * 100) if total_hours else 0] *)
Definition pct (s : Subject) : Z :=
  if Qeq_bool (total_hours s) 0 then 0%Z
  else round_half_even (completed_hours s / total_hours s * 100).

(** [round(remaining / days_left, 1) if days_left > 0 and remaining > 0
    else 0], with [remaining = total_hours - completed_hours]. *)
Definition hours_per_day_needed (strptime : string -> option Z) (today : Z)
           (s : Subject) : Q :=
  let days_left := days_until strptime today (deadline s) in
  let remaining := total_hours s - completed_hours s in
  if (0 <? days_left)%Z && Qlt_bool 0 remaining
  then round1 (remaining / inject_Z days_left)
  else 0.

(** [date.weekday()]: Monday is 0 and Sunday is 6. *)
Definition weekday (d : Z) : Z := ((d + 6) mod 7)%Z.

(** [today - timedelta(days=today.weekday())] *)
Definition get_week_start (today : Z) : Z := (today - weekday today)%Z.

(** ** The quantities of the score *)

(** The sums and the count of the specification. *)
Definition totalH (subjects : list Subject) : Q :=
  fold_right (fun s acc => total_hours s + acc) 0 subjects.

Definition doneH (subjects : list Subject) : Q :=
  fold_right (fun s acc => completed_hours s + acc) 0 subjects.

Definition missedCount (sessions : list Session) : Z :=
  Z.of_nat (List.length (filter (fun s => String.eqb (status s) "missed") sessions)).

(** ** The ranking key and the score in binary64

    Python's [float] is the IEEE 754 binary64 format and its [+], [-], [*]
    and [/] round to nearest, ties to even; so do Rocq's primitive floats,
    which stand for them here.  Python compares an [int] with a [float],
    and two floats, by their exact values. *)

(** [float(n)] of an integer: the nearest double.  (Python raises
    [OverflowError] beyond the range of the doubles; the integers of the
    database have 64 bits and are far from it.) *)
Definition of_int (n : Z) : float :=
  SF2Prim (binary_normalize prec emax n 0 false).

(** The exact value of a finite float. *)
Definition float_value (x : float) : Q :=
  match Prim2SF x with
  | S754_finite s m e =>
      let v := inject_Z (Zpos m) * 2 ^ e in
      if s then - v else v
  | _ => 0
  end.

(** The float a [REAL] column or a JSON number holds for the fraction [q]:
    the nearest double.  (Numerator and denominator, below 2^53, are
    doubles themselves, and their quotient is rounded once.) *)
Definition nearest_double (q : Q) : float :=
  (of_int (Qnum q) / of_int (Zpos (Qden q)))%float.

(** [round(x)] of a float: the integer nearest to its exact value, ties
    to the even one; [None] when Python raises ([OverflowError] on an
    infinity, [ValueError] on a NaN). *)
Definition round_float (x : float) : option Z :=
  match Prim2SF x with
  | S754_zero _ => Some 0%Z
  | S754_finite _ _ _ => Some (round_half_even (float_value x))
  | S754_infinity _ => None
  | S754_nan => None
  end.

Section PlannerFloat.
Variable strptime : string -> option Z.
Variable today : Z.

(** The value of the [urgency] closure as Python computes it.
    [100 / d] is the double nearest to the quotient of the two integers;
    [min(50, q)] is [q] when [q < 50] and the integer [50] otherwise; the
    sum of the integer [priority * 10] and the float [q] is a float sum,
    and the sum of two integers is exact. *)
Definition urgency_float (s : Subject) : Q :=
  let d := days_until strptime today (deadline s) in
  let q := (of_int 100 / of_int d)%float in
  if (q <? of_int 50)%float
  then float_value (of_int (priority s * 10) + q)
  else inject_Z (priority s * 10 + 50).

(** [sorted(subjects, key=urgency, reverse=True)] on these keys. *)
Definition get_priority_order_float (subjects : list Subject) : list Subject :=
  sorted_desc urgency_float subjects.
End PlannerFloat.

Section ScoreFloat.
(** The builtin [sum] on floats.  Python up to 3.11 adds from the left;
    later versions also carry a correction for the rounding errors.  On
    one number both give that number, and on none the integer 0. *)
Variable fsum : list float -> float.

Definition total_float (subjects : list Subject) : float :=
  fsum (map (fun s => nearest_double (total_hours s)) subjects).

Definition done_float (subjects : list Subject) : float :=
  fsum (map (fun s => nearest_double (completed_hours s)) subjects).

(** [calc_productivity_score] on floats; [None] when [round] raises. *)
Definition calc_productivity_score_float (subjects : list Subject)
           (sessions : list Session) : option Z :=
  let total_h := total_float subjects in
  let done_h := done_float subjects in
  let missed :=
    fold_left Z.add
              (map (fun _ => 1%Z)
                   (filter (fun s => String.eqb (status s) "missed") sessions))
              0%Z in
  if (total_h =? 0)%float then Some 0%Z
  else
    let base := (done_h / total_h * of_int 100)%float in
    let penalty := Z.min (missed * 3) 25 in
    option_map (Z.max 0) (round_float (base - of_int penalty)).
End ScoreFloat.

(** [sum] adding from the left. *)
Definition sum_left (xs : list float) : float :=
  fold_left PrimFloat.add xs 0%float.

(** ** The database and the routes

    The tables of [init_db] as lists of rows in rowid order, and the
    routes as functions from the database before the request to the
    reply and the database after it.  A [SELECT] without [ORDER BY]
    gives the rows in table order.  The columns [created_at] and the
    [users] table are never read by these routes and are left out;
    [week_start] holds the day number of the Monday in place of its ISO
    string. *)

Record SubjectRow := mkSubjectRow {
  sr_id : Z;
  sr_name : string;
  sr_total_hours : Q;
  sr_priority : Z;
  sr_deadline : string;
  sr_color : string;
  sr_user_id : Z
}.

Record SessionRow := mkSessionRow {
  ss_id : Z;
  ss_subject_id : Z;
  ss_day_name : string;
  ss_hours : Q;
  ss_week_start : Z;
  ss_status : string
}.

Record SettingRow := mkSettingRow {
  set_key : string;
  set_value : string;
  set_user_id : Z
}.

(** [sessions_seq] is the largest session id ever given, which
    [AUTOINCREMENT] keeps. *)
Record Db := mkDb {
  subjects_tbl : list SubjectRow;
  sessions_tbl : list SessionRow;
  settings_tbl : list SettingRow;
  sessions_seq : Z
}.

(** What a route does: it replies, having committed [db]; it raises, or
    it never returns, and [db] is what was committed until then. *)
Inductive reply (A : Type) :=
| Reply (a : A) (db : Db)
| Crash (db : Db)
| Hang (db : Db).
Arguments Reply {A} a db.
Arguments Crash {A} db.
Arguments Hang {A} db.

(** [{"error": "No subjects added yet"}, 400] and
    [{"ok": True, "week_start": ...}] *)
Inductive plan_reply := NoSubjects | PlanOk (week_start : Z).

(** [{"ok": False, "message": "No missed sessions found"}] and
    [{"ok": True, "adjusted": n}] *)
Inductive adjust_reply := NoMissed | Adjusted (n : nat).

(** [dict(r)] as the planner reads it; the key [completed_hours] is not
    in this dict and the planner does not read it. *)
Definition subject_of (r : SubjectRow) : Subject :=
  mkSubject (sr_id r) (sr_total_hours r) (sr_priority r) (sr_deadline r) 0.

(** [SELECT * FROM subjects WHERE user_id=?] *)
Definition user_subjects (uid : Z) (db : Db) : list SubjectRow :=
  filter (fun r => (sr_user_id r =? uid)%Z) (subjects_tbl db).

(** [subject_id IN (SELECT id FROM subjects WHERE user_id=?)] *)
Definition owned_by (uid : Z) (db : Db) (sid : Z) : bool :=
  existsb (fun r => (sr_id r =? sid)%Z) (user_subjects uid db).

(** The session as [calc_productivity_score] reads it. *)
Definition session_of (s : SessionRow) : Session :=
  mkSession (ss_subject_id s) (ss_hours s) (ss_status s).

(** A session row without its id. *)
Definition session_content (s : SessionRow) : Z * string * Q * Z * string :=
  (ss_subject_id s, ss_day_name s, ss_hours s, ss_week_start s, ss_status s).

(** The id [AUTOINCREMENT] gives to the next session. *)
Definition next_session_id (db : Db) : Z :=
  (1 + fold_right Z.max (sessions_seq db) (map ss_id (sessions_tbl db)))%Z.

(** [INSERT INTO sessions (subject_id, day_name, hours, week_start, status)
    VALUES (?,?,?,?,?)] *)
Definition insert_session (sid : Z) (day : string) (h : Q) (ws : Z)
           (st : string) (db : Db) : Db :=
  let i := next_session_id db in
  mkDb (subjects_tbl db)
       (sessions_tbl db ++ [mkSessionRow i sid day h ws st])
       (settings_tbl db) i.

(** [for block in blocks: INSERT ... "pending"] *)
Definition insert_blocks (ws : Z) (day : string) (blocks : list Block) (db : Db) : Db :=
  fold_left (fun db b => insert_session (subject_id b) day (hours b) ws "pending" db)
            blocks db.

(** [for day, blocks in plan.items(): for block in blocks: INSERT ...] *)
Definition insert_plan (ws : Z) (p : Plan) (db : Db) : Db :=
  fold_left (fun db e => insert_blocks ws (fst e) (snd e) db) p db.

(** [DELETE FROM sessions WHERE ...] *)
Definition delete_sessions (cond : SessionRow -> bool) (db : Db) : Db :=
  mkDb (subjects_tbl db)
       (filter (fun s => negb (cond s)) (sessions_tbl db))
       (settings_tbl db) (sessions_seq db).

(** The rows a plan becomes, without their ids. *)
Definition plan_rows (ws : Z) (p : Plan) : list (Z * string * Q * Z * string) :=
  flat_map (fun e => map (fun b => (subject_id b, fst e, hours b, ws, "pending"%string))
                         (snd e)) p.

Section Routes.
(** [float(s)] of Python, [None] when it raises [ValueError]; and the
    date parser and the day of the planner engine. *)
Variable parse_float : string -> option Q.
Variable strptime : string -> option Z.
Variable today : Z.

(** [float(hpd_row["value"]) if hpd_row else 5.0], with [hpd_row] the
    first row of [SELECT value FROM settings WHERE key='hours_per_day' AND
    user_id=?]; [None] when [float] raises. *)
Definition hours_setting (uid : Z) (db : Db) : option Q :=
  match find (fun r => String.eqb (set_key r) "hours_per_day"
                       && (set_user_id r =? uid)%Z) (settings_tbl db) with
  | Some r => parse_float (set_value r)
  | None => Some 5
  end.

(** The sessions of week [ws] that belong to subjects of user [uid]. *)
Definition in_week_of (ws uid : Z) (db : Db) (s : SessionRow) : bool :=
  (ss_week_start s =? ws)%Z && owned_by uid db (ss_subject_id s).

(** The route [/api/generate_plan].  The setting is read before the
    subject list is tested, and nothing is written before the plan is
    there. *)
Definition generate_plan (fuel : nat) (uid : Z) (db : Db) : reply plan_reply :=
  let subjects := map subject_of (user_subjects uid db) in
  match hours_setting uid db with
  | None => Crash db
  | Some hours_per_day =>
      match subjects with
      | [] => Reply NoSubjects db
      | _ :: _ =>
          match ai_generate_plan strptime today fuel subjects hours_per_day with
          | Done p =>
              let week_start := get_week_start today in
              let db1 := delete_sessions (in_week_of week_start uid db) db in
              Reply (PlanOk week_start) (insert_plan week_start p db1)
          | Raised _ => Crash db
          | OutOfFuel => Hang db
          end
      end
  end.

(** [SELECT DISTINCT s.subject_id FROM sessions s JOIN subjects sub ON
    s.subject_id = sub.id WHERE s.week_start=? AND s.status='missed' AND
    sub.user_id=?] *)
Definition missed_ids (ws uid : Z) (db : Db) : list Z :=
  nodup Z.eq_dec
        (map ss_subject_id
             (filter (fun s => (ss_week_start s =? ws)%Z
                               && String.eqb (ss_status s) "missed"
                               && owned_by uid db (ss_subject_id s))
                     (sessions_tbl db))).

(** [sub = SELECT priority FROM subjects WHERE id=?] and
    [UPDATE subjects SET priority=min(3, sub["priority"] + 1) WHERE id=?];
    [None] when there is no such row and [sub["priority"]] raises. *)
Definition bump_priority (sid : Z) (db : Db) : option Db :=
  match find (fun r => (sr_id r =? sid)%Z) (subjects_tbl db) with
  | None => None
  | Some sub =>
      let p := Z.min 3 (sr_priority sub + 1) in
      Some (mkDb (map (fun r => if (sr_id r =? sid)%Z
                                then mkSubjectRow (sr_id r) (sr_name r) (sr_total_hours r)
                                                  p (sr_deadline r) (sr_color r)
                                                  (sr_user_id r)
                                else r)
                      (subjects_tbl db))
                 (sessions_tbl db) (settings_tbl db) (sessions_seq db))
  end.

(** [for sid in missed_ids: ...] *)
Fixpoint bump_priorities (sids : list Z) (db : Db) : option Db :=
  match sids with
  | [] => Some db
  | sid :: rest =>
      match bump_priority sid db with
      | Some db' => bump_priorities rest db'
      | None => None
      end
  end.

(** The route [/api/adjust_missed].  The raised priorities are committed
    before the plan is computed. *)
Definition adjust_missed (fuel : nat) (uid : Z) (db : Db) : reply adjust_reply :=
  let week_start := get_week_start today in
  let ids := missed_ids week_start uid db in
  match ids with
  | [] => Reply NoMissed db
  | _ :: _ =>
      match bump_priorities ids db with
      | None => Crash db
      | Some db1 =>
          let subjects := map subject_of (user_subjects uid db1) in
          match hours_setting uid db1 with
          | None => Crash db1
          | Some hours_per_day =>
              match ai_generate_plan strptime today fuel subjects hours_per_day with
              | Done p =>
                  let db2 :=
                    delete_sessions
                      (fun s => in_week_of week_start uid db1 s
                                && String.eqb (ss_status s) "pending") db1 in
                  Reply (Adjusted (List.length ids)) (insert_plan week_start p db2)
              | Raised _ => Crash db1
              | OutOfFuel => Hang db1
              end
          end
      end
  end.

(** [DELETE FROM subjects WHERE id=? AND user_id=?] and
    [DELETE FROM sessions WHERE subject_id=?] of the route
    [delete_subject]. *)
Definition delete_subject (sid uid : Z) (db : Db) : Db :=
  mkDb (filter (fun r => negb ((sr_id r =? sid)%Z && (sr_user_id r =? uid)%Z))
               (subjects_tbl db))
       (filter (fun s => negb (ss_subject_id s =? sid)%Z) (sessions_tbl db))
       (settings_tbl db) (sessions_seq db).

(** One entry of the reply of [/api/weekly_summary]. *)
Record DaySummary := mkDaySummary {
  sum_total : Q;
  sum_done : Z;
  sum_missed : Z;
  sum_pending : Z
}.

(** [SELECT s.* FROM sessions s JOIN subjects sub ON s.subject_id = sub.id
    WHERE s.week_start=? AND s.day_name=? AND sub.user_id=?]: one row for
    each pair of a session and a subject that match. *)
Definition day_rows (ws : Z) (day : string) (uid : Z) (db : Db) : list SessionRow :=
  flat_map (fun s =>
              flat_map (fun sub =>
                          if (ss_subject_id s =? sr_id sub)%Z
                             && (ss_week_start s =? ws)%Z
                             && String.eqb (ss_day_name s) day
                             && (sr_user_id sub =? uid)%Z
                          then [s] else [])
                       (subjects_tbl db))
           (sessions_tbl db).

(** [sum(1 for r in rows if r["status"] == st)] *)
Definition count_status (st : string) (rows : list SessionRow) : Z :=
  fold_left Z.add
            (map (fun _ => 1%Z) (filter (fun r => String.eqb (ss_status r) st) rows))
            0%Z.

(** The route [/api/weekly_summary]. *)
Definition weekly_summary (uid : Z) (db : Db) : list (string * DaySummary) :=
  let week_start := get_week_start today in
  map (fun day =>
         let rows := day_rows week_start day uid db in
         (day, mkDaySummary (round1 (sum_hours (map ss_hours rows)))
                            (count_status "done" rows)
                            (count_status "missed" rows)
                            (count_status "pending" rows)))
      DAYS.
End Routes.

(** [get_completed_hours]: [round(h, 1)] with [h] the
    [COALESCE(SUM(hours), 0)] of the done sessions of the subject, of all
    weeks. *)
Definition get_completed_hours (sid : Z) (db : Db) : Q :=
  round1 (sum_hours
            (map ss_hours
                 (filter (fun s => (ss_subject_id s =? sid)%Z
                                   && String.eqb (ss_status s) "done")
                         (sessions_tbl db)))).

(** The database a reply leaves committed. *)
Definition committed {A : Type} (r : reply A) : Db :=
  match r with
  | Reply _ db => db
  | Crash db => db
  | Hang db => db
  end.

(** The subject row after [adjust_missed] when [ids] are the subjects with
    a missed session: the priority one tier up, at most 3. *)
Definition raised (ids : list Z) (r : SubjectRow) : SubjectRow :=
  if existsb (Z.eqb (sr_id r)) ids
  then mkSubjectRow (sr_id r) (sr_name r) (sr_total_hours r)
                    (Z.min 3 (sr_priority r + 1)) (sr_deadline r) (sr_color r)
                    (sr_user_id r)
  else r.

(** The primary keys: no two subjects and no two sessions share an id. *)
Definition keys_unique (db : Db) : Prop :=
  NoDup (map sr_id (subjects_tbl db)) /\ NoDup (map ss_id (sessions_tbl db)).

(** What a sequence of inserts does to the database: [new] rows at the end
    of the sessions, with fresh ids, and nothing else. *)
Definition inserted (db db' : Db) (new : list SessionRow) : Prop :=
  subjects_tbl db' = subjects_tbl db /\
  settings_tbl db' = settings_tbl db /\
  sessions_tbl db' = sessions_tbl db ++ new /\
  (NoDup (map ss_id (sessions_tbl db)) -> NoDup (map ss_id (sessions_tbl db'))).

(** ** Sample data: the example of the specification *)

(** A parser that knows two dates, 3 and 20 days after day 0; any other
    string fails to parse. *)
Definition sample_strptime (s : string) : option Z :=
  if String.eqb s "2024-01-04" then Some 3%Z
  else if String.eqb s "2024-01-21" then Some 20%Z
  else None.

(** 5 hours, high priority, due in 3 days; 4 hours, low priority, due in
    20 days, one hour of them done. *)
Definition sub1 : Subject := mkSubject 1 5 3 "2024-01-04" 0.
Definition sub2 : Subject := mkSubject 2 4 1 "2024-01-21" 1.

(** The plan of the specification's example. *)
Definition sample_plan : Plan :=
  [("Monday", [mkBlock 1 (30 # 10); mkBlock 1 (20 # 10)]);
   ("Tuesday", [mkBlock 2 (15 # 10); mkBlock 2 (15 # 10); mkBlock 2 (10 # 10)]);
   ("Wednesday", []); ("Thursday", []); ("Friday", []);
   ("Saturday", []); ("Sunday", [])]%string.

(** Two subjects whose urgencies are equal as fractions, 30 + 100/15 and
    20 + 100/6: high priority, due in 15 days, and medium priority, due in
    6 days. *)
Definition tie_strptime (s : string) : option Z :=
  if String.eqb s "2024-01-16" then Some 15%Z
  else if String.eqb s "2024-01-07" then Some 6%Z
  else None.

Definition tie1 : Subject := mkSubject 1 5 3 "2024-01-16" 0.
Definition tie2 : Subject := mkSubject 2 5 2 "2024-01-07" 0.

(** 23 hours done of 40: 57.5 percent. *)
Definition half_done : Subject := mkSubject 1 40 2 "2024-01-04" 23.




(** A [float] that knows one string. *)
Definition sample_parse_float (s : string) : option Q :=
  if String.eqb s "5" then Some 5 else None.

(** User 1 has the two subjects of the example and 5 hours a day; user 2
    has one subject.  Day 0 is in the week of day -6.  There are a done
    session of last week, and in this week a missed session of subject 2,
    a pending and a done session of subject 1 and a pending session of
    user 2. *)
Definition sample_db : Db :=
  mkDb [mkSubjectRow 1 "Algebra" 5 3 "2024-01-04" "#FF6B6B" 1;
        mkSubjectRow 2 "History" 4 1 "2024-01-21" "#4ECDC4" 1;
        mkSubjectRow 3 "Physics" 2 2 "2024-01-04" "#FF6B6B" 2]
       [mkSessionRow 1 1 "Monday" 3 (-13) "done";
        mkSessionRow 2 2 "Monday" (15 # 10) (-6) "missed";
        mkSessionRow 3 1 "Tuesday" 2 (-6) "pending";
        mkSessionRow 4 3 "Monday" 2 (-6) "pending";
        mkSessionRow 5 1 "Wednesday" 1 (-6) "done"]
       [mkSettingRow "hours_per_day" "5" 1]
       5.

(** The sample database after [generate_plan] and after [adjust_missed]
    of user 1 on day 0. *)
Definition sample_db_planned : Db :=
  Eval vm_compute in
    committed (generate_plan sample_parse_float sample_strptime 0 10 1 sample_db).

Definition sample_db_adjusted : Db :=
  Eval vm_compute in
    committed (adjust_missed sample_parse_float sample_strptime 0 10 1 sample_db).

(** * Properties *)

(** ** Rounding *)

(** Turn a hypothesis on the result of [Qcompare] into the order it means. *)
Ltac qcompare_spec H :=
  match type of H with
  | Qcompare _ _ = Eq => apply (proj2 (Qeq_alt _ _)) in H
  | Qcompare _ _ = Lt => apply (proj2 (Qlt_alt _ _)) in H
  | Qcompare _ _ = Gt => apply (proj2 (Qgt_alt _ _)) in H
  end.

Lemma round_half_even_floor (x : Q) :
  round_half_even x = Qfloor x \/ round_half_even x = (Qfloor x + 1)%Z.
Proof.
  unfold round_half_even.
  destruct (Qcompare _ _); [destruct (Z.even _)| |]; auto.
Qed.

Lemma round_half_even_upper (x : Q) : inject_Z (round_half_even x) <= x + (1 # 2).
Proof.
  unfold round_half_even.
  pose proof (Qfloor_le x) as Hlo.
  destruct (Qcompare (x - inject_Z (Qfloor x)) (1 # 2)) eqn:E.
  - qcompare_spec E.
    destruct (Z.even (Qfloor x)); [lra|].
    rewrite inject_Z_plus. change (inject_Z 1) with 1. lra.
  - lra.
  - qcompare_spec E. rewrite inject_Z_plus. change (inject_Z 1) with 1. lra.
Qed.

Lemma round_half_even_lower (x : Q) : x - (1 # 2) <= inject_Z (round_half_even x).
Proof.
  unfold round_half_even.
  pose proof (Qlt_floor x) as Hhi.
  rewrite inject_Z_plus in Hhi. change (inject_Z 1) with 1 in Hhi.
  destruct (Qcompare (x - inject_Z (Qfloor x)) (1 # 2)) eqn:E.
  - qcompare_spec E.
    destruct (Z.even (Qfloor x)); [lra|].
    rewrite inject_Z_plus. change (inject_Z 1) with 1. lra.
  - qcompare_spec E. lra.
  - rewrite inject_Z_plus. change (inject_Z 1) with 1. lra.
Qed.

Lemma round_half_even_comp (x y : Q) : x == y -> round_half_even x = round_half_even y.
Proof.
  intros H. unfold round_half_even.
  rewrite (Qfloor_comp x y H).
  assert (Hc : Qcompare (x - inject_Z (Qfloor y)) (1 # 2)
               = Qcompare (y - inject_Z (Qfloor y)) (1 # 2)).
  { apply Qcompare_comp; [rewrite H|]; reflexivity. }
  rewrite Hc. reflexivity.
Qed.

Lemma round_half_even_Z (z : Z) : round_half_even (inject_Z z) = z.
Proof.
  unfold round_half_even. rewrite Qfloor_Z.
  assert (E : Qcompare (inject_Z z - inject_Z z) (1 # 2) = Lt).
  { apply (proj1 (Qlt_alt _ _)). lra. }
  rewrite E. reflexivity.
Qed.

Lemma round_half_even_mono (x y : Q) :
  x <= y -> (round_half_even x <= round_half_even y)%Z.
Proof.
  intros Hxy.
  pose proof (Qfloor_resp_le x y Hxy) as Hf.
  destruct (Z.eq_dec (Qfloor x) (Qfloor y)) as [Heq|Hne].
  - unfold round_half_even. rewrite Heq.
    destruct (Qcompare (x - inject_Z (Qfloor y)) (1 # 2)) eqn:Ex;
      destruct (Qcompare (y - inject_Z (Qfloor y)) (1 # 2)) eqn:Ey;
      try (destruct (Z.even (Qfloor y))); try lia;
      qcompare_spec Ex; qcompare_spec Ey; exfalso; lra.
  - destruct (round_half_even_floor x) as [-> | ->];
      destruct (round_half_even_floor y) as [-> | ->]; lia.
Qed.

Lemma tenth_scale (z : Z) : (z # 10) * 10 == inject_Z z.
Proof. unfold Qeq, Qmult, inject_Z. simpl. lia. Qed.

Lemma tenth_inject (z : Z) : z # 10 == inject_Z z * (1 # 10).
Proof. unfold Qeq, Qmult, inject_Z. simpl. lia. Qed.

Lemma round1_upper (x : Q) : round1 x <= x + (1 # 20).
Proof.
  unfold round1. pose proof (round_half_even_upper (x * 10)) as H.
  rewrite tenth_inject. lra.
Qed.

Lemma round1_lower (x : Q) : x - (1 # 20) <= round1 x.
Proof.
  unfold round1. pose proof (round_half_even_lower (x * 10)) as H.
  rewrite tenth_inject. lra.
Qed.

Lemma round1_mono (x y : Q) : x <= y -> round1 x <= round1 y.
Proof.
  intros H. unfold round1, Qle. simpl.
  apply Z.mul_le_mono_nonneg_r; [lia|].
  apply round_half_even_mono. lra.
Qed.

Lemma round1_comp (x y : Q) : x == y -> round1 x = round1 y.
Proof.
  intros H. unfold round1. f_equal. apply round_half_even_comp. rewrite H. reflexivity.
Qed.

Lemma round1_is_tenth (x : Q) : is_tenth (round1 x).
Proof. exists (round_half_even (x * 10)). reflexivity. Qed.

Lemma round1_tenth (x : Q) : is_tenth x -> round1 x == x.
Proof.
  intros [z Hz]. unfold round1.
  rewrite (round_half_even_comp (x * 10) (inject_Z z)).
  - rewrite round_half_even_Z. symmetry. exact Hz.
  - rewrite Hz. apply tenth_scale.
Qed.

(** ** Multiples of one tenth *)

Lemma is_tenth_comp (x y : Q) : x == y -> is_tenth x -> is_tenth y.
Proof. intros E [z Hz]. exists z. rewrite <- E. exact Hz. Qed.

Lemma is_tenth_0 : is_tenth 0.
Proof. exists 0%Z. reflexivity. Qed.

Lemma is_tenth_plus (x y : Q) : is_tenth x -> is_tenth y -> is_tenth (x + y).
Proof.
  intros [a Ha] [b Hb]. exists (a + b)%Z.
  rewrite Ha, Hb, (tenth_inject a), (tenth_inject b), (tenth_inject (a + b)).
  rewrite inject_Z_plus. lra.
Qed.

Lemma is_tenth_minus (x y : Q) : is_tenth x -> is_tenth y -> is_tenth (x - y).
Proof.
  intros [a Ha] [b Hb]. exists (a - b)%Z.
  rewrite Ha, Hb, (tenth_inject a), (tenth_inject b), (tenth_inject (a - b)).
  unfold Z.sub. rewrite inject_Z_plus, inject_Z_opp. lra.
Qed.

Lemma round1_0 : round1 0 == 0.
Proof. apply round1_tenth, is_tenth_0. Qed.

Lemma round1_nonneg (x : Q) : 0 <= x -> 0 <= round1 x.
Proof. intros H. rewrite <- round1_0. apply round1_mono, H. Qed.

(** A value in [[-0.05, 0.05]] rounds to zero (ties go to the even 0). *)
Lemma round1_small (x : Q) : - (1 # 20) <= x -> x <= 1 # 20 -> round1 x == 0.
Proof.
  intros Hlo Hhi.
  assert (E1 : round1 (- (1 # 20)) == 0) by reflexivity.
  assert (E2 : round1 (1 # 20) == 0) by reflexivity.
  pose proof (round1_mono _ _ Hlo). pose proof (round1_mono _ _ Hhi). lra.
Qed.

(** A positive multiple of one tenth is at least one tenth. *)
Lemma is_tenth_pos (x : Q) : is_tenth x -> 0 < x -> 1 # 10 <= x.
Proof.
  intros [z Hz] H. rewrite Hz in H. rewrite Hz.
  unfold Qlt in H. unfold Qle. simpl in *. lia.
Qed.

(** ** Block sums *)

Lemma block_sum_app (l1 l2 : list Block) :
  block_sum (l1 ++ l2) == block_sum l1 + block_sum l2.
Proof.
  induction l1 as [|b l1 IH]; simpl.
  - lra.
  - rewrite IH. lra.
Qed.

Lemma block_sum_snoc (l : list Block) (b : Block) :
  block_sum (l ++ [b]) == block_sum l + hours b.
Proof. rewrite block_sum_app. simpl. lra. Qed.

(** ** The plan dict *)

Lemma NoDup_DAYS : NoDup DAYS.
Proof. unfold DAYS. repeat constructor; simpl; intuition congruence. Qed.

Lemma DAYS_inj (i j : nat) (d : string) :
  nth_error DAYS i = Some d -> nth_error DAYS j = Some d -> i = j.
Proof.
  intros Hi Hj.
  apply (proj1 (NoDup_nth_error DAYS) NoDup_DAYS).
  - apply nth_error_Some. rewrite Hi. discriminate.
  - rewrite Hi, Hj. reflexivity.
Qed.

Lemma plan_get_append (d d' : string) (b : Block) (p : Plan) :
  plan_get d' (plan_append d b p) =
  if String.eqb d d' then option_map (fun bs => bs ++ [b]) (plan_get d p)
  else plan_get d' p.
Proof.
  induction p as [|[k bs] p IH]; simpl.
  - destruct (String.eqb d d'); reflexivity.
  - destruct (String.eqb k d) eqn:Ekd; simpl.
    + apply String.eqb_eq in Ekd. subst k.
      destruct (String.eqb d d'); reflexivity.
    + destruct (String.eqb k d') eqn:Ekd'.
      * apply String.eqb_eq in Ekd'. subst k.
        rewrite String.eqb_sym, Ekd. reflexivity.
      * exact IH.
Qed.

Lemma plan_append_keys (d : string) (b : Block) (p : Plan) :
  map fst (plan_append d b p) = map fst p.
Proof.
  induction p as [|[k bs] p IH]; simpl; [reflexivity|].
  destruct (String.eqb k d); simpl; [reflexivity|].
  rewrite IH. reflexivity.
Qed.

Lemma plan_get_keys (d : string) (p : Plan) :
  In d (map fst p) -> exists bs, plan_get d p = Some bs.
Proof.
  induction p as [|[k bs] p IH]; simpl; [tauto|].
  intros [-> | Hin].
  - rewrite String.eqb_refl. eauto.
  - destruct (String.eqb k d); eauto.
Qed.

Lemma plan_get_In (d : string) (p : Plan) (bs : list Block) :
  plan_get d p = Some bs -> In (d, bs) p.
Proof.
  induction p as [|[k bs'] p IH]; simpl; [discriminate|].
  destruct (String.eqb k d) eqn:E.
  - apply String.eqb_eq in E. subst k. intros [= ->]. auto.
  - auto.
Qed.

Lemma day_total_append (d d' : string) (b : Block) (p : Plan) (bs : list Block) :
  plan_get d p = Some bs ->
  day_total (plan_append d b p) d' ==
  if String.eqb d d' then day_total p d + hours b else day_total p d'.
Proof.
  intros Hget. unfold day_total, day_blocks.
  rewrite plan_get_append.
  destruct (String.eqb d d') eqn:E.
  - rewrite Hget. simpl. apply block_sum_snoc.
  - reflexivity.
Qed.

Lemma day_blocks_append_other (d d' : string) (b : Block) (p : Plan) :
  d <> d' -> day_blocks (plan_append d b p) d' = day_blocks p d'.
Proof.
  intros Hne. unfold day_blocks. rewrite plan_get_append.
  apply String.eqb_neq in Hne. rewrite Hne. reflexivity.
Qed.

(** The blocks of the whole plan after an append: the new block is
    somewhere among the old ones. *)
Lemma all_blocks_append (d : string) (b : Block) (p : Plan) (bs : list Block) :
  plan_get d p = Some bs ->
  exists l1 l2, all_blocks p = l1 ++ l2 /\
                all_blocks (plan_append d b p) = l1 ++ b :: l2.
Proof.
  unfold all_blocks.
  induction p as [|[k bs'] p IH]; simpl; [discriminate|].
  destruct (String.eqb k d) eqn:E.
  - intros _. exists bs', (List.concat (map snd p)). simpl.
    rewrite <- app_assoc. auto.
  - intros Hget. destruct (IH Hget) as (l1 & l2 & H1 & H2).
    exists (bs' ++ l1), l2. simpl. rewrite H1, H2, !app_assoc. auto.
Qed.

Lemma block_sum_filter_insert (f : Block -> bool) (b : Block) (l1 l2 : list Block) :
  block_sum (filter f (l1 ++ b :: l2)) ==
  block_sum (filter f (l1 ++ l2)) + (if f b then hours b else 0).
Proof.
  rewrite !filter_app, !block_sum_app. simpl.
  destruct (f b); simpl; lra.
Qed.

Lemma block_sum_insert (b : Block) (l1 l2 : list Block) :
  block_sum (l1 ++ b :: l2) == block_sum (l1 ++ l2) + hours b.
Proof. rewrite !block_sum_app. simpl. lra. Qed.

Lemma subject_total_append (d : string) (b : Block) (p : Plan) (bs : list Block) (sid : Z) :
  plan_get d p = Some bs ->
  subject_total (plan_append d b p) sid ==
  subject_total p sid + (if (subject_id b =? sid)%Z then hours b else 0).
Proof.
  intros Hget. destruct (all_blocks_append d b p bs Hget) as (l1 & l2 & H1 & H2).
  unfold subject_total, subject_blocks. rewrite H1, H2.
  apply block_sum_filter_insert.
Qed.

Lemma grand_total_append (d : string) (b : Block) (p : Plan) (bs : list Block) :
  plan_get d p = Some bs ->
  block_sum (all_blocks (plan_append d b p)) == block_sum (all_blocks p) + hours b.
Proof.
  intros Hget. destruct (all_blocks_append d b p bs Hget) as (l1 & l2 & H1 & H2).
  rewrite H1, H2. apply block_sum_insert.
Qed.

Lemma all_blocks_append_In (d : string) (b b' : Block) (p : Plan) :
  In b' (all_blocks (plan_append d b p)) -> b' = b \/ In b' (all_blocks p).
Proof.
  destruct (plan_get d p) as [bs|] eqn:Hget.
  - destruct (all_blocks_append d b p bs Hget) as (l1 & l2 & H1 & H2).
    rewrite H1, H2, !in_app_iff. simpl. intuition auto.
  - assert (E : plan_append d b p = p).
    { clear b'. induction p as [|[k bs] p IH]; simpl in *; [reflexivity|].
      destruct (String.eqb k d); [discriminate|]. rewrite IH; auto. }
    rewrite E. auto.
Qed.

Lemma day_blocks_all (p : Plan) (d : string) (b : Block) :
  In b (day_blocks p d) -> In b (all_blocks p).
Proof.
  unfold day_blocks, all_blocks.
  destruct (plan_get d p) as [bs|] eqn:Hget; [|simpl; tauto].
  intros Hin. apply plan_get_In in Hget.
  apply in_concat. exists bs. split; [|exact Hin].
  apply in_map_iff. exists (d, bs). auto.
Qed.

(** ** Boolean tests *)

Lemma Qle_bool_false (x y : Q) : Qle_bool x y = false -> y < x.
Proof.
  intros H. apply Qnot_le_lt. intros Hle.
  apply Qle_bool_iff in Hle. congruence.
Qed.

Lemma Qlt_bool_true (x y : Q) : Qlt_bool x y = true -> x < y.
Proof.
  unfold Qlt_bool. intros H. apply Qle_bool_false.
  destruct (Qle_bool y x); [discriminate|reflexivity].
Qed.

Lemma Qlt_bool_false (x y : Q) : Qlt_bool x y = false -> y <= x.
Proof.
  unfold Qlt_bool. intros H. apply Qle_bool_iff.
  destruct (Qle_bool y x); [reflexivity|discriminate].
Qed.

(** ** The block of one allocation step *)

Lemma max_block_tenth (p : Z) : is_tenth (max_block p).
Proof.
  unfold max_block.
  destruct (p =? 3)%Z; [exists 30%Z; reflexivity|].
  destruct (p =? 2)%Z; [exists 20%Z; reflexivity|].
  exists 15%Z. reflexivity.
Qed.

Lemma max_block_pos (p : Z) : 0 < max_block p.
Proof.
  unfold max_block.
  destruct (p =? 3)%Z; [reflexivity|].
  destruct (p =? 2)%Z; reflexivity.
Qed.

Section Block.
Variables (r a : Q) (p : Z).
Hypothesis Hr : 0 < r.
Hypothesis Ha : 0 < a.

Let b := round1 (Qmin (Qmin r a) (max_block p)).

Lemma block_nonneg : 0 <= b.
Proof.
  apply round1_nonneg. apply Q.min_glb; [apply Q.min_glb|]; try lra.
  pose proof (max_block_pos p). lra.
Qed.

Lemma block_le_cap : b <= max_block p.
Proof.
  rewrite <- (round1_tenth (max_block p) (max_block_tenth p)).
  apply round1_mono, Q.le_min_r.
Qed.

Lemma block_le_remaining : b <= round1 r.
Proof.
  apply round1_mono. eapply Qle_trans; [apply Q.le_min_l|apply Q.le_min_l].
Qed.

Lemma block_le_available : b <= a + (1 # 20).
Proof.
  eapply Qle_trans; [|apply round1_upper].
  apply round1_mono. eapply Qle_trans; [apply Q.le_min_l|apply Q.le_min_r].
Qed.

Lemma block_tenth : is_tenth b.
Proof. apply round1_is_tenth. Qed.
End Block.

(** ** The loop body, case by case *)

Lemma loop_body_cases (cap : Q) (sub : Subject) (r : Q) (st : State) (r' : Q) (st' : State) :
  loop_body cap sub r st = Done (r', st') ->
  (cap - day_hours st <= 0 /\ r' = r /\
   st' = mkState (plan st) (S (day_idx st)) 0)
  \/
  (exists d bs,
      let b := round1 (Qmin (Qmin r (cap - day_hours st)) (max_block (priority sub))) in
      0 < cap - day_hours st /\
      nth_error DAYS (day_idx st) = Some d /\
      plan_get d (plan st) = Some bs /\
      r' = round1 (r - b) /\
      plan st' = plan_append d (mkBlock (id sub) b) (plan st) /\
      ((cap <= round1 (day_hours st + b) /\
        day_idx st' = S (day_idx st) /\ day_hours st' = 0)
       \/
       (round1 (day_hours st + b) < cap /\
        day_idx st' = day_idx st /\ day_hours st' = round1 (day_hours st + b)))).
Proof.
  unfold loop_body.
  destruct (Qle_bool (cap - day_hours st) 0) eqn:Ea.
  - intros [= <- <-]. left. apply Qle_bool_iff in Ea. auto.
  - apply Qle_bool_false in Ea.
    destruct (nth_error DAYS (day_idx st)) as [d|] eqn:Ed; [|discriminate].
    destruct (plan_get d (plan st)) as [bs|] eqn:Eg; [|discriminate].
    destruct (Qle_bool cap _) eqn:Ec; intros [= <- <-]; right; exists d, bs; simpl.
    + apply Qle_bool_iff in Ec. intuition auto.
    + apply Qle_bool_false in Ec. intuition auto.
Qed.

(** The loop rule: what the body preserves holds at loop exit, together
    with the negated loop test. *)
Lemma while_loop_inv (P : Q -> State -> Prop) (cap : Q) (sub : Subject) :
  (forall r st r' st',
      P r st -> 0 < r -> (day_idx st < 7)%nat ->
      loop_body cap sub r st = Done (r', st') -> P r' st') ->
  forall fuel r st r' st',
    while_loop fuel cap sub r st = Done (r', st') -> P r st ->
    P r' st' /\ (r' <= 0 \/ (7 <= day_idx st')%nat).
Proof.
  intros Hbody. induction fuel as [|fuel IH]; intros r st r' st'; simpl.
  - destruct (Qlt_bool 0 r) eqn:Er; simpl.
    + destruct (day_idx st <? 7)%nat eqn:Ei; [discriminate|].
      intros [= <- <-] HP. apply Nat.ltb_ge in Ei. auto.
    + intros [= <- <-] HP. apply Qlt_bool_false in Er. auto.
  - destruct (Qlt_bool 0 r) eqn:Er; simpl.
    + destruct (day_idx st <? 7)%nat eqn:Ei.
      * destruct (loop_body cap sub r st) as [[r1 st1]| |] eqn:Eb; try discriminate.
        intros Hw HP. apply (IH _ _ _ _ Hw).
        apply (Hbody r st); auto using Qlt_bool_true.
        apply Nat.ltb_lt, Ei.
      * intros [= <- <-] HP. apply Nat.ltb_ge in Ei. auto.
    + intros [= <- <-] HP. apply Qlt_bool_false in Er. auto.
Qed.

(** ** The invariant of the two loops *)


Lemma inject_succ (n : nat) :
  inject_Z (Z.of_nat (S n)) == inject_Z (Z.of_nat n) + 1.
Proof. rewrite Nat2Z.inj_succ. unfold Z.succ. rewrite inject_Z_plus. reflexivity. Qed.

Lemma day_blocks_empty (d : string) : day_blocks empty_plan d = [].
Proof.
  unfold day_blocks, empty_plan. generalize DAYS as l.
  induction l as [|k l IH]; simpl; [reflexivity|].
  destruct (String.eqb k d); [reflexivity|exact IH].
Qed.

Lemma Inv_init (cap : Q) : Inv cap (mkState empty_plan 0 0).
Proof.
  constructor; cbn [plan day_idx day_hours].
  - reflexivity.
  - lia.
  - apply is_tenth_0.
  - lra.
  - intros d. pose proof (Q.le_max_l 0 cap).
    unfold day_total. rewrite day_blocks_empty. simpl. lra.
  - intros d _. unfold day_total. rewrite day_blocks_empty. reflexivity.
  - intros i d _ _. apply day_blocks_empty.
  - unfold Qle. simpl. lia.
Qed.

Lemma loop_body_Inv (cap : Q) (sub : Subject) (r : Q) (st : State) (r' : Q) (st' : State) :
  Inv cap st -> 0 < r -> (day_idx st < 7)%nat ->
  loop_body cap sub r st = Done (r', st') -> Inv cap st'.
Proof.
  intros [Hk Hi Ht Hn Hb Hc Hl Hg] Hr Hlt Hbody.
  apply loop_body_cases in Hbody.
  destruct Hbody as [(Ha & -> & ->) | (d & bs & Hbody)].
  - (* the day is full: next day *)
    constructor; cbn [plan day_idx day_hours]; try assumption.
    + apply is_tenth_0.
    + lra.
    + intros d Hd. unfold day_total. rewrite (Hl (S (day_idx st)) d); [reflexivity|lia|exact Hd].
    + intros i d Hlt' Hd. apply (Hl i d); [lia|exact Hd].
    + rewrite inject_succ. lra.
  - simpl in Hbody.
    destruct Hbody as (Ha & Hd & Hget & _ & Hp & Hcase).
    set (b := round1 (Qmin (Qmin r (cap - day_hours st)) (max_block (priority sub)))) in *.
    pose proof (block_nonneg r (cap - day_hours st) (priority sub) Hr Ha) as Hb0.
    pose proof (block_le_available r (cap - day_hours st) (priority sub)) as Hba.
    pose proof (block_tenth r (cap - day_hours st) (priority sub)) as Hbt.
    fold b in Hb0, Hba, Hbt.
    assert (Hsum : round1 (day_hours st + b) == day_hours st + b).
    { apply round1_tenth, is_tenth_plus; assumption. }
    assert (Htot : forall d', day_total (plan st') d' ==
                              if String.eqb d d' then day_hours st + b
                              else day_total (plan st) d').
    { intros d'. rewrite Hp, (day_total_append d d' _ _ bs Hget). simpl.
      destruct (String.eqb d d'); [|reflexivity].
      rewrite (Hc d Hd). reflexivity. }
    assert (Hbnd : forall d', day_total (plan st') d' <= Qmax 0 cap + (1 # 20)).
    { intros d'. rewrite Htot. destruct (String.eqb d d'); [|apply Hb].
      pose proof (Q.le_max_r 0 cap). lra. }
    assert (Hlater : forall i d', (day_idx st < i)%nat -> nth_error DAYS i = Some d' ->
                                  day_blocks (plan st') d' = []).
    { intros i d' Hlt' Hd'. rewrite Hp, day_blocks_append_other.
      - apply (Hl i d'); assumption.
      - intros ->. pose proof (DAYS_inj _ _ _ Hd Hd'). lia. }
    assert (Hgr : block_sum (all_blocks (plan st')) ==
                  block_sum (all_blocks (plan st)) + b).
    { rewrite Hp, (grand_total_append d _ _ bs Hget). reflexivity. }
    assert (Hkeys : map fst (plan st') = DAYS).
    { rewrite Hp, plan_append_keys. exact Hk. }
    destruct Hcase as [(Hfull & Hi' & Hh') | (Hroom & Hi' & Hh')];
      constructor; rewrite ?Hi', ?Hh'; try assumption.
    + apply is_tenth_0.
    + lra.
    + intros d' Hd'. unfold day_total.
      rewrite (Hlater (S (day_idx st)) d'); [reflexivity|lia|exact Hd'].
    + intros i d' Hlt' Hd'. apply (Hlater i d'); [lia|exact Hd'].
    + rewrite inject_succ, Hgr. lra.
    + apply round1_is_tenth.
    + lra.
    + intros d' Hd'. rewrite Hd in Hd'. injection Hd' as <-.
      rewrite Htot, String.eqb_refl, Hsum. reflexivity.
    + rewrite Hgr. lra.
Qed.

Lemma while_loop_Inv (fuel : nat) (cap : Q) (sub : Subject) (r : Q) (st : State)
      (r' : Q) (st' : State) :
  while_loop fuel cap sub r st = Done (r', st') -> Inv cap st -> Inv cap st'.
Proof.
  intros Hw HI.
  apply (while_loop_inv (fun _ s => Inv cap s) cap sub) in Hw; [tauto| |exact HI].
  intros. eapply loop_body_Inv; eauto.
Qed.

Lemma for_subjects_Inv (fuel : nat) (cap : Q) (subs : list Subject) :
  forall st st', for_subjects fuel cap subs st = Done st' -> Inv cap st -> Inv cap st'.
Proof.
  induction subs as [|sub subs IH]; simpl; intros st st'.
  - intros [= <-]. auto.
  - destruct (while_loop fuel cap sub (total_hours sub) st) as [[r1 st1]| |] eqn:Ew;
      try discriminate.
    intros Hf HI. apply (IH _ _ Hf). eapply while_loop_Inv; eauto.
Qed.

(** ** Which blocks are emitted *)

Section Emitted.
Variable Pb : Block -> Prop.
Variables (cap : Q).


Lemma loop_body_emits (sub : Subject) (r : Q) (st : State) (r' : Q) (st' : State) :
  emits Pb sub -> all_in Pb (plan st) -> 0 < r ->
  loop_body cap sub r st = Done (r', st') -> all_in Pb (plan st').
Proof.
  intros He Hall Hr Hbody.
  apply loop_body_cases in Hbody.
  destruct Hbody as [(_ & _ & ->) | (d & bs & Hbody)]; [exact Hall|].
  simpl in Hbody. destruct Hbody as (Ha & _ & _ & _ & Hp & _).
  intros b Hb. rewrite Hp in Hb.
  apply all_blocks_append_In in Hb. destruct Hb as [-> | Hb]; [|auto].
  apply He.
  - apply block_nonneg; assumption.
  - apply block_le_cap.
  - apply block_tenth.
Qed.

Lemma while_loop_emits (fuel : nat) (sub : Subject) (r : Q) (st : State)
      (r' : Q) (st' : State) :
  emits Pb sub -> while_loop fuel cap sub r st = Done (r', st') ->
  all_in Pb (plan st) -> all_in Pb (plan st').
Proof.
  intros He Hw Hall.
  apply (while_loop_inv (fun _ s => all_in Pb (plan s)) cap sub) in Hw; [tauto| |exact Hall].
  intros. eapply loop_body_emits; eauto.
Qed.

Lemma for_subjects_emits (fuel : nat) (subs : list Subject) :
  (forall sub, In sub subs -> emits Pb sub) ->
  forall st st', for_subjects fuel cap subs st = Done st' ->
                 all_in Pb (plan st) -> all_in Pb (plan st').
Proof.
  induction subs as [|sub subs IH]; simpl; intros He st st'.
  - intros [= <-]. auto.
  - destruct (while_loop fuel cap sub (total_hours sub) st) as [[r1 st1]| |] eqn:Ew;
      try discriminate.
    intros Hf Hall. apply (IH (fun s H => He s (or_intror H)) _ _ Hf).
    eapply while_loop_emits; eauto.
Qed.
End Emitted.

(** ** Sums of hours *)

Lemma fold_left_Qplus (l : list Q) (a : Q) :
  fold_left Qplus l a == a + fold_left Qplus l 0.
Proof.
  revert a. induction l as [|x l IH]; intros a; simpl.
  - lra.
  - rewrite (IH (a + x)), (IH (0 + x)). lra.
Qed.

Lemma sum_hours_cons (x : Q) (l : list Q) : sum_hours (x :: l) == x + sum_hours l.
Proof. unfold sum_hours. simpl. rewrite fold_left_Qplus. lra. Qed.

Lemma sum_hours_perm (A : Type) (f : A -> Q) (l l' : list A) :
  Permutation l l' -> sum_hours (map f l) == sum_hours (map f l').
Proof.
  induction 1; simpl.
  - reflexivity.
  - rewrite !sum_hours_cons, IHPermutation. reflexivity.
  - rewrite !sum_hours_cons. lra.
  - rewrite IHPermutation1. exact IHPermutation2.
Qed.

Lemma sum_hours_nonneg (l : list Q) : Forall (fun x => 0 <= x) l -> 0 <= sum_hours l.
Proof.
  induction 1 as [|x l Hx _ IH].
  - unfold sum_hours. simpl. lra.
  - rewrite sum_hours_cons. lra.
Qed.

(** ** Accounting for one subject *)

Lemma loop_body_others (cap : Q) (sub : Subject) (r : Q) (st : State)
      (r' : Q) (st' : State) (sid : Z) :
  sid <> id sub -> loop_body cap sub r st = Done (r', st') ->
  subject_total (plan st') sid == subject_total (plan st) sid.
Proof.
  intros Hne Hbody. apply loop_body_cases in Hbody.
  destruct Hbody as [(_ & _ & ->) | (d & bs & Hbody)]; [reflexivity|].
  simpl in Hbody. destruct Hbody as (_ & _ & Hget & _ & Hp & _).
  rewrite Hp, (subject_total_append d _ _ bs sid Hget). simpl.
  destruct (Z.eqb_spec (id sub) sid); [congruence|lra].
Qed.

Lemma while_loop_others (fuel : nat) (cap : Q) (sub : Subject) (r : Q) (st : State)
      (r' : Q) (st' : State) (sid : Z) :
  sid <> id sub -> while_loop fuel cap sub r st = Done (r', st') ->
  subject_total (plan st') sid == subject_total (plan st) sid.
Proof.
  intros Hne Hw.
  apply (while_loop_inv
           (fun _ s => subject_total (plan s) sid == subject_total (plan st) sid)
           cap sub) in Hw; [tauto| |reflexivity].
  intros r1 st1 r2 st2 HP _ _ Hbody.
  rewrite (loop_body_others _ _ _ _ _ _ sid Hne Hbody). exact HP.
Qed.

Lemma for_subjects_others (fuel : nat) (cap : Q) (subs : list Subject) (sid : Z) :
  ~ In sid (map id subs) ->
  forall st st', for_subjects fuel cap subs st = Done st' ->
                 subject_total (plan st') sid == subject_total (plan st) sid.
Proof.
  induction subs as [|sub subs IH]; simpl; intros Hnin st st'.
  - intros [= <-]. reflexivity.
  - destruct (while_loop fuel cap sub (total_hours sub) st) as [[r1 st1]| |] eqn:Ew;
      try discriminate.
    intros Hf. rewrite (IH (fun H => Hnin (or_intror H)) _ _ Hf).
    apply (while_loop_others _ _ _ _ _ _ _ sid) in Ew; [exact Ew|].
    intros ->. apply Hnin. auto.
Qed.

Section Accounting.
Variables (cap : Q) (sub : Subject).
(** The values at loop entry: remaining workload, hours of the subject
    and hours of the whole plan. *)
Variables (r0 a0 x0 : Q).


Lemma loop_body_exact (r : Q) (st : State) (r' : Q) (st' : State) :
  conserved sub r0 a0 x0 r st -> 0 < r -> loop_body cap sub r st = Done (r', st') -> conserved sub r0 a0 x0 r' st'.
Proof.
  intros (Ht & Hn & Ha & Hx) Hr Hbody. apply loop_body_cases in Hbody.
  destruct Hbody as [(_ & -> & ->) | (d & bs & Hbody)]; [repeat split; assumption|].
  simpl in Hbody. destruct Hbody as (Hav & _ & Hget & -> & Hp & _).
  set (b := round1 (Qmin (Qmin r (cap - day_hours st)) (max_block (priority sub)))) in *.
  pose proof (block_le_remaining r (cap - day_hours st) (priority sub)) as Hbr.
  pose proof (block_tenth r (cap - day_hours st) (priority sub)) as Hbt.
  fold b in Hbr, Hbt. rewrite (round1_tenth r Ht) in Hbr.
  assert (Hsub : round1 (r - b) == r - b).
  { apply round1_tenth, is_tenth_minus; assumption. }
  unfold conserved. rewrite Hp.
  rewrite (subject_total_append d _ _ bs (id sub) Hget).
  rewrite (grand_total_append d _ _ bs Hget).
  cbn [subject_id hours]. rewrite Z.eqb_refl.
  split; [apply round1_is_tenth|].
  split; [|split]; rewrite Hsub; lra.
Qed.

End Accounting.

Lemma while_loop_exact (fuel : nat) (cap : Q) (sub : Subject) (st : State)
      (r' : Q) (st' : State) :
  while_loop fuel cap sub (total_hours sub) st = Done (r', st') ->
  is_tenth (total_hours sub) -> 0 <= total_hours sub ->
  0 <= r' /\
  subject_total (plan st') (id sub) + r'
    == subject_total (plan st) (id sub) + total_hours sub /\
  block_sum (all_blocks (plan st')) + r'
    == block_sum (all_blocks (plan st)) + total_hours sub /\
  (r' <= 0 \/ (7 <= day_idx st')%nat).
Proof.
  intros Hw Ht Hn.
  apply (while_loop_inv
           (conserved sub (total_hours sub) (subject_total (plan st) (id sub))
                  (block_sum (all_blocks (plan st))))
           cap sub) in Hw.
  - destruct Hw as ((_ & H1 & H2 & H3) & H4). auto.
  - intros r1 st1 r2 st2 HP Hr _ Hbody. eapply loop_body_exact; eauto.
  - repeat split; try assumption; lra.
Qed.


(** ** Accounting over the subject list *)



Lemma for_subjects_exact (fuel : nat) (cap : Q) (subs : list Subject) :
  NoDup (map id subs) -> Forall tenth_hours subs ->
  forall st st', for_subjects fuel cap subs st = Done st' -> Inv cap st ->
  block_sum (all_blocks (plan st)) + sum_hours (map total_hours subs) <= 7 * cap ->
  forall s, In s subs ->
    subject_total (plan st') (id s)
      == subject_total (plan st) (id s) + total_hours s.
Proof.
  induction subs as [|sub subs IH]; simpl; intros Hnd Hall st st' Hf HI Hbud s Hin; [tauto|].
  inversion Hnd as [|? ? Hnin Hnd']; subst.
  inversion Hall as [|? ? [Ht Hn] Hall']; subst.
  destruct (while_loop fuel cap sub (total_hours sub) st) as [[r1 st1]| |] eqn:Ew;
    try discriminate.
  rewrite sum_hours_cons in Hbud.
  assert (Hrest : 0 <= sum_hours (map total_hours subs)).
  { apply sum_hours_nonneg. apply Forall_map.
    eapply Forall_impl; [|exact Hall']. intros ? [_ H]. exact H. }
  pose proof (while_loop_Inv _ _ _ _ _ _ _ Ew HI) as HI1.
  destruct (while_loop_exact _ _ _ _ _ _ Ew Ht Hn) as (Hr1 & Ha & Hx & Hexit).
  (* the subject is exhausted: otherwise seven full days hold less than the budget *)
  assert (Hz : r1 == 0).
  { destruct Hexit as [Hle | Hidx]; [lra|].
    destruct (Qlt_le_dec 0 r1) as [Hpos|]; [|lra].
    exfalso.
    pose proof (inv_idx _ _ HI1) as Hle7.
    pose proof (inv_grand _ _ HI1) as Hg.
    pose proof (inv_nonneg _ _ HI1) as Hdh.
    replace (day_idx st1) with 7%nat in Hg by lia.
    change (inject_Z (Z.of_nat 7)) with 7 in Hg. lra. }
  destruct Hin as [<- | Hin].
  - rewrite (for_subjects_others fuel cap subs (id sub) Hnin _ _ Hf). lra.
  - assert (Hne : id s <> id sub).
    { intros E. apply Hnin. rewrite <- E. apply in_map, Hin. }
    rewrite <- (while_loop_others _ _ _ _ _ _ _ (id s) Hne Ew).
    apply (IH Hnd' Hall' _ _ Hf HI1); [lra|exact Hin].
Qed.






(** ** The stable descending sort *)

Section SortingFacts.
Context {A : Type} (key : A -> Q).


Lemma insert_desc_perm (x : A) (l : list A) :
  Permutation (x :: l) (insert_desc key x l).
Proof.
  induction l as [|y l IH]; simpl; [reflexivity|].
  destruct (Qlt_bool (key x) (key y)); [|reflexivity].
  rewrite perm_swap. apply perm_skip, IH.
Qed.

Lemma sorted_desc_perm (l : list A) : Permutation l (sorted_desc key l).
Proof.
  induction l as [|x l IH]; simpl; [reflexivity|].
  rewrite <- insert_desc_perm. apply perm_skip, IH.
Qed.

Lemma insert_desc_sorted (x : A) (l : list A) :
  StronglySorted (desc key) l -> StronglySorted (desc key) (insert_desc key x l).
Proof.
  induction 1 as [|y l Hs IH Hy]; simpl.
  - constructor; constructor.
  - destruct (Qlt_bool (key x) (key y)) eqn:E.
    + apply Qlt_bool_true in E. constructor; [exact IH|].
      apply (Permutation_Forall (insert_desc_perm x l)).
      constructor; [unfold desc; lra|exact Hy].
    + apply Qlt_bool_false in E. constructor.
      * constructor; assumption.
      * constructor; [exact E|].
        eapply Forall_impl; [|exact Hy].
        unfold desc. intros z Hz. lra.
Qed.

Lemma sorted_desc_sorted (l : list A) : StronglySorted (desc key) (sorted_desc key l).
Proof.
  induction l as [|x l IH]; simpl; [constructor|].
  apply insert_desc_sorted, IH.
Qed.

Lemma insert_desc_with_key (u : Q) (x : A) (l : list A) :
  with_key key u (insert_desc key x l) = with_key key u (x :: l).
Proof.
  induction l as [|y l IH]; simpl; [reflexivity|].
  destruct (Qlt_bool (key x) (key y)) eqn:E; [|reflexivity].
  apply Qlt_bool_true in E. simpl in *. rewrite IH.
  destruct (Qeq_bool (key x) u) eqn:Ex; [|reflexivity].
  destruct (Qeq_bool (key y) u) eqn:Ey; [|reflexivity].
  apply Qeq_bool_iff in Ex, Ey. lra.
Qed.

Lemma sorted_desc_stable (u : Q) (l : list A) :
  with_key key u (sorted_desc key l) = with_key key u l.
Proof.
  induction l as [|x l IH]; simpl; [reflexivity|].
  rewrite insert_desc_with_key. simpl. rewrite IH. reflexivity.
Qed.
End SortingFacts.

(** ** Runs of the allocator *)

Lemma Qlt_bool_intro (x y : Q) : x < y -> Qlt_bool x y = true.
Proof.
  intros H. unfold Qlt_bool.
  destruct (Qle_bool y x) eqn:E; [|reflexivity].
  apply Qle_bool_iff in E. lra.
Qed.

Lemma Qle_bool_intro_false (x y : Q) : y < x -> Qle_bool x y = false.
Proof.
  intros H. destruct (Qle_bool x y) eqn:E; [|reflexivity].
  apply Qle_bool_iff in E. lra.
Qed.

(** A returned plan is the plan of the state after the [for] loop over the
    ranked subjects (also for the empty list, which returns early). *)
Lemma ai_generate_plan_run (strptime : string -> option Z) (today : Z)
      (fuel : nat) (subs : list Subject) (cap : Q) (p : Plan) :
  ai_generate_plan strptime today fuel subs cap = Done p ->
  exists st,
    for_subjects fuel cap (sorted_desc (urgency strptime today) subs)
                 (mkState empty_plan 0 0) = Done st /\
    plan st = p.
Proof.
  unfold ai_generate_plan. destruct subs as [|s subs].
  - intros [= <-]. simpl. eauto.
  - destruct (for_subjects _ _ _ _) as [st| |]; try discriminate.
    intros [= <-]. eauto.
Qed.

(** Without capacity every run of the body is the [continue]: the loop
    walks the day cursor to 7 and leaves the plan alone. *)
Lemma while_loop_no_capacity (cap : Q) (sub : Subject) :
  cap <= 0 ->
  forall fuel p i r, (7 - i <= fuel)%nat ->
    exists j, while_loop fuel cap sub r (mkState p i 0) = Done (r, mkState p j 0).
Proof.
  intros Hcap. induction fuel as [|fuel IH]; intros p i r Hfuel; simpl.
  - destruct (Qlt_bool 0 r); simpl; [|eauto].
    destruct (Nat.ltb_spec i 7); [lia|eauto].
  - destruct (Qlt_bool 0 r); simpl; [|eauto].
    destruct (Nat.ltb_spec i 7); [|eauto].
    unfold loop_body. cbn [plan day_idx day_hours].
    assert (E : Qle_bool (cap - 0) 0 = true) by (apply Qle_bool_iff; lra).
    rewrite E. apply IH. lia.
Qed.

Lemma for_subjects_no_capacity (cap : Q) (fuel : nat) :
  cap <= 0 -> (7 <= fuel)%nat ->
  forall subs p i,
    exists j, for_subjects fuel cap subs (mkState p i 0) = Done (mkState p j 0).
Proof.
  intros Hcap Hfuel. induction subs as [|sub subs IH]; intros p i; simpl; [eauto|].
  destruct (while_loop_no_capacity cap sub Hcap fuel p i (total_hours sub)) as [j ->];
    [lia|].
  apply IH.
Qed.

(** With a capacity of at most half a tenth the first block rounds to zero
    and the body gives back the state it started from, but for one more
    zero block in the plan: the loop test stays true. *)
Lemma while_loop_stuck (cap : Q) (sub : Subject) :
  0 < cap -> cap <= 1 # 20 ->
  forall fuel r p dh,
    is_tenth r -> 0 < r -> dh == 0 ->
    (exists bs, plan_get "Monday" p = Some bs) ->
    while_loop fuel cap sub r (mkState p 0 dh) = OutOfFuel.
Proof.
  intros Hc0 Hc1. induction fuel as [|fuel IH]; intros r p dh Ht Hr Hdh [bs Hget]; simpl.
  - rewrite (Qlt_bool_intro 0 r Hr). reflexivity.
  - rewrite (Qlt_bool_intro 0 r Hr). simpl.
    unfold loop_body. cbn [plan day_idx day_hours].
    rewrite (Qle_bool_intro_false (cap - dh) 0) by lra.
    change (nth_error DAYS 0) with (Some "Monday"%string). cbv beta iota.
    rewrite Hget.
    set (b := round1 (Qmin (Qmin r (cap - dh)) (max_block (priority sub)))).
    assert (Hb : b == 0).
    { apply round1_small.
      - pose proof (block_nonneg r (cap - dh) (priority sub) Hr).
        assert (Hm : 0 <= Qmin (Qmin r (cap - dh)) (max_block (priority sub))).
        { pose proof (max_block_pos (priority sub)).
          apply Q.min_glb; [apply Q.min_glb|]; lra. }
        lra.
      - eapply Qle_trans; [apply Q.le_min_l|].
        eapply Qle_trans; [apply Q.le_min_r|]. lra. }
    assert (Hr' : round1 (r - b) == r).
    { rewrite (round1_comp (r - b) r) by lra. apply round1_tenth, Ht. }
    assert (Hdh' : round1 (dh + b) == 0).
    { rewrite (round1_comp (dh + b) 0) by lra. apply round1_0. }
    rewrite (Qle_bool_intro_false cap (round1 (dh + b))) by lra.
    apply IH.
    + apply round1_is_tenth.
    + lra.
    + exact Hdh'.
    + rewrite plan_get_append, String.eqb_refl, Hget. simpl. eauto.
Qed.

(** ** Completed hours play no part *)






(** ** When the allocator returns *)

Section Termination.
Variable cap : Q.


Hypothesis Hclear : clear_of_tenths cap.

Lemma round1_above (x : Q) : 1 # 20 < x -> 1 # 10 <= round1 x.
Proof.
  intros H. apply is_tenth_pos; [apply round1_is_tenth|].
  pose proof (round1_lower x). lra.
Qed.

Lemma while_loop_exit (fuel : nat) (sub : Subject) (r : Q) (st : State) :
  r <= 0 -> while_loop fuel cap sub r st = Done (r, st).
Proof.
  intros H.
  assert (E : Qlt_bool 0 r = false).
  { unfold Qlt_bool. apply (proj2 (Qle_bool_iff r 0)) in H. rewrite H. reflexivity. }
  destruct fuel; simpl; rewrite E; reflexivity.
Qed.

Lemma loop_body_progress (sub : Subject) (r : Q) (st : State) :
  Inv cap st -> 0 < r -> (day_idx st < 7)%nat ->
  exists r' st',
    loop_body cap sub r st = Done (r', st') /\
    ((r' = r /\ day_idx st' = S (day_idx st)) \/
     (r' <= r - (1 # 20) /\ (day_idx st <= day_idx st')%nat) \/
     r' <= 0).
Proof.
  intros HI Hr Hlt. unfold loop_body.
  destruct (Qle_bool (cap - day_hours st) 0) eqn:Ea.
  - do 2 eexists. split; [reflexivity|]. left. split; reflexivity.
  - apply Qle_bool_false in Ea.
    destruct (nth_error DAYS (day_idx st)) as [d|] eqn:Ed.
    2:{ apply nth_error_None in Ed. simpl in Ed. lia. }
    destruct (plan_get_keys d (plan st)) as [bs Hget].
    { rewrite (inv_keys _ _ HI). eapply nth_error_In, Ed. }
    rewrite Hget.
    set (a := cap - day_hours st) in *.
    set (b := round1 (Qmin (Qmin r a) (max_block (priority sub)))).
    assert (Hroom : 1 # 20 < a).
    { destruct (inv_tenth _ _ HI) as [z Hz].
      pose proof (inv_nonneg _ _ HI) as Hn.
      assert (Hz0 : (0 <= z)%Z).
      { rewrite Hz in Hn. unfold Qle in Hn. simpl in Hn. lia. }
      unfold a. rewrite Hz. apply (Hclear z Hz0). rewrite <- Hz. unfold a in Ea. lra. }
    assert (Hprog : round1 (r - b) <= r - (1 # 20) \/ round1 (r - b) <= 0).
    { destruct (Qlt_le_dec (1 # 20) r) as [Hbig|Hsmall].
      - left.
        assert (Hb : 1 # 10 <= b).
        { apply round1_above.
          pose proof (max_block_tenth (priority sub)) as Hmt.
          pose proof (is_tenth_pos _ Hmt (max_block_pos (priority sub))).
          apply Q.min_glb_lt; [apply Q.min_glb_lt|]; lra. }
        pose proof (round1_upper (r - b)). lra.
      - right.
        assert (Hb : b == 0).
        { apply round1_small.
          - assert (0 <= Qmin (Qmin r a) (max_block (priority sub))); [|lra].
            pose proof (max_block_pos (priority sub)).
            apply Q.min_glb; [apply Q.min_glb|]; lra.
          - eapply Qle_trans; [apply Q.le_min_l|].
            eapply Qle_trans; [apply Q.le_min_l|]. exact Hsmall. }
        rewrite (round1_comp (r - b) r) by lra.
        rewrite (round1_small r) by lra. lra. }
    destruct (Qle_bool cap (round1 (day_hours st + b)));
      do 2 eexists; (split; [reflexivity|]); right;
      cbn [day_idx]; destruct Hprog; auto.
Qed.

Lemma while_loop_terminates (sub : Subject) :
  forall fuel r st,
    Inv cap st ->
    20 * r + inject_Z (Z.of_nat (7 - day_idx st)) + 1 <= inject_Z (Z.of_nat fuel) ->
    exists r' st', while_loop fuel cap sub r st = Done (r', st').
Proof.
  induction fuel as [|fuel IH]; intros r st HI Hm.
  - assert (Hpos : 0 <= inject_Z (Z.of_nat (7 - day_idx st))).
    { change 0 with (inject_Z 0). rewrite <- Zle_Qle. lia. }
    change (inject_Z (Z.of_nat 0)) with 0 in Hm.
    exists r, st. apply while_loop_exit. lra.
  - simpl while_loop.
    destruct (Qlt_bool 0 r) eqn:Er; [|simpl; eauto].
    destruct (day_idx st <? 7)%nat eqn:Ei; [|simpl; eauto].
    apply Qlt_bool_true in Er. apply Nat.ltb_lt in Ei. simpl andb. cbv iota.
    destruct (loop_body_progress sub r st HI Er Ei) as (r1 & st1 & Hbody & Hcase).
    rewrite Hbody.
    pose proof (loop_body_Inv _ _ _ _ _ _ HI Er Ei Hbody) as HI1.
    rewrite inject_succ in Hm.
    destruct Hcase as [(-> & Hi1) | [(Hr1 & Hi1) | Hr1]].
    + apply IH; [exact HI1|]. rewrite Hi1.
      assert (E : inject_Z (Z.of_nat (7 - day_idx st))
                  == inject_Z (Z.of_nat (7 - S (day_idx st))) + 1).
      { rewrite <- inject_succ. replace (S (7 - S (day_idx st))) with (7 - day_idx st)%nat by lia.
        reflexivity. }
      lra.
    + apply IH; [exact HI1|].
      assert (E : inject_Z (Z.of_nat (7 - day_idx st1))
                  <= inject_Z (Z.of_nat (7 - day_idx st))).
      { rewrite <- Zle_Qle. lia. }
      lra.
    + exists r1, st1. apply while_loop_exit, Hr1.
Qed.

Lemma for_subjects_terminates (fuel : nat) (subs : list Subject) :
  (forall s, In s subs -> 20 * total_hours s + 8 <= inject_Z (Z.of_nat fuel)) ->
  forall st, Inv cap st -> exists st', for_subjects fuel cap subs st = Done st'.
Proof.
  induction subs as [|sub subs IH]; intros Hfuel st HI; simpl; [eauto|].
  destruct (while_loop_terminates sub fuel (total_hours sub) st HI) as (r1 & st1 & Hw).
  { assert (E : inject_Z (Z.of_nat (7 - day_idx st)) <= 7).
    { change 7 with (inject_Z 7). rewrite <- Zle_Qle. lia. }
    pose proof (Hfuel sub (or_introl eq_refl)). lra. }
  rewrite Hw. apply IH.
  - intros s Hs. apply Hfuel. right. exact Hs.
  - eapply while_loop_Inv; eauto.
Qed.

Lemma enough_fuel (subs : list Subject) :
  exists fuel, forall s, In s subs ->
                         20 * total_hours s + 8 <= inject_Z (Z.of_nat fuel).
Proof.
  induction subs as [|sub subs [fuel IH]].
  - exists 0%nat. intros s [].
  - exists (Nat.max fuel (Z.to_nat (Qceiling (20 * total_hours sub + 8)))).
    intros s [<- | Hs].
    + eapply Qle_trans; [apply Qle_ceiling|]. rewrite <- Zle_Qle. lia.
    + eapply Qle_trans; [apply (IH s Hs)|]. rewrite <- Zle_Qle. lia.
Qed.

(** For such a capacity the allocator returns a plan, for every subject
    list, given enough fuel. *)
Theorem allocate_returns (strptime : string -> option Z) (today : Z)
        (subjects : list Subject) :
  exists fuel p, ai_generate_plan strptime today fuel subjects cap = Done p.
Proof.
  destruct (enough_fuel (sorted_desc (urgency strptime today) subjects)) as [fuel Hfuel].
  exists fuel. unfold ai_generate_plan. destruct subjects as [|s subjects]; [eauto|].
  destruct (for_subjects_terminates fuel _ Hfuel _ (Inv_init cap)) as [st ->]. eauto.
Qed.
End Termination.

Lemma nonpositive_clear_of_tenths (cap : Q) : cap <= 0 -> clear_of_tenths cap.
Proof.
  intros Hcap z Hz Hlt. exfalso.
  assert (0 <= z # 10) by (unfold Qle; simpl; lia). lra.
Qed.

Lemma tenth_clear_of_tenths (cap : Q) : is_tenth cap -> clear_of_tenths cap.
Proof.
  intros [c Hc] z _ Hlt.
  assert (Ht : is_tenth (cap - (z # 10))).
  { apply is_tenth_minus; [exists c; exact Hc|exists z; reflexivity]. }
  pose proof (is_tenth_pos _ Ht). lra.
Qed.

(** * The claims *)

(** ** The example of the specification *)

(** Subject 1 ranks first and fills Monday with 3.0 and 2.0 hours;
    subject 2 follows on Tuesday in blocks of at most 1.5 hours. *)
Lemma sample_run :
  ai_generate_plan sample_strptime 0 10 [sub2; sub1] 5 = Done sample_plan.
Proof. vm_compute. reflexivity. Qed.

(** ** C1: capacity bound *)

(** C1, as amended.  In a plan returned by [ai_generate_plan], for every
    subject list and every daily capacity, the block hours of any day sum
    to at most [max(capacity, 0) + 0.1]: a day never exceeds a non-negative
    capacity by more than the rounding unit. *)
Theorem day_capacity_bound (strptime : string -> option Z) (today : Z)
        (fuel : nat) (subjects : list Subject) (hours_per_day : Q) (p : Plan) :
  ai_generate_plan strptime today fuel subjects hours_per_day = Done p ->
  forall d, day_total p d <= Qmax 0 hours_per_day + (1 # 10).
Proof.
  intros Hrun d.
  destruct (ai_generate_plan_run _ _ _ _ _ _ Hrun) as (st & Hfor & <-).
  pose proof (for_subjects_Inv _ _ _ _ _ Hfor (Inv_init hours_per_day)) as HI.
  pose proof (inv_bound _ _ HI d). lra.
Qed.

Lemma day_capacity_bound_witness :
  day_total sample_plan "Monday" <= Qmax 0 5 + (1 # 10).
Proof.
  apply (day_capacity_bound sample_strptime 0 10 [sub2; sub1] 5 sample_plan).
  vm_compute. reflexivity.
Defined.

(** C1 as stated fails for a negative capacity: the days are empty, and
    their sum 0 is more than [-1 + 0.1]. *)
Lemma day_capacity_negative :
  ai_generate_plan sample_strptime 0 10 [sub2; sub1] (-1) = Done empty_plan /\
  ~ (day_total empty_plan "Monday" <= -1 + (1 # 10)).
Proof.
  split.
  - vm_compute. reflexivity.
  - vm_compute. intros H. apply H. reflexivity.
Qed.

(** ** C2: conservation *)

Lemma subject_total_empty (sid : Z) : subject_total empty_plan sid = 0.
Proof. reflexivity. Qed.




(** ** C3: termination *)

(** C3, at a failing input.  One subject of 5 hours and a daily capacity
    of 0.04 hours: the loop of [ai_generate_plan] never exits, whatever the
    fuel.  Each run of the body appends a block of 0.0 hours to Monday and
    leaves [remaining], [day_idx] and [day_hours] as they were. *)
Theorem allocate_diverges (strptime : string -> option Z) (today : Z) (fuel : nat) :
  ai_generate_plan strptime today fuel
                   [mkSubject 1 5 2 "2024-01-04" 0] (1 # 25) = OutOfFuel.
Proof.
  unfold ai_generate_plan. cbn [sorted_desc insert_desc for_subjects total_hours].
  rewrite (while_loop_stuck (1 # 25) _ eq_refl).
  - reflexivity.
  - discriminate.
  - exists 50%Z. reflexivity.
  - reflexivity.
  - reflexivity.
  - exists []. reflexivity.
Qed.

(** ** C4: per-block cap *)

(** C4.  Every block of a returned plan belongs to a subject of the input
    and has at most that subject's cap: 3.0 hours for priority 3, 2.0 for
    priority 2 and 1.5 for any other priority value. *)
Theorem per_block_cap (strptime : string -> option Z) (today : Z)
        (fuel : nat) (subjects : list Subject) (hours_per_day : Q) (p : Plan) :
  ai_generate_plan strptime today fuel subjects hours_per_day = Done p ->
  forall d b, In b (day_blocks p d) ->
    exists s, In s subjects /\ id s = subject_id b /\
              hours b <= (if (priority s =? 3)%Z then 3
                          else if (priority s =? 2)%Z then 2 else 3 # 2).
Proof.
  intros Hrun d b Hb.
  destruct (ai_generate_plan_run _ _ _ _ _ _ Hrun) as (st & Hfor & <-).
  apply day_blocks_all in Hb. revert b Hb.
  refine (for_subjects_emits
            (fun b => exists s, In s subjects /\ id s = subject_id b /\
                                hours b <= max_block (priority s))
            hours_per_day fuel _ _ _ _ Hfor _).
  - intros sub Hin h _ Hh _. exists sub. split; [|auto].
    eapply Permutation_in; [|exact Hin].
    apply Permutation_sym, sorted_desc_perm.
  - intros b [].
Qed.

Lemma per_block_cap_witness :
  exists s, In s [sub2; sub1] /\ id s = 1%Z /\
            30 # 10 <= (if (priority s =? 3)%Z then 3
                        else if (priority s =? 2)%Z then 2 else 3 # 2).
Proof.
  apply (per_block_cap sample_strptime 0 10 [sub2; sub1] 5 sample_plan sample_run
                       "Monday" (mkBlock 1 (30 # 10))).
  simpl. auto.
Defined.

(** ** C5: positive blocks *)

(** C5, at a failing input.  One subject of 0.04 hours and a daily capacity
    of 5 hours: the plan returned has a block of 0.0 hours on Monday. *)
Theorem zero_hour_block (strptime : string -> option Z) (today : Z) :
  exists p b,
    ai_generate_plan strptime today 1
                     [mkSubject 1 (1 # 25) 2 "2024-01-04" 0] 5 = Done p /\
    In b (day_blocks p "Monday") /\ hours b == 0.
Proof.
  eexists. exists (mkBlock 1 (0 # 10)). split; [vm_compute; reflexivity|].
  split; [simpl; auto|reflexivity].
Qed.

(** ** C6: the urgency ranking *)

Lemma days_until_pos (strptime : string -> option Z) (today : Z) (d : string) :
  (1 <= days_until strptime today d)%Z.
Proof. unfold days_until. destruct (strptime d); lia. Qed.

(** With one or two days left the key is the integer
    [priority * 10 + 50], as in exact arithmetic. *)
Lemma urgency_float_near_deadline (strptime : string -> option Z) (today : Z)
      (s : Subject) :
  (days_until strptime today (deadline s) <= 2)%Z ->
  urgency_float strptime today s == urgency strptime today s.
Proof.
  intros Hd. pose proof (days_until_pos strptime today (deadline s)) as H1.
  unfold urgency_float, urgency.
  assert (E : days_until strptime today (deadline s) = 1%Z
              \/ days_until strptime today (deadline s) = 2%Z) by lia.
  destruct E as [-> | ->].
  - assert (Ef : (of_int 100 / of_int 1 <? of_int 50)%float = false)
      by (vm_compute; reflexivity).
    rewrite Ef, inject_Z_plus.
    assert (Em : Qmin 50 (100 / inject_Z 1) == 50)
      by (apply Q.min_l; vm_compute; discriminate).
    rewrite Em. reflexivity.
  - assert (Ef : (of_int 100 / of_int 2 <? of_int 50)%float = false)
      by (vm_compute; reflexivity).
    rewrite Ef, inject_Z_plus.
    assert (Em : Qmin 50 (100 / inject_Z 2) == 50)
      by (apply Q.min_l; vm_compute; discriminate).
    rewrite Em. reflexivity.
Qed.

(** C6, as amended.  [get_priority_order] returns the input subjects (a
    permutation) in descending order of the urgency as the code computes
    it, in double precision, and subjects whose computed urgencies are
    equal keep their input order.  The computed urgency of [s] is
    [priority * 10 + min(50, 100 / daysLeft)] with the quotient and the sum
    rounded to the nearest double; it is the exact urgency when one or two
    days are left.  [daysLeft = max(1, deadline - today)], and
    [daysLeft = 30] when the deadline does not parse: [days_until] is
    total, no case raises. *)
Theorem rank_stable_descending (strptime : string -> option Z) (today : Z)
        (subjects : list Subject) :
  Permutation subjects (get_priority_order_float strptime today subjects) /\
  StronglySorted (fun a b => urgency_float strptime today b
                             <= urgency_float strptime today a)
                 (get_priority_order_float strptime today subjects) /\
  (forall u, with_key (urgency_float strptime today) u
                      (get_priority_order_float strptime today subjects)
             = with_key (urgency_float strptime today) u subjects) /\
  (forall s,
      days_until strptime today (deadline s)
      = match strptime (deadline s) with
        | Some dl => Z.max 1 (dl - today)
        | None => 30%Z
        end /\
      (1 <= days_until strptime today (deadline s))%Z /\
      urgency_float strptime today s
      = (let q := (of_int 100
                   / of_int (days_until strptime today (deadline s)))%float in
         if (q <? of_int 50)%float
         then float_value (of_int (priority s * 10) + q)
         else inject_Z (priority s * 10 + 50)) /\
      ((days_until strptime today (deadline s) <= 2)%Z ->
       urgency_float strptime today s == urgency strptime today s)).
Proof.
  unfold get_priority_order_float. split; [apply sorted_desc_perm|].
  split; [apply (sorted_desc_sorted (urgency_float strptime today))|].
  split; [intros u; apply sorted_desc_stable|].
  intros s. split; [reflexivity|]. split.
  - unfold days_until. destruct (strptime (deadline s)); lia.
  - split; [reflexivity|]. apply urgency_float_near_deadline.
Qed.

(** C6 as stated fails where two urgencies are equal as fractions but not
    as the doubles the code computes.  High priority and 15 days left, and
    medium priority and 6 days left, both have the urgency 110/3; the code
    computes 36.666666666666664 for the first and 36.66666666666667 for
    the second, and puts the second in front of the first, against the
    input order. *)
Lemma rank_tie_reordered :
  urgency tie_strptime 0 tie1 == urgency tie_strptime 0 tie2 /\
  urgency_float tie_strptime 0 tie1 < urgency_float tie_strptime 0 tie2 /\
  get_priority_order_float tie_strptime 0 [tie1; tie2] = [tie2; tie1].
Proof.
  split; [vm_compute; reflexivity|]. split; vm_compute; reflexivity.
Qed.

(** The example of the specification: urgencies 63.3 and 15, subject 1
    first. *)
Lemma rank_example :
  get_priority_order sample_strptime 0 [sub2; sub1] = [sub1; sub2] /\
  urgency sample_strptime 0 sub1 == 190 # 3 /\
  urgency sample_strptime 0 sub2 == 15.
Proof. repeat split; vm_compute; reflexivity. Qed.

Lemma rank_example_float :
  get_priority_order_float sample_strptime 0 [sub2; sub1] = [sub1; sub2] /\
  urgency_float sample_strptime 0 sub2 == 15.
Proof. split; vm_compute; reflexivity. Qed.

(** ** C7 and C8: the productivity score *)


Lemma sum_hours_map (f : Subject -> Q) (l : list Subject) :
  sum_hours (map f l) == fold_right (fun s acc => f s + acc) 0 l.
Proof.
  induction l as [|s l IH]; simpl; [reflexivity|].
  change (sum_hours (f s :: map f l) == f s + fold_right (fun s acc => f s + acc) 0 l).
  rewrite sum_hours_cons, IH. reflexivity.
Qed.

Lemma sum_of_ones (A : Type) (l : list A) (a : Z) :
  fold_left Z.add (map (fun _ => 1%Z) l) a = (a + Z.of_nat (List.length l))%Z.
Proof.
  revert a. induction l as [|x l IH]; intros a; simpl List.length; simpl map; simpl fold_left.
  - lia.
  - rewrite IH. lia.
Qed.

Lemma Qeq_bool_comp (x y z : Q) : x == y -> Qeq_bool x z = Qeq_bool y z.
Proof.
  intros E. destruct (Qeq_bool y z) eqn:Ey.
  - apply Qeq_bool_iff. apply Qeq_bool_iff in Ey. lra.
  - destruct (Qeq_bool x z) eqn:Ex; [|reflexivity].
    apply Qeq_bool_iff in Ex. apply Qeq_bool_neq in Ey. exfalso. apply Ey. lra.
Qed.

(** The score over the quantities of the specification. *)
Lemma calc_productivity_score_eq (subjects : list Subject) (sessions : list Session) :
  calc_productivity_score subjects sessions =
  if Qeq_bool (totalH subjects) 0 then 0%Z
  else Z.max 0 (round_half_even
                  (doneH subjects / totalH subjects * 100
                   - inject_Z (Z.min (missedCount sessions * 3) 25))).
Proof.
  unfold calc_productivity_score, totalH, doneH, missedCount.
  rewrite sum_of_ones, Z.add_0_l.
  rewrite (Qeq_bool_comp _ _ 0 (sum_hours_map total_hours subjects)).
  destruct (Qeq_bool _ 0); [reflexivity|].
  f_equal. apply round_half_even_comp.
  rewrite (sum_hours_map total_hours subjects), (sum_hours_map completed_hours subjects).
  reflexivity.
Qed.

(** C7, as amended.  The score is 0 when the total hours are 0, and
    otherwise [max(0, round(doneH / totalH * 100 - min(missedCount * 3, 25)))]
    with the quotient, the product and the difference rounded to the
    nearest double before [round] is taken; the penalty is at most 25 and
    the score is never negative. *)
Theorem productivity_score_formula (fsum : list float -> float)
        (subjects : list Subject) (sessions : list Session) :
  calc_productivity_score_float fsum subjects sessions
  = (if (total_float fsum subjects =? 0)%float then Some 0%Z
     else option_map (Z.max 0)
            (round_float
               (done_float fsum subjects / total_float fsum subjects * of_int 100
                - of_int (Z.min (missedCount sessions * 3) 25))%float)) /\
  (Z.min (missedCount sessions * 3) 25 <= 25)%Z /\
  (forall n, calc_productivity_score_float fsum subjects sessions = Some n ->
             (0 <= n)%Z).
Proof.
  assert (E : calc_productivity_score_float fsum subjects sessions
              = (if (total_float fsum subjects =? 0)%float then Some 0%Z
                 else option_map (Z.max 0)
                        (round_float
                           (done_float fsum subjects / total_float fsum subjects
                            * of_int 100
                            - of_int (Z.min (missedCount sessions * 3) 25))%float))).
  { unfold calc_productivity_score_float, missedCount.
    rewrite sum_of_ones, Z.add_0_l. reflexivity. }
  split; [exact E|]. split; [lia|].
  intros n. rewrite E.
  destruct (total_float fsum subjects =? 0)%float.
  - intros [= <-]. lia.
  - destruct (round_float _) as [z|]; simpl; [|discriminate].
    intros [= <-]. lia.
Qed.

(** C7 as stated fails at an exact half: 23 hours done of 40 are 57.5
    percent, which [round] takes to the even 58; the code computes
    23/40 * 100 as 57.49999999999999 and returns 57. *)
Lemma score_half_rounds_down :
  calc_productivity_score_float sum_left [half_done] [] = Some 57%Z /\
  Z.max 0 (round_half_even
             (doneH [half_done] / totalH [half_done] * 100
              - inject_Z (Z.min (missedCount [] * 3) 25))) = 58%Z.
Proof. split; vm_compute; reflexivity. Qed.

(** The example of the specification: half of the hours done and 10
    missed sessions give 25. *)
Lemma productivity_score_example :
  calc_productivity_score [mkSubject 1 10 2 "2024-01-04" 5]
                          (repeat (mkSession 1 1 "missed") 10) = 25%Z.
Proof. vm_compute. reflexivity. Qed.

Lemma productivity_score_example_float :
  calc_productivity_score_float sum_left [mkSubject 1 10 2 "2024-01-04" 5]
                                (repeat (mkSession 1 1 "missed") 10) = Some 25%Z.
Proof. vm_compute. reflexivity. Qed.

(** C8, as amended.  The score is at most 100 whenever the completed
    hours do not exceed the total hours (and these are not negative). *)
Theorem score_at_most_100 (subjects : list Subject) (sessions : list Session) :
  0 <= totalH subjects -> doneH subjects <= totalH subjects ->
  (calc_productivity_score subjects sessions <= 100)%Z.
Proof.
  intros Ht Hd. rewrite calc_productivity_score_eq.
  destruct (Qeq_bool (totalH subjects) 0) eqn:E; [lia|].
  apply Qeq_bool_neq in E.
  assert (Hpos : 0 < totalH subjects).
  { destruct (Qlt_le_dec 0 (totalH subjects)); [assumption|].
    exfalso. apply E. lra. }
  assert (Hbase : doneH subjects / totalH subjects <= 1).
  { apply Qle_shift_div_r; [exact Hpos|lra]. }
  assert (Hpen : 0 <= inject_Z (Z.min (missedCount sessions * 3) 25)).
  { change 0 with (inject_Z 0). rewrite <- Zle_Qle. unfold missedCount. lia. }
  apply Z.max_lub; [lia|].
  change 100%Z with (round_half_even (inject_Z 100)) at 2.
  apply round_half_even_mono. change (inject_Z 100) with 100. lra.
Qed.

Lemma score_at_most_100_witness :
  (calc_productivity_score [mkSubject 1 10 2 "2024-01-04" 5]
                           (repeat (mkSession 1 1 "missed") 10) <= 100)%Z.
Proof.
  apply score_at_most_100; vm_compute; discriminate.
Defined.

(** C8 as stated fails when the completed hours exceed the total hours:
    10 hours done of 5 give a score of 200. *)
Lemma score_above_100 :
  calc_productivity_score [mkSubject 1 5 2 "2024-01-04" 10] [] = 200%Z /\
  ~ (calc_productivity_score [mkSubject 1 5 2 "2024-01-04" 10] [] <= 100)%Z.
Proof. split; [vm_compute; reflexivity|vm_compute; intros H; apply H; reflexivity]. Qed.

(** ** C9: no capacity *)

(** C9.  With a daily capacity of zero or less, [ai_generate_plan] returns
    the plan with all seven days empty, for every subject list, and raises
    nothing; seven runs of the loop body per subject are enough. *)
Theorem no_capacity_empty_plan (strptime : string -> option Z) (today : Z)
        (fuel : nat) (subjects : list Subject) (hours_per_day : Q) :
  hours_per_day <= 0 -> (7 <= fuel)%nat ->
  ai_generate_plan strptime today fuel subjects hours_per_day = Done empty_plan.
Proof.
  intros Hcap Hfuel. unfold ai_generate_plan.
  destruct subjects as [|s subjects]; [reflexivity|].
  destruct (for_subjects_no_capacity hours_per_day fuel Hcap Hfuel
              (sorted_desc (urgency strptime today) (s :: subjects)) empty_plan 0%nat)
    as [j ->].
  reflexivity.
Qed.

Lemma no_capacity_empty_plan_witness :
  ai_generate_plan sample_strptime 0 7 [sub2; sub1] 0 = Done empty_plan.
Proof.
  apply (no_capacity_empty_plan sample_strptime 0 7 [sub2; sub1] 0).
  - vm_compute. discriminate.
  - lia.
Defined.

(** ** C10: several blocks of one subject on one day *)

(** C10.  For the subject of 5 hours and priority 3 and a daily capacity of
    5 hours, Monday holds two blocks of that subject, 3.0 and 2.0 hours:
    each block is within the cap of 3 hours, their sum is above it and is
    the whole daily capacity. *)
Theorem several_blocks_per_day (strptime : string -> option Z) (today : Z) :
  exists p,
    ai_generate_plan strptime today 2 [sub1] 5 = Done p /\
    day_blocks p "Monday" = [mkBlock 1 (30 # 10); mkBlock 1 (20 # 10)] /\
    Forall (fun b => subject_id b = id sub1 /\
                     hours b <= max_block (priority sub1))
           (day_blocks p "Monday") /\
    max_block (priority sub1) < day_total p "Monday" /\
    day_total p "Monday" == 5.
Proof.
  eexists. split; [vm_compute; reflexivity|].
  split; [reflexivity|]. split; [|split].
  - repeat constructor; vm_compute; discriminate.
  - reflexivity.
  - reflexivity.
Qed.

(** * Further properties of the engine *)

(** ** Shape of the plan and of its blocks *)

(** A returned plan has the seven days as its keys, Monday to Sunday in
    that order, whatever the subjects and the capacity. *)
Theorem plan_has_seven_days (strptime : string -> option Z) (today : Z)
        (fuel : nat) (subjects : list Subject) (hours_per_day : Q) (p : Plan) :
  ai_generate_plan strptime today fuel subjects hours_per_day = Done p ->
  map fst p = DAYS.
Proof.
  intros Hrun.
  destruct (ai_generate_plan_run _ _ _ _ _ _ Hrun) as (st & Hfor & <-).
  apply (inv_keys hours_per_day).
  eapply for_subjects_Inv; [exact Hfor|apply Inv_init].
Qed.

Lemma plan_has_seven_days_witness : map fst sample_plan = DAYS.
Proof.
  apply (plan_has_seven_days sample_strptime 0 10 [sub2; sub1] 5 sample_plan).
  vm_compute. reflexivity.
Defined.

(** Every block of a returned plan has hours rounded to one decimal (a
    multiple of 0.1) and never negative. *)
Theorem blocks_rounded_nonnegative (strptime : string -> option Z) (today : Z)
        (fuel : nat) (subjects : list Subject) (hours_per_day : Q) (p : Plan) :
  ai_generate_plan strptime today fuel subjects hours_per_day = Done p ->
  forall d b, In b (day_blocks p d) -> is_tenth (hours b) /\ 0 <= hours b.
Proof.
  intros Hrun d b Hb.
  destruct (ai_generate_plan_run _ _ _ _ _ _ Hrun) as (st & Hfor & <-).
  apply day_blocks_all in Hb. revert b Hb.
  refine (for_subjects_emits (fun b => is_tenth (hours b) /\ 0 <= hours b)
                             hours_per_day fuel _ _ _ _ Hfor _).
  - intros sub _ h Hh _ Ht. split; assumption.
  - intros b [].
Qed.

Lemma blocks_rounded_nonnegative_witness :
  is_tenth (15 # 10) /\ 0 <= 15 # 10.
Proof.
  apply (blocks_rounded_nonnegative sample_strptime 0 10 [sub2; sub1] 5 sample_plan
                                    sample_run "Tuesday" (mkBlock 2 (15 # 10))).
  simpl. auto.
Defined.

(** A subject whose workload is zero or negative passes through the loop
    without a block. *)
Lemma for_subjects_emits_positive (Pb : Block -> Prop) (cap : Q) (fuel : nat)
      (subs : list Subject) :
  (forall sub, In sub subs -> 0 < total_hours sub -> emits Pb sub) ->
  forall st st', for_subjects fuel cap subs st = Done st' ->
                 all_in Pb (plan st) -> all_in Pb (plan st').
Proof.
  induction subs as [|sub subs IH]; simpl; intros He st st'.
  - intros [= <-]. auto.
  - destruct (Qlt_le_dec 0 (total_hours sub)) as [Hpos|Hle].
    + destruct (while_loop fuel cap sub (total_hours sub) st) as [[r1 st1]| |] eqn:Ew;
        try discriminate.
      intros Hf Hall. apply (IH (fun s H => He s (or_intror H)) _ _ Hf).
      eapply while_loop_emits; eauto.
    + rewrite (while_loop_exit cap fuel sub (total_hours sub) st Hle).
      apply (IH (fun s H => He s (or_intror H))).
Qed.

(** Every block of a returned plan belongs to an input subject with a
    positive workload: a subject with [total_hours <= 0] is never
    scheduled. *)
Theorem blocks_of_positive_workloads (strptime : string -> option Z) (today : Z)
        (fuel : nat) (subjects : list Subject) (hours_per_day : Q) (p : Plan) :
  ai_generate_plan strptime today fuel subjects hours_per_day = Done p ->
  forall d b, In b (day_blocks p d) ->
    exists s, In s subjects /\ id s = subject_id b /\ 0 < total_hours s.
Proof.
  intros Hrun d b Hb.
  destruct (ai_generate_plan_run _ _ _ _ _ _ Hrun) as (st & Hfor & <-).
  apply day_blocks_all in Hb. revert b Hb.
  refine (for_subjects_emits_positive
            (fun b => exists s, In s subjects /\ id s = subject_id b /\
                                0 < total_hours s)
            hours_per_day fuel _ _ _ _ Hfor _).
  - intros sub Hin Hpos h _ _ _. exists sub. split; [|auto].
    eapply Permutation_in; [|exact Hin].
    apply Permutation_sym, sorted_desc_perm.
  - intros b [].
Qed.

Lemma blocks_of_positive_workloads_witness :
  exists s, In s [sub2; sub1] /\ id s = 2%Z /\ 0 < total_hours s.
Proof.
  apply (blocks_of_positive_workloads sample_strptime 0 10 [sub2; sub1] 5 sample_plan
                                      sample_run "Tuesday" (mkBlock 2 (10 # 10))).
  simpl. auto.
Defined.

(** ** How the days fill *)

(** The day totals after a block went to day [d], the day of the cursor. *)
Lemma alloc_day_total (cap : Q) (st st' : State) (d : string) (bs : list Block)
      (b : Block) :
  Inv cap st -> nth_error DAYS (day_idx st) = Some d ->
  plan_get d (plan st) = Some bs ->
  plan st' = plan_append d b (plan st) ->
  forall d', day_total (plan st') d' ==
             if String.eqb d d' then day_hours st + hours b
             else day_total (plan st) d'.
Proof.
  intros HI Hd Hget Hp d'.
  rewrite Hp, (day_total_append d d' _ _ bs Hget).
  destruct (String.eqb d d'); [|reflexivity].
  rewrite (inv_cur _ _ HI d Hd). reflexivity.
Qed.

(** Two different indices of [DAYS] name different days. *)
Lemma DAYS_differ (i j : nat) (d d' : string) :
  nth_error DAYS i = Some d -> nth_error DAYS j = Some d' -> i <> j ->
  String.eqb d d' = false.
Proof.
  intros Hi Hj Hne. apply String.eqb_neq. intros ->.
  apply Hne. eapply DAYS_inj; eauto.
Qed.

Lemma loop_body_closed_days_full (cap : Q) (sub : Subject) (r : Q) (st : State)
      (r' : Q) (st' : State) :
  Inv cap st -> closed_days_full cap st -> 0 < r ->
  loop_body cap sub r st = Done (r', st') -> closed_days_full cap st'.
Proof.
  intros HI Hfull Hr Hbody. apply loop_body_cases in Hbody.
  destruct Hbody as [(Ha & _ & ->) | (d & bs & Hbody)].
  - intros i di Hi Hdi. cbn [plan day_idx] in *.
    destruct (Nat.eq_dec i (day_idx st)) as [->|Hne].
    + rewrite (inv_cur _ _ HI di Hdi). lra.
    + apply (Hfull i di); [lia|exact Hdi].
  - simpl in Hbody. destruct Hbody as (Ha & Hd & Hget & _ & Hp & Hcase).
    set (b := round1 (Qmin (Qmin r (cap - day_hours st)) (max_block (priority sub)))) in *.
    pose proof (alloc_day_total cap st st' d bs _ HI Hd Hget Hp) as Htot.
    cbn [hours] in Htot.
    assert (Hsum : round1 (day_hours st + b) == day_hours st + b).
    { apply round1_tenth, is_tenth_plus; [apply (inv_tenth _ _ HI)|apply round1_is_tenth]. }
    intros i di Hi Hdi. rewrite Htot.
    destruct (Nat.eq_dec i (day_idx st)) as [->|Hne].
    + rewrite Hd in Hdi. injection Hdi as <-. rewrite String.eqb_refl.
      destruct Hcase as [(Hc & _) | (_ & Hi' & _)]; [lra|lia].
    + rewrite (DAYS_differ _ _ _ _ Hd Hdi) by lia.
      apply (Hfull i di); [|exact Hdi].
      destruct Hcase as [(_ & Hi' & _) | (_ & Hi' & _)]; lia.
Qed.

Lemma loop_body_within_capacity (cap : Q) (sub : Subject) (r : Q) (st : State)
      (r' : Q) (st' : State) :
  is_tenth cap -> Inv cap st -> within_capacity cap st -> 0 < r ->
  loop_body cap sub r st = Done (r', st') -> within_capacity cap st'.
Proof.
  intros Hcap HI Hin Hr Hbody. apply loop_body_cases in Hbody.
  destruct Hbody as [(Ha & _ & ->) | (d & bs & Hbody)]; [exact Hin|].
  simpl in Hbody. destruct Hbody as (Ha & Hd & Hget & _ & Hp & _).
  set (b := round1 (Qmin (Qmin r (cap - day_hours st)) (max_block (priority sub)))) in *.
  pose proof (alloc_day_total cap st st' d bs _ HI Hd Hget Hp) as Htot.
  cbn [hours] in Htot.
  assert (Hb : b <= cap - day_hours st).
  { rewrite <- (round1_tenth (cap - day_hours st)).
    - apply round1_mono. eapply Qle_trans; [apply Q.le_min_l|apply Q.le_min_r].
    - apply is_tenth_minus; [exact Hcap|apply (inv_tenth _ _ HI)]. }
  intros d'. rewrite Htot. destruct (String.eqb d d'); [|apply Hin].
  pose proof (Q.le_max_r 0 cap). lra.
Qed.

Lemma while_loop_closed_days_full (fuel : nat) (cap : Q) (sub : Subject) (r : Q)
      (st : State) (r' : Q) (st' : State) :
  while_loop fuel cap sub r st = Done (r', st') ->
  Inv cap st -> closed_days_full cap st -> closed_days_full cap st'.
Proof.
  intros Hw HI Hfull.
  apply (while_loop_inv (fun _ s => Inv cap s /\ closed_days_full cap s) cap sub) in Hw.
  - tauto.
  - intros r1 st1 r2 st2 [HI1 HF1] Hr Hlt Hb. split.
    + eapply loop_body_Inv; eauto.
    + eapply loop_body_closed_days_full; eauto.
  - split; assumption.
Qed.

Lemma while_loop_within_capacity (fuel : nat) (cap : Q) (sub : Subject) (r : Q)
      (st : State) (r' : Q) (st' : State) :
  is_tenth cap -> while_loop fuel cap sub r st = Done (r', st') ->
  Inv cap st -> within_capacity cap st -> within_capacity cap st'.
Proof.
  intros Hcap Hw HI Hin.
  apply (while_loop_inv (fun _ s => Inv cap s /\ within_capacity cap s) cap sub) in Hw.
  - tauto.
  - intros r1 st1 r2 st2 [HI1 HF1] Hr Hlt Hb. split.
    + eapply loop_body_Inv; eauto.
    + eapply loop_body_within_capacity; eauto.
  - split; assumption.
Qed.

Lemma for_subjects_closed_days_full (fuel : nat) (cap : Q) (subs : list Subject) :
  forall st st', for_subjects fuel cap subs st = Done st' ->
                 Inv cap st -> closed_days_full cap st -> closed_days_full cap st'.
Proof.
  induction subs as [|sub subs IH]; simpl; intros st st'.
  - intros [= <-]. auto.
  - destruct (while_loop fuel cap sub (total_hours sub) st) as [[r1 st1]| |] eqn:Ew;
      try discriminate.
    intros Hf HI Hfull. apply (IH _ _ Hf).
    + eapply while_loop_Inv; eauto.
    + eapply while_loop_closed_days_full; eauto.
Qed.

Lemma for_subjects_within_capacity (fuel : nat) (cap : Q) (subs : list Subject) :
  is_tenth cap ->
  forall st st', for_subjects fuel cap subs st = Done st' ->
                 Inv cap st -> within_capacity cap st -> within_capacity cap st'.
Proof.
  intros Hcap. induction subs as [|sub subs IH]; simpl; intros st st'.
  - intros [= <-]. auto.
  - destruct (while_loop fuel cap sub (total_hours sub) st) as [[r1 st1]| |] eqn:Ew;
      try discriminate.
    intros Hf HI Hin. apply (IH _ _ Hf).
    + eapply while_loop_Inv; eauto.
    + eapply while_loop_within_capacity; eauto.
Qed.

(** The days fill in order: a day holds a block only when every earlier
    day holds at least the daily capacity. *)
Theorem days_fill_in_order (strptime : string -> option Z) (today : Z)
        (fuel : nat) (subjects : list Subject) (hours_per_day : Q) (p : Plan) :
  ai_generate_plan strptime today fuel subjects hours_per_day = Done p ->
  forall i j di dj,
    (i < j)%nat -> nth_error DAYS i = Some di -> nth_error DAYS j = Some dj ->
    day_blocks p dj <> [] ->
    hours_per_day <= day_total p di.
Proof.
  intros Hrun i j di dj Hij Hdi Hdj Hne.
  destruct (ai_generate_plan_run _ _ _ _ _ _ Hrun) as (st & Hfor & <-).
  pose proof (for_subjects_Inv _ _ _ _ _ Hfor (Inv_init hours_per_day)) as HI.
  assert (Hfull : closed_days_full hours_per_day st).
  { apply (for_subjects_closed_days_full _ _ _ _ _ Hfor (Inv_init hours_per_day)).
    intros k d Hk. cbn [day_idx] in Hk. lia. }
  apply (Hfull i di); [|exact Hdi].
  destruct (Nat.lt_ge_cases (day_idx st) j) as [Hlt|Hge]; [|lia].
  exfalso. apply Hne. apply (inv_later _ _ HI j dj Hlt Hdj).
Qed.

Lemma days_fill_in_order_witness : 5 <= day_total sample_plan "Monday".
Proof.
  apply (days_fill_in_order sample_strptime 0 10 [sub2; sub1] 5 sample_plan sample_run
                            0%nat 1%nat "Monday"%string "Tuesday"%string).
  - lia.
  - reflexivity.
  - reflexivity.
  - simpl. discriminate.
Defined.

(** With a capacity that is a non-negative multiple of 0.1 no day holds
    more than the capacity, and every day before a day with blocks holds
    exactly the capacity. *)
Theorem tenth_capacity_exact (strptime : string -> option Z) (today : Z)
        (fuel : nat) (subjects : list Subject) (hours_per_day : Q) (p : Plan) :
  ai_generate_plan strptime today fuel subjects hours_per_day = Done p ->
  is_tenth hours_per_day -> 0 <= hours_per_day ->
  (forall d, day_total p d <= hours_per_day) /\
  (forall i j di dj,
      (i < j)%nat -> nth_error DAYS i = Some di -> nth_error DAYS j = Some dj ->
      day_blocks p dj <> [] -> day_total p di == hours_per_day).
Proof.
  intros Hrun Hcap Hpos.
  assert (Hle : forall d, day_total p d <= hours_per_day).
  { destruct (ai_generate_plan_run _ _ _ _ _ _ Hrun) as (st & Hfor & <-).
    intros d.
    assert (Hw : within_capacity hours_per_day st).
    { apply (for_subjects_within_capacity _ _ _ Hcap _ _ Hfor (Inv_init hours_per_day)).
      intros d'. cbn [plan]. unfold day_total. rewrite day_blocks_empty.
      pose proof (Q.le_max_l 0 hours_per_day). simpl. lra. }
    specialize (Hw d). rewrite (Q.max_r 0 hours_per_day Hpos) in Hw. exact Hw. }
  split; [exact Hle|].
  intros i j di dj Hij Hdi Hdj Hne.
  assert (Hge : hours_per_day <= day_total p di).
  { destruct (ai_generate_plan_run _ _ _ _ _ _ Hrun) as (st & Hfor & <-).
    pose proof (for_subjects_Inv _ _ _ _ _ Hfor (Inv_init hours_per_day)) as HI.
    assert (Hfull : closed_days_full hours_per_day st).
    { apply (for_subjects_closed_days_full _ _ _ _ _ Hfor (Inv_init hours_per_day)).
      intros k d Hk. cbn [day_idx] in Hk. lia. }
    apply (Hfull i di); [|exact Hdi].
    destruct (Nat.lt_ge_cases (day_idx st) j) as [Hlt|Hge]; [|lia].
    exfalso. apply Hne. apply (inv_later _ _ HI j dj Hlt Hdj). }
  specialize (Hle di). lra.
Qed.

Lemma tenth_capacity_exact_witness :
  (forall d, day_total sample_plan d <= 5) /\
  day_total sample_plan "Monday" == 5.
Proof.
  destruct (tenth_capacity_exact sample_strptime 0 10 [sub2; sub1] 5 sample_plan sample_run)
    as [H1 H2].
  - exists 50%Z. reflexivity.
  - vm_compute. discriminate.
  - split; [exact H1|].
    apply (H2 0%nat 1%nat "Monday"%string "Tuesday"%string); try reflexivity; [lia|].
    simpl. discriminate.
Defined.

(** ** Capacities the loop cannot leave *)

(** One run of the body at the start of Monday with a capacity of at most
    half a tenth: a block of zero hours, and the cursor stays. *)
Lemma loop_body_tiny (cap : Q) (sub : Subject) (r : Q) (p : Plan) (dh : Q)
      (bs : list Block) :
  0 < cap -> cap <= 1 # 20 -> 0 < r -> dh == 0 ->
  plan_get "Monday" p = Some bs ->
  exists b dh',
    loop_body cap sub r (mkState p 0 dh)
    = Done (round1 (r - b),
            mkState (plan_append "Monday" (mkBlock (id sub) b) p) 0 dh') /\
    b == 0 /\ dh' == 0.
Proof.
  intros Hc0 Hc1 Hr Hdh Hget.
  unfold loop_body. cbn [plan day_idx day_hours].
  rewrite (Qle_bool_intro_false (cap - dh) 0) by lra.
  change (nth_error DAYS 0) with (Some "Monday"%string). cbv beta iota.
  rewrite Hget.
  set (b := round1 (Qmin (Qmin r (cap - dh)) (max_block (priority sub)))).
  assert (Hb : b == 0).
  { apply round1_small.
    - assert (Hm : 0 <= Qmin (Qmin r (cap - dh)) (max_block (priority sub))).
      { pose proof (max_block_pos (priority sub)).
        apply Q.min_glb; [apply Q.min_glb|]; lra. }
      lra.
    - eapply Qle_trans; [apply Q.le_min_l|].
      eapply Qle_trans; [apply Q.le_min_r|]. lra. }
  assert (Hdh' : round1 (dh + b) == 0).
  { rewrite (round1_comp (dh + b) 0) by lra. apply round1_0. }
  rewrite (Qle_bool_intro_false cap (round1 (dh + b))) by lra.
  exists b, (round1 (dh + b)). auto.
Qed.

Lemma while_loop_tiny (cap : Q) (sub : Subject) :
  0 < cap -> cap <= 1 # 20 ->
  forall fuel r p dh bs,
    dh == 0 -> plan_get "Monday" p = Some bs ->
    (1 # 20 < r -> while_loop fuel cap sub r (mkState p 0 dh) = OutOfFuel) /\
    (while_loop fuel cap sub r (mkState p 0 dh) = OutOfFuel \/
     exists r' p' dh' bs',
       while_loop fuel cap sub r (mkState p 0 dh) = Done (r', mkState p' 0 dh') /\
       dh' == 0 /\ plan_get "Monday" p' = Some bs').
Proof.
  intros Hc0 Hc1 fuel r p dh bs Hdh Hget.
  destruct (Qlt_le_dec 0 r) as [Hr|Hr].
  2:{ split; [intros; lra|]. right. exists r, p, dh, bs.
      rewrite (while_loop_exit cap fuel sub r _ Hr). auto. }
  destruct fuel as [|fuel]; simpl.
  { rewrite (Qlt_bool_intro 0 r Hr). simpl. auto. }
  rewrite (Qlt_bool_intro 0 r Hr). simpl.
  destruct (loop_body_tiny cap sub r p dh bs Hc0 Hc1 Hr Hdh Hget)
    as (b & dh' & -> & Hb & Hdh').
  assert (Hget' : plan_get "Monday" (plan_append "Monday" (mkBlock (id sub) b) p)
                  = Some (bs ++ [mkBlock (id sub) b])).
  { rewrite plan_get_append, String.eqb_refl, Hget. reflexivity. }
  rewrite (round1_comp (r - b) r) by lra.
  destruct (Qlt_le_dec (1 # 20) r) as [Hbig|Hsmall].
  - assert (E : while_loop fuel cap sub (round1 r)
                           (mkState (plan_append "Monday" (mkBlock (id sub) b) p) 0 dh')
                = OutOfFuel).
    { apply (while_loop_stuck cap sub Hc0 Hc1).
      - apply round1_is_tenth.
      - pose proof (round1_above r Hbig). lra.
      - exact Hdh'.
      - eauto. }
    rewrite E. auto.
  - split; [intros; lra|]. right.
    rewrite (while_loop_exit cap fuel sub (round1 r)).
    + do 4 eexists. split; [reflexivity|]. split; [exact Hdh'|exact Hget'].
    + rewrite (round1_small r) by lra. lra.
Qed.

Lemma for_subjects_tiny (cap : Q) (fuel : nat) :
  0 < cap -> cap <= 1 # 20 ->
  forall subs p dh bs,
    dh == 0 -> plan_get "Monday" p = Some bs ->
    (exists s, In s subs /\ 1 # 20 < total_hours s) ->
    for_subjects fuel cap subs (mkState p 0 dh) = OutOfFuel.
Proof.
  intros Hc0 Hc1. induction subs as [|sub subs IH]; intros p dh bs Hdh Hget [s [Hin Hs]].
  - destruct Hin.
  - simpl.
    destruct (while_loop_tiny cap sub Hc0 Hc1 fuel (total_hours sub) p dh bs Hdh Hget)
      as [Hbig Hany].
    destruct Hin as [<- | Hin].
    + rewrite (Hbig Hs). reflexivity.
    + destruct Hany as [-> | (r' & p' & dh' & bs' & -> & Hdh' & Hget')]; [reflexivity|].
      apply (IH p' dh' bs' Hdh' Hget'). eauto.
Qed.

(** With a daily capacity above 0 and below 0.05 hours the allocator never
    returns as soon as one subject has more than 0.05 hours of workload:
    every block rounds to zero hours, so whatever the fuel, the loop is
    still running on Monday. *)
Theorem tiny_capacity_diverges (strptime : string -> option Z) (today : Z)
        (subjects : list Subject) (hours_per_day : Q) :
  0 < hours_per_day -> hours_per_day < 1 # 20 ->
  (exists s, In s subjects /\ 1 # 20 < total_hours s) ->
  forall fuel,
    ai_generate_plan strptime today fuel subjects hours_per_day = OutOfFuel.
Proof.
  intros Hc0 Hlt [s [Hin Hs]] fuel. unfold ai_generate_plan.
  assert (Hc1 : hours_per_day <= 1 # 20) by (apply Qlt_le_weak; exact Hlt).
  destruct subjects as [|s0 subjects]; [destruct Hin|].
  rewrite (for_subjects_tiny hours_per_day fuel Hc0 Hc1 _ empty_plan 0 []).
  - reflexivity.
  - reflexivity.
  - reflexivity.
  - exists s. split; [|exact Hs].
    eapply Permutation_in; [apply sorted_desc_perm|exact Hin].
Qed.

Lemma tiny_capacity_diverges_witness :
  ai_generate_plan sample_strptime 0 1000 [sub2; sub1] (3 # 100) = OutOfFuel.
Proof.
  apply (tiny_capacity_diverges sample_strptime 0 [sub2; sub1] (3 # 100)).
  - reflexivity.
  - reflexivity.
  - exists sub1. split; [simpl; auto|reflexivity].
Defined.

(** ** Capacities for which the allocator returns *)

Lemma allocate_returns_witness :
  exists fuel p, ai_generate_plan sample_strptime 0 fuel [sub2; sub1] 5 = Done p.
Proof.
  apply (allocate_returns 5).
  apply tenth_clear_of_tenths. exists 50%Z. reflexivity.
Defined.

(** The room left on a day that is not full, for a capacity that is clear
    of the tenths: more than half a tenth. *)
Lemma room_above (cap : Q) (st : State) :
  clear_of_tenths cap -> Inv cap st -> 0 < cap - day_hours st ->
  1 # 20 < cap - day_hours st.
Proof.
  intros Hclear HI Ha.
  destruct (inv_tenth _ _ HI) as [z Hz].
  pose proof (inv_nonneg _ _ HI) as Hn.
  assert (Hz0 : (0 <= z)%Z).
  { rewrite Hz in Hn. unfold Qle in Hn. simpl in Hn. lia. }
  rewrite Hz. apply (Hclear z Hz0). rewrite <- Hz. lra.
Qed.

Lemma loop_body_positive_blocks (cap : Q) (sub : Subject) (r : Q) (st : State)
      (r' : Q) (st' : State) :
  clear_of_tenths cap ->
  is_tenth r /\ Inv cap st /\ all_in (fun b => 1 # 10 <= hours b) (plan st) ->
  0 < r -> (day_idx st < 7)%nat ->
  loop_body cap sub r st = Done (r', st') ->
  is_tenth r' /\ Inv cap st' /\ all_in (fun b => 1 # 10 <= hours b) (plan st').
Proof.
  intros Hclear (Ht & HI & Hall) Hr Hlt Hbody.
  pose proof (loop_body_Inv _ _ _ _ _ _ HI Hr Hlt Hbody) as HI'.
  apply loop_body_cases in Hbody.
  destruct Hbody as [(_ & -> & ->) | (d & bs & Hbody)].
  - split; [exact Ht|]. split; [exact HI'|exact Hall].
  - simpl in Hbody. destruct Hbody as (Ha & _ & _ & -> & Hp & _).
    split; [apply round1_is_tenth|]. split; [exact HI'|].
    intros b Hb. rewrite Hp in Hb.
    apply all_blocks_append_In in Hb. destruct Hb as [-> | Hb]; [|auto].
    cbn [hours]. apply round1_above.
    pose proof (room_above cap st Hclear HI Ha).
    pose proof (is_tenth_pos r Ht Hr).
    pose proof (is_tenth_pos _ (max_block_tenth (priority sub))
                             (max_block_pos (priority sub))).
    apply Q.min_glb_lt; [apply Q.min_glb_lt|]; lra.
Qed.

Lemma for_subjects_positive_blocks (cap : Q) (fuel : nat) (subs : list Subject) :
  clear_of_tenths cap ->
  Forall (fun s => is_tenth (total_hours s)) subs ->
  forall st st', for_subjects fuel cap subs st = Done st' ->
    Inv cap st -> all_in (fun b => 1 # 10 <= hours b) (plan st) ->
    all_in (fun b => 1 # 10 <= hours b) (plan st').
Proof.
  intros Hclear. induction subs as [|sub subs IH]; simpl; intros Hall st st'.
  - intros [= <-]. auto.
  - inversion Hall as [|? ? Ht Hall']; subst.
    destruct (while_loop fuel cap sub (total_hours sub) st) as [[r1 st1]| |] eqn:Ew;
      try discriminate.
    intros Hf HI Hb.
    apply (while_loop_inv
             (fun r s => is_tenth r /\ Inv cap s /\
                         all_in (fun b => 1 # 10 <= hours b) (plan s))
             cap sub) in Ew.
    + destruct Ew as ((_ & HI1 & Hb1) & _). apply (IH Hall' _ _ Hf HI1 Hb1).
    + intros r2 st2 r3 st3 HP Hr Hlt Hbody.
      apply (loop_body_positive_blocks cap sub r2 st2 r3 st3 Hclear HP Hr Hlt Hbody).
    + auto.
Qed.

(** When every workload is a multiple of 0.1 and the capacity leaves no
    room of 0.05 hours or less (as every multiple of 0.1 does), every
    block of a returned plan has at least 0.1 hours. *)
Theorem blocks_positive_on_tenths (strptime : string -> option Z) (today : Z)
        (fuel : nat) (subjects : list Subject) (hours_per_day : Q) (p : Plan) :
  ai_generate_plan strptime today fuel subjects hours_per_day = Done p ->
  clear_of_tenths hours_per_day ->
  Forall (fun s => is_tenth (total_hours s)) subjects ->
  forall d b, In b (day_blocks p d) -> 1 # 10 <= hours b.
Proof.
  intros Hrun Hclear Hall d b Hb.
  destruct (ai_generate_plan_run _ _ _ _ _ _ Hrun) as (st & Hfor & <-).
  apply day_blocks_all in Hb. revert b Hb.
  refine (for_subjects_positive_blocks hours_per_day fuel _ Hclear _ _ _ Hfor
                                       (Inv_init hours_per_day) _).
  - eapply Permutation_Forall; [apply sorted_desc_perm|exact Hall].
  - intros b [].
Qed.

Lemma blocks_positive_on_tenths_witness : 1 # 10 <= 10 # 10.
Proof.
  assert (Hclear : clear_of_tenths 5).
  { apply tenth_clear_of_tenths. exists 50%Z. reflexivity. }
  assert (Hall : Forall (fun s => is_tenth (total_hours s)) [sub2; sub1]).
  { repeat constructor; [exists 40%Z|exists 50%Z]; reflexivity. }
  assert (Hin : In (mkBlock 2 (10 # 10)) (day_blocks sample_plan "Tuesday")).
  { simpl. auto. }
  exact (blocks_positive_on_tenths sample_strptime 0 10 [sub2; sub1] 5 sample_plan
                                   sample_run Hclear Hall "Tuesday"%string
                                   (mkBlock 2 (10 # 10)) Hin).
Defined.

(** With a capacity and workloads that are non-negative multiples of 0.1,
    unique subject ids and a total workload within 7 days of capacity, the
    allocator returns a plan in which every subject has exactly its
    workload. *)
Theorem allocate_exact_on_tenths (strptime : string -> option Z) (today : Z)
        (subjects : list Subject) (hours_per_day : Q) :
  is_tenth hours_per_day ->
  NoDup (map id subjects) -> Forall tenth_hours subjects ->
  sum_hours (map total_hours subjects) <= 7 * hours_per_day ->
  exists fuel p,
    ai_generate_plan strptime today fuel subjects hours_per_day = Done p /\
    forall s, In s subjects -> subject_total p (id s) == total_hours s.
Proof.
  intros Hcap Hnd Hall Hbud.
  set (ranked := sorted_desc (urgency strptime today) subjects).
  assert (Hperm : Permutation subjects ranked) by apply sorted_desc_perm.
  destruct (enough_fuel ranked) as [fuel Hfuel].
  destruct (for_subjects_terminates hours_per_day (tenth_clear_of_tenths _ Hcap)
                                    fuel ranked Hfuel _ (Inv_init hours_per_day))
    as [st Hfor].
  exists fuel, (plan st). split.
  { unfold ai_generate_plan. fold ranked. rewrite Hfor.
    destruct subjects; [|reflexivity].
    simpl in Hfor. injection Hfor as <-. reflexivity. }
  intros s Hin.
  rewrite (for_subjects_exact fuel hours_per_day ranked) with (st := mkState empty_plan 0 0).
  - cbn [plan]. rewrite subject_total_empty. lra.
  - eapply Permutation_NoDup; [|exact Hnd]. apply Permutation_map, Hperm.
  - apply (Permutation_Forall Hperm Hall).
  - exact Hfor.
  - apply Inv_init.
  - cbn [plan]. rewrite <- (sum_hours_perm _ total_hours _ _ Hperm).
    change (block_sum (all_blocks empty_plan)) with 0. lra.
  - eapply Permutation_in; eauto.
Qed.

Lemma allocate_exact_on_tenths_witness :
  exists fuel p,
    ai_generate_plan sample_strptime 0 fuel [sub2; sub1] 5 = Done p /\
    forall s, In s [sub2; sub1] -> subject_total p (id s) == total_hours s.
Proof.
  apply (allocate_exact_on_tenths sample_strptime 0 [sub2; sub1] 5).
  - exists 50%Z. reflexivity.
  - simpl. repeat constructor; simpl; intuition discriminate.
  - repeat constructor; try (vm_compute; discriminate).
    + exists 40%Z. reflexivity.
    + exists 50%Z. reflexivity.
  - vm_compute. discriminate.
Defined.

(** ** The ranking, subject by subject *)

Lemma hundred_over_mono (a b : Z) :
  (1 <= a)%Z -> (a <= b)%Z -> 100 / inject_Z b <= 100 / inject_Z a.
Proof.
  intros Ha Hab.
  destruct a as [|a|a]; try lia. destruct b as [|b|b]; try lia.
  unfold Qle, Qdiv, Qmult, Qinv, inject_Z. simpl. lia.
Qed.

Lemma hundred_over_strict (a b : Z) :
  (1 <= a)%Z -> (a < b)%Z -> 100 / inject_Z b < 100 / inject_Z a.
Proof.
  intros Ha Hab.
  destruct a as [|a|a]; try lia. destruct b as [|b|b]; try lia.
  unfold Qlt, Qdiv, Qmult, Qinv, inject_Z. simpl. lia.
Qed.

Lemma hundred_over_late (b : Z) : (2 < b)%Z -> 100 / inject_Z b < 50.
Proof.
  intros Hb. destruct b as [|b|b]; try lia.
  unfold Qlt, Qdiv, Qmult, Qinv, inject_Z. simpl. lia.
Qed.

Lemma StronglySorted_suffix (A : Type) (R : A -> A -> Prop) (l1 l2 : list A) :
  StronglySorted R (l1 ++ l2) -> StronglySorted R l2.
Proof.
  induction l1 as [|x l1 IH]; simpl; [auto|].
  intros H. apply StronglySorted_inv in H. tauto.
Qed.

(** In a list sorted by [desc], an element with a strictly greater key
    stands in front. *)
Lemma sorted_desc_before (A : Type) (key : A -> Q) (l : list A) (a b : A) :
  In a l -> In b l -> key b < key a ->
  exists l1 l2 l3, sorted_desc key l = l1 ++ a :: l2 ++ b :: l3.
Proof.
  intros Ha Hb Hlt.
  pose proof (sorted_desc_perm key l) as Hperm.
  pose proof (sorted_desc_sorted key l) as Hs.
  apply (Permutation_in _ Hperm) in Ha. apply (Permutation_in _ Hperm) in Hb.
  destruct (in_split a _ Ha) as (l1 & l2 & E). rewrite E in *.
  exists l1. apply in_app_or in Hb. destruct Hb as [Hb | [-> | Hb]].
  - exfalso. destruct (in_split b _ Hb) as (m1 & m2 & ->).
    rewrite <- app_assoc in Hs. simpl in Hs.
    apply StronglySorted_suffix in Hs.
    apply StronglySorted_inv in Hs. destruct Hs as [_ Hall].
    rewrite Forall_forall in Hall.
    specialize (Hall a). unfold desc in Hall.
    assert (key a <= key b) by (apply Hall; apply in_or_app; right; left; reflexivity).
    lra.
  - lra.
  - destruct (in_split b _ Hb) as (m1 & m2 & ->). eauto.
Qed.

(** A subject with a strictly higher priority and a deadline that is not
    later is ranked in front. *)
Theorem higher_priority_ranks_first (strptime : string -> option Z) (today : Z)
        (subjects : list Subject) (a b : Subject) :
  In a subjects -> In b subjects ->
  (priority b < priority a)%Z ->
  (days_until strptime today (deadline a)
   <= days_until strptime today (deadline b))%Z ->
  exists l1 l2 l3,
    get_priority_order strptime today subjects = l1 ++ a :: l2 ++ b :: l3.
Proof.
  intros Ha Hb Hp Hd. apply sorted_desc_before; try assumption.
  unfold urgency.
  pose proof (hundred_over_mono _ _ (days_until_pos strptime today (deadline a)) Hd) as H.
  pose proof (Q.min_le_compat_l _ _ 50 H) as Hm.
  assert (Hq : inject_Z (priority b * 10) < inject_Z (priority a * 10)).
  { rewrite <- Zlt_Qlt. lia. }
  lra.
Qed.

Lemma higher_priority_ranks_first_witness :
  exists l1 l2 l3,
    get_priority_order sample_strptime 0 [sub2; sub1] = l1 ++ sub1 :: l2 ++ sub2 :: l3.
Proof.
  apply higher_priority_ranks_first.
  - simpl. auto.
  - simpl. auto.
  - reflexivity.
  - vm_compute. discriminate.
Defined.

(** Of two subjects of the same priority the one with fewer days left is
    ranked in front, provided the other has more than 2 days left (with 2
    days or fewer the deadline term is at its cap of 50 for both). *)
Theorem nearer_deadline_ranks_first (strptime : string -> option Z) (today : Z)
        (subjects : list Subject) (a b : Subject) :
  In a subjects -> In b subjects ->
  priority a = priority b ->
  (days_until strptime today (deadline a)
   < days_until strptime today (deadline b))%Z ->
  (2 < days_until strptime today (deadline b))%Z ->
  exists l1 l2 l3,
    get_priority_order strptime today subjects = l1 ++ a :: l2 ++ b :: l3.
Proof.
  intros Ha Hb Hp Hd Hlate. apply sorted_desc_before; try assumption.
  unfold urgency. rewrite Hp.
  pose proof (hundred_over_strict _ _ (days_until_pos strptime today (deadline a)) Hd) as H.
  pose proof (hundred_over_late _ Hlate) as H50.
  pose proof (Q.le_min_r 50 (100 / inject_Z (days_until strptime today (deadline b)))).
  assert (Hm : Qmin 50 (100 / inject_Z (days_until strptime today (deadline b)))
               < Qmin 50 (100 / inject_Z (days_until strptime today (deadline a)))).
  { apply Q.min_glb_lt; lra. }
  lra.
Qed.

Lemma nearer_deadline_ranks_first_witness :
  exists l1 l2 l3,
    get_priority_order sample_strptime 0
                       [mkSubject 2 4 3 "2024-01-21" 0; sub1]
    = l1 ++ sub1 :: l2 ++ mkSubject 2 4 3 "2024-01-21" 0 :: l3.
Proof.
  apply nearer_deadline_ranks_first.
  - simpl. auto.
  - simpl. auto.
  - reflexivity.
  - reflexivity.
  - reflexivity.
Defined.

(** ** The score and the progress fields *)

(** More missed sessions never raise the score. *)
Theorem score_antitone_in_missed (subjects : list Subject)
        (sessions sessions' : list Session) :
  (missedCount sessions <= missedCount sessions')%Z ->
  (calc_productivity_score subjects sessions'
   <= calc_productivity_score subjects sessions)%Z.
Proof.
  intros Hm. rewrite !calc_productivity_score_eq.
  destruct (Qeq_bool (totalH subjects) 0); [lia|].
  apply Z.max_le_compat_l, round_half_even_mono.
  assert (H : inject_Z (Z.min (missedCount sessions * 3) 25)
              <= inject_Z (Z.min (missedCount sessions' * 3) 25)).
  { rewrite <- Zle_Qle. lia. }
  lra.
Qed.

Lemma score_antitone_in_missed_witness :
  (calc_productivity_score [mkSubject 1 10 2 "2024-01-04" 5]
                           [mkSession 1 1 "missed"; mkSession 1 1 "done"]
   <= calc_productivity_score [mkSubject 1 10 2 "2024-01-04" 5]
                              [mkSession 1 1 "done"])%Z.
Proof.
  apply score_antitone_in_missed. vm_compute. discriminate.
Defined.

(** When all the hours are done the score is 100 minus the penalty of 3
    points per missed session, which stops at 25. *)
Theorem score_of_completed_workload (subjects : list Subject)
        (sessions : list Session) :
  ~ totalH subjects == 0 -> doneH subjects == totalH subjects ->
  calc_productivity_score subjects sessions
  = (100 - Z.min (missedCount sessions * 3) 25)%Z.
Proof.
  intros Hne Hd. rewrite calc_productivity_score_eq.
  destruct (Qeq_bool (totalH subjects) 0) eqn:E.
  { apply Qeq_bool_iff in E. contradiction. }
  set (pen := Z.min (missedCount sessions * 3) 25).
  rewrite (round_half_even_comp _ (inject_Z (100 - pen))).
  - rewrite round_half_even_Z. subst pen. lia.
  - rewrite Hd. unfold Qdiv. rewrite Qmult_inv_r by exact Hne.
    unfold Z.sub. rewrite inject_Z_plus, inject_Z_opp.
    change (inject_Z 100) with 100. lra.
Qed.

Lemma score_of_completed_workload_witness :
  calc_productivity_score [mkSubject 1 10 2 "2024-01-04" 10]
                          [mkSession 1 1 "missed"; mkSession 1 1 "done"]
  = (100 - Z.min (missedCount [mkSession 1 1 "missed"; mkSession 1 1 "done"] * 3) 25)%Z.
Proof.
  apply score_of_completed_workload.
  - vm_compute. discriminate.
  - reflexivity.
Defined.

(** The hours needed per day are never negative, are rounded to one
    decimal and are zero when nothing remains; otherwise they lie within
    0.05 of the remaining hours divided by the days left, and never exceed
    what remains by more than 0.05: the days left are at least one. *)
Theorem hours_per_day_needed_bounds (strptime : string -> option Z) (today : Z)
        (s : Subject) :
  0 <= hours_per_day_needed strptime today s /\
  is_tenth (hours_per_day_needed strptime today s) /\
  (total_hours s <= completed_hours s ->
   hours_per_day_needed strptime today s == 0) /\
  (completed_hours s < total_hours s ->
   (total_hours s - completed_hours s)
   / inject_Z (days_until strptime today (deadline s)) - (1 # 20)
   <= hours_per_day_needed strptime today s /\
   hours_per_day_needed strptime today s
   <= (total_hours s - completed_hours s)
      / inject_Z (days_until strptime today (deadline s)) + (1 # 20) /\
   hours_per_day_needed strptime today s
   <= total_hours s - completed_hours s + (1 # 20)).
Proof.
  unfold hours_per_day_needed.
  pose proof (days_until_pos strptime today (deadline s)) as Hd.
  set (d := days_until strptime today (deadline s)) in *.
  set (rem := total_hours s - completed_hours s).
  assert (Ed : (0 <? d)%Z = true) by (apply Z.ltb_lt; lia).
  rewrite Ed. cbn [andb].
  assert (Hdq : 1 <= inject_Z d).
  { change 1 with (inject_Z 1). rewrite <- Zle_Qle. exact Hd. }
  assert (Hdiv : 0 < rem -> 0 <= rem / inject_Z d /\ rem / inject_Z d <= rem).
  { intros Hr. split.
    - apply Qle_shift_div_l; lra.
    - apply Qle_shift_div_r; [lra|]. nra. }
  destruct (Qlt_bool 0 rem) eqn:Er.
  - apply Qlt_bool_true in Er. destruct (Hdiv Er) as [H0 H1].
    split; [apply round1_nonneg, H0|]. split; [apply round1_is_tenth|].
    split; [intros H; subst rem; lra|].
    intros _.
    pose proof (round1_upper (rem / inject_Z d)).
    pose proof (round1_lower (rem / inject_Z d)).
    split; [lra|]. split; lra.
  - apply Qlt_bool_false in Er.
    split; [lra|]. split; [apply is_tenth_0|].
    split; [reflexivity|]. intros H. subst rem. lra.
Qed.

(** The percentage of a subject lies between 0 and 100 when its completed
    hours lie between 0 and its total hours, and is 100 when they are
    equal and not zero. *)
Theorem pct_range (s : Subject) :
  0 <= completed_hours s -> completed_hours s <= total_hours s ->
  (0 <= pct s <= 100)%Z /\
  (~ total_hours s == 0 -> completed_hours s == total_hours s -> pct s = 100%Z).
Proof.
  intros H0 H1. unfold pct.
  destruct (Qeq_bool (total_hours s) 0) eqn:E.
  - split; [lia|]. intros Hne. apply Qeq_bool_iff in E. contradiction.
  - apply Qeq_bool_neq in E.
    assert (Hpos : 0 < total_hours s).
    { destruct (Qlt_le_dec 0 (total_hours s)); [assumption|]. exfalso. apply E. lra. }
    assert (Hlo : 0 <= completed_hours s / total_hours s).
    { apply Qle_shift_div_l; lra. }
    assert (Hhi : completed_hours s / total_hours s <= 1).
    { apply Qle_shift_div_r; lra. }
    split.
    + split.
      * rewrite <- (round_half_even_Z 0) at 1.
        apply round_half_even_mono. change (inject_Z 0) with 0. lra.
      * apply Z.le_trans with (round_half_even (inject_Z 100));
          [|rewrite round_half_even_Z; lia].
        apply round_half_even_mono. change (inject_Z 100) with 100. lra.
    + intros _ Heq.
      rewrite (round_half_even_comp _ (inject_Z 100)); [apply round_half_even_Z|].
      rewrite Heq. unfold Qdiv. rewrite Qmult_inv_r by exact E. reflexivity.
Qed.

Lemma pct_range_witness :
  (0 <= pct (mkSubject 1 10 2 "2024-01-04" 5) <= 100)%Z.
Proof.
  apply (pct_range (mkSubject 1 10 2 "2024-01-04" 5)); vm_compute; discriminate.
Defined.

(** Nothing caps the percentage: the completed hours above the total
    hours show as more than 100. *)
Lemma pct_above_100 : pct (mkSubject 1 5 2 "2024-01-04" 10) = 200%Z.
Proof. reflexivity. Qed.

(** ** The week *)

(** The week start is the Monday of today's week: a Monday, not after
    today and less than 7 days before; the week start of a week start is
    itself. *)
Theorem week_start_is_monday (today : Z) :
  weekday (get_week_start today) = 0%Z /\
  (get_week_start today <= today < get_week_start today + 7)%Z /\
  get_week_start (get_week_start today) = get_week_start today.
Proof.
  unfold get_week_start, weekday.
  pose proof (Z.mod_pos_bound (today + 6) 7 eq_refl) as Hb.
  assert (E : ((today - (today + 6) mod 7 + 6) mod 7 = 0)%Z).
  { pose proof (Z.div_mod (today + 6) 7).
    replace (today - (today + 6) mod 7 + 6)%Z with (((today + 6) / 7) * 7)%Z by lia.
    apply Z.mod_mul. lia. }
  rewrite E. lia.
Qed.

(** ** The order of the blocks *)











(** * The routes and the database *)

(** ** Inserted sessions *)

Lemma max_ids_bound (seq : Z) (ids : list Z) :
  (seq <= fold_right Z.max seq ids)%Z /\
  (forall i, In i ids -> (i <= fold_right Z.max seq ids)%Z).
Proof.
  induction ids as [|j ids [IH1 IH2]]; simpl.
  - split; [lia|tauto].
  - split; [lia|]. intros i [<- | Hi]; [lia|]. specialize (IH2 i Hi). lia.
Qed.

Lemma next_session_id_fresh (db : Db) :
  ~ In (next_session_id db) (map ss_id (sessions_tbl db)).
Proof.
  unfold next_session_id. intros Hin.
  apply (proj2 (max_ids_bound (sessions_seq db) _)) in Hin. lia.
Qed.

Lemma inserted_refl (db : Db) : inserted db db [].
Proof. unfold inserted. rewrite app_nil_r. auto. Qed.

Lemma inserted_trans (db1 db2 db3 : Db) (n1 n2 : list SessionRow) :
  inserted db1 db2 n1 -> inserted db2 db3 n2 -> inserted db1 db3 (n1 ++ n2).
Proof.
  intros (A1 & B1 & C1 & D1) (A2 & B2 & C2 & D2). unfold inserted.
  rewrite A2, B2, C2, C1, app_assoc. repeat split; auto.
  intros H. specialize (D2 (D1 H)). rewrite C2, C1 in D2. exact D2.
Qed.

Lemma insert_session_inserted (sid : Z) (day : string) (h : Q) (ws : Z)
      (st : string) (db : Db) :
  inserted db (insert_session sid day h ws st db)
           [mkSessionRow (next_session_id db) sid day h ws st].
Proof.
  unfold inserted, insert_session. cbn [subjects_tbl settings_tbl sessions_tbl].
  repeat split. intros Hnd. rewrite map_app. cbn [map ss_id].
  apply NoDup_app; [exact Hnd|repeat constructor; simpl; tauto|].
  intros i Hi [<- | []]. exact (next_session_id_fresh db Hi).
Qed.

Lemma insert_blocks_inserted (ws : Z) (day : string) (blocks : list Block) :
  forall db, exists new,
    inserted db (insert_blocks ws day blocks db) new /\
    map session_content new
    = map (fun b => (subject_id b, day, hours b, ws, "pending"%string)) blocks.
Proof.
  unfold insert_blocks. induction blocks as [|b blocks IH]; intros db; simpl.
  - exists []. split; [apply inserted_refl|reflexivity].
  - destruct (IH (insert_session (subject_id b) day (hours b) ws "pending" db))
      as (new & Hins & Hc).
    eexists. split.
    + eapply inserted_trans; [apply insert_session_inserted|exact Hins].
    + simpl. rewrite Hc. reflexivity.
Qed.

Lemma insert_plan_inserted (ws : Z) (p : Plan) :
  forall db, exists new,
    inserted db (insert_plan ws p db) new /\
    map session_content new = plan_rows ws p.
Proof.
  unfold insert_plan, plan_rows. induction p as [|[day blocks] p IH]; intros db; simpl.
  - exists []. split; [apply inserted_refl|reflexivity].
  - destruct (insert_blocks_inserted ws day blocks db) as (n1 & H1 & C1).
    destruct (IH (insert_blocks ws day blocks db)) as (n2 & H2 & C2).
    exists (n1 ++ n2). split.
    + eapply inserted_trans; eauto.
    + rewrite map_app, C1, C2. reflexivity.
Qed.

(** ** Replacing the sessions of a week *)

Lemma filter_negb_filter (A : Type) (f : A -> bool) (l : list A) :
  filter f (filter (fun x => negb (f x)) l) = [].
Proof.
  induction l as [|x l IH]; simpl; [reflexivity|].
  destruct (f x) eqn:E; simpl; [exact IH|]. rewrite E. exact IH.
Qed.

Lemma filter_idem (A : Type) (f : A -> bool) (l : list A) :
  filter f (filter f l) = filter f l.
Proof.
  induction l as [|x l IH]; simpl; [reflexivity|].
  destruct (f x) eqn:E; simpl; [rewrite E, IH|]; auto.
Qed.

Lemma filter_all (A : Type) (f : A -> bool) (l : list A) :
  Forall (fun x => f x = true) l -> filter f l = l.
Proof.
  induction 1 as [|x l Hx _ IH]; simpl; [reflexivity|]. rewrite Hx, IH. reflexivity.
Qed.

Lemma filter_none (A : Type) (f : A -> bool) (l : list A) :
  Forall (fun x => f x = false) l -> filter f l = [].
Proof.
  induction 1 as [|x l Hx _ IH]; simpl; [reflexivity|]. rewrite Hx, IH. reflexivity.
Qed.

(** Deleting the sessions that satisfy [cond] and inserting rows that
    satisfy it: the other sessions stay as they are, and the sessions that
    satisfy [cond] are the new rows. *)
Lemma delete_then_insert (cond : SessionRow -> bool) (db db' : Db)
      (new : list SessionRow) :
  inserted (delete_sessions cond db) db' new ->
  Forall (fun s => cond s = true) new ->
  filter (fun s => negb (cond s)) (sessions_tbl db')
  = filter (fun s => negb (cond s)) (sessions_tbl db) /\
  filter cond (sessions_tbl db') = new.
Proof.
  intros (_ & _ & Hs & _) Hnew. rewrite Hs. cbn [delete_sessions sessions_tbl].
  rewrite !filter_app. split.
  - rewrite filter_idem, (filter_none _ (fun s => negb (cond s)) new), app_nil_r;
      [reflexivity|].
    eapply Forall_impl; [|exact Hnew]. intros s ->. reflexivity.
  - rewrite filter_negb_filter, (filter_all _ cond new Hnew). reflexivity.
Qed.

Lemma delete_sessions_NoDup (cond : SessionRow -> bool) (db : Db) :
  NoDup (map ss_id (sessions_tbl db)) ->
  NoDup (map ss_id (sessions_tbl (delete_sessions cond db))).
Proof.
  cbn [delete_sessions sessions_tbl]. generalize (sessions_tbl db) as l.
  induction l as [|s l IH]; simpl; intros Hnd; [constructor|].
  inversion Hnd as [|? ? Hnin Hnd']; subst.
  destruct (cond s); simpl; [auto|].
  constructor; [|auto]. intros Hin. apply Hnin.
  apply in_map_iff in Hin. destruct Hin as (s' & E & Hs').
  apply filter_In in Hs'. apply in_map_iff. exists s'. tauto.
Qed.

(** The rows of a plan: of week [ws], pending, on a day of the plan and
    for the subject of a block of the plan. *)
Lemma plan_rows_facts (ws : Z) (p : Plan) (c : Z * string * Q * Z * string) :
  In c (plan_rows ws p) ->
  exists day bs b,
    In (day, bs) p /\ In b bs /\
    c = (subject_id b, day, hours b, ws, "pending"%string).
Proof.
  unfold plan_rows. intros Hin. apply in_flat_map in Hin.
  destruct Hin as ([day bs] & He & Hin). apply in_map_iff in Hin.
  destruct Hin as (b & <- & Hb). exists day, bs, b. auto.
Qed.

Lemma all_blocks_In (p : Plan) (day : string) (bs : list Block) (b : Block) :
  In (day, bs) p -> In b bs -> In b (all_blocks p).
Proof.
  intros He Hb. unfold all_blocks. apply in_concat. exists bs. split; [|exact Hb].
  apply in_map_iff. exists (day, bs). auto.
Qed.

(** The blocks of a returned plan carry ids of input subjects. *)
Lemma plan_block_ids (strptime : string -> option Z) (today : Z) (fuel : nat)
      (subjects : list Subject) (cap : Q) (p : Plan) :
  ai_generate_plan strptime today fuel subjects cap = Done p ->
  forall b, In b (all_blocks p) -> In (subject_id b) (map id subjects).
Proof.
  intros Hrun.
  destruct (ai_generate_plan_run _ _ _ _ _ _ Hrun) as (st & Hfor & <-).
  refine (for_subjects_emits (fun b => In (subject_id b) (map id subjects))
                             cap fuel _ _ _ _ Hfor _).
  - intros sub Hin h _ _ _. cbn [subject_id]. apply in_map.
    eapply Permutation_in; [|exact Hin].
    apply Permutation_sym, sorted_desc_perm.
  - intros b [].
Qed.

Lemma owned_by_subject_of (uid : Z) (db : Db) (sid : Z) :
  In sid (map id (map subject_of (user_subjects uid db))) ->
  owned_by uid db sid = true.
Proof.
  intros Hin. unfold owned_by. apply existsb_exists.
  rewrite map_map in Hin. apply in_map_iff in Hin.
  destruct Hin as (r & E & Hr). exists r. split; [exact Hr|].
  cbn [subject_of id] in E. apply Z.eqb_eq, E.
Qed.

(** ** The route [generate_plan] *)

Section RouteFacts.
Variable parse_float : string -> option Q.
Variable strptime : string -> option Z.
Variable today : Z.

Lemma in_week_of_ext (ws uid : Z) (db db' : Db) (s : SessionRow) :
  subjects_tbl db' = subjects_tbl db ->
  in_week_of ws uid db' s = in_week_of ws uid db s.
Proof.
  intros E. unfold in_week_of, owned_by, user_subjects. rewrite E. reflexivity.
Qed.

Lemma hours_setting_ext (uid : Z) (db db' : Db) :
  settings_tbl db' = settings_tbl db ->
  hours_setting parse_float uid db' = hours_setting parse_float uid db.
Proof. intros E. unfold hours_setting. rewrite E. reflexivity. Qed.

Lemma generate_plan_ok (fuel : nat) (uid : Z) (db db' : Db) (ws : Z) :
  generate_plan parse_float strptime today fuel uid db = Reply (PlanOk ws) db' ->
  exists hpd p,
    hours_setting parse_float uid db = Some hpd /\
    user_subjects uid db <> [] /\
    ai_generate_plan strptime today fuel (map subject_of (user_subjects uid db)) hpd
    = Done p /\
    ws = get_week_start today /\
    db' = insert_plan ws p (delete_sessions (in_week_of ws uid db) db).
Proof.
  unfold generate_plan.
  destruct (hours_setting parse_float uid db) as [hpd|]; [|discriminate].
  destruct (user_subjects uid db) as [|r rows] eqn:Eu; [discriminate|].
  cbn [map].
  change (subject_of r :: map subject_of rows) with (map subject_of (r :: rows)).
  destruct (ai_generate_plan strptime today fuel (map subject_of (r :: rows)) hpd)
    as [p| |] eqn:Ep; try discriminate.
  intros [= <- <-]. exists hpd, p. repeat split; auto. discriminate.
Qed.

(** The rows inserted for a plan of the user's subjects are sessions of
    the week and of the user, and pending. *)
Lemma new_rows_in_week (fuel : nat) (uid : Z) (db : Db) (hpd : Q) (p : Plan)
      (ws : Z) (new : list SessionRow) :
  ai_generate_plan strptime today fuel (map subject_of (user_subjects uid db)) hpd
  = Done p ->
  map session_content new = plan_rows ws p ->
  Forall (fun s => in_week_of ws uid db s = true /\ ss_status s = "pending"%string) new.
Proof.
  intros Hrun Hc. apply Forall_forall. intros s Hs.
  assert (Hin : In (session_content s) (plan_rows ws p)).
  { rewrite <- Hc. apply in_map, Hs. }
  destruct (plan_rows_facts _ _ _ Hin) as (day & bs & b & He & Hb & E).
  unfold session_content in E. injection E as E1 E2 E3 E4 E5.
  split; [|exact E5].
  unfold in_week_of. rewrite E4, Z.eqb_refl, E1. simpl.
  apply owned_by_subject_of.
  apply (plan_block_ids _ _ _ _ _ _ Hrun). eapply all_blocks_In; eauto.
Qed.

(** A successful [generate_plan] replaces the sessions of the current
    week of the user's subjects by the rows of the new plan, all pending
    and in the order of the plan; the sessions of other weeks and of other
    users' subjects, the subjects and the settings stay as they are, and
    session ids stay unique. *)
Theorem generate_plan_replaces_week (fuel : nat) (uid : Z) (db db' : Db) (ws : Z) :
  generate_plan parse_float strptime today fuel uid db = Reply (PlanOk ws) db' ->
  exists hpd p,
    hours_setting parse_float uid db = Some hpd /\
    ai_generate_plan strptime today fuel (map subject_of (user_subjects uid db)) hpd
    = Done p /\
    ws = get_week_start today /\
    subjects_tbl db' = subjects_tbl db /\
    settings_tbl db' = settings_tbl db /\
    filter (fun s => negb (in_week_of ws uid db s)) (sessions_tbl db')
    = filter (fun s => negb (in_week_of ws uid db s)) (sessions_tbl db) /\
    map session_content (filter (in_week_of ws uid db) (sessions_tbl db'))
    = plan_rows ws p /\
    (NoDup (map ss_id (sessions_tbl db)) -> NoDup (map ss_id (sessions_tbl db'))).
Proof.
  intros Hgen.
  destruct (generate_plan_ok _ _ _ _ _ Hgen) as (hpd & p & Hh & _ & Hrun & Hws & ->).
  exists hpd, p.
  destruct (insert_plan_inserted ws p (delete_sessions (in_week_of ws uid db) db))
    as (new & Hins & Hc).
  pose proof (new_rows_in_week fuel uid db hpd p ws new Hrun Hc) as Hnew.
  assert (Hnew' : Forall (fun s => in_week_of ws uid db s = true) new).
  { eapply Forall_impl; [|exact Hnew]. intros s [H _]. exact H. }
  destruct (delete_then_insert _ _ _ _ Hins Hnew') as [Hkeep Hweek].
  destruct Hins as (Hsub & Hset & _ & Hnd).
  repeat split; try assumption.
  - rewrite Hweek. exact Hc.
  - intros H. apply Hnd, delete_sessions_NoDup, H.
Qed.

(** Generating the plan a second time changes no row but for the ids of
    the week's sessions. *)
Theorem generate_plan_twice (fuel : nat) (uid : Z) (db db1 : Db) (ws : Z) :
  generate_plan parse_float strptime today fuel uid db = Reply (PlanOk ws) db1 ->
  exists db2,
    generate_plan parse_float strptime today fuel uid db1 = Reply (PlanOk ws) db2 /\
    subjects_tbl db2 = subjects_tbl db1 /\
    settings_tbl db2 = settings_tbl db1 /\
    map session_content (sessions_tbl db2) = map session_content (sessions_tbl db1).
Proof.
  intros Hgen.
  destruct (generate_plan_ok _ _ _ _ _ Hgen) as (hpd & p & Hh & Hne & Hrun & Hws & ->).
  set (cond := in_week_of ws uid db).
  destruct (insert_plan_inserted ws p (delete_sessions cond db)) as (new & Hins & Hc).
  pose proof (new_rows_in_week fuel uid db hpd p ws new Hrun Hc) as Hnew.
  assert (Hnew' : Forall (fun s => cond s = true) new).
  { eapply Forall_impl; [|exact Hnew]. intros s [H _]. exact H. }
  destruct (delete_then_insert _ _ _ _ Hins Hnew') as [Hkeep Hweek].
  destruct Hins as (Hsub & Hset & Hs & _).
  set (db1 := insert_plan ws p (delete_sessions cond db)) in *.
  cbn [delete_sessions subjects_tbl settings_tbl] in Hsub, Hset.
  assert (Eu : user_subjects uid db1 = user_subjects uid db).
  { unfold user_subjects. rewrite Hsub. reflexivity. }
  assert (Ec : forall s, in_week_of ws uid db1 s = cond s).
  { intros s. apply in_week_of_ext, Hsub. }
  exists (insert_plan ws p (delete_sessions cond db1)).
  assert (Ed : delete_sessions (in_week_of ws uid db1) db1 = delete_sessions cond db1).
  { unfold delete_sessions. f_equal. apply filter_ext. intros s. rewrite Ec. reflexivity. }
  split.
  - unfold generate_plan.
    rewrite (hours_setting_ext uid db db1 Hset), Hh, Eu.
    destruct (user_subjects uid db) as [|r rows] eqn:Er; [congruence|].
    cbn [map] in *. rewrite Hrun, <- Hws, Ed. reflexivity.
  - destruct (insert_plan_inserted ws p (delete_sessions cond db1))
      as (new2 & (Hsub2 & Hset2 & Hs2 & _) & Hc2).
    cbn [delete_sessions subjects_tbl settings_tbl sessions_tbl] in Hsub2, Hset2, Hs2.
    split; [exact Hsub2|]. split; [exact Hset2|].
    rewrite Hs2, map_app, Hc2, Hkeep.
    rewrite Hs. cbn [delete_sessions sessions_tbl].
    rewrite map_app, Hc. reflexivity.
Qed.
End RouteFacts.

(** ** The weekly summary *)

Lemma flat_map_filter (A : Type) (f : A -> bool) (g : A -> list A) (l : list A) :
  (forall x, g x = if f x then [x] else []) -> flat_map g l = filter f l.
Proof.
  intros Hg. induction l as [|x l IH]; simpl; [reflexivity|].
  rewrite Hg, IH. destruct (f x); reflexivity.
Qed.

Lemma filter_andb (A : Type) (f g : A -> bool) (l : list A) :
  filter (fun x => f x && g x) l = filter g (filter f l).
Proof.
  induction l as [|x l IH]; simpl; [reflexivity|].
  destruct (f x); simpl; [|exact IH]. destruct (g x); rewrite IH; reflexivity.
Qed.

(** With unique subject ids the join gives a session once if its subject
    is one of the user's, and not at all otherwise. *)
Lemma join_subject (subs : list SubjectRow) (s : SessionRow) (c : bool) (uid : Z) :
  NoDup (map sr_id subs) ->
  flat_map (fun sub => if (ss_subject_id s =? sr_id sub)%Z && c
                          && (sr_user_id sub =? uid)%Z
                       then [s] else []) subs
  = if c && existsb (fun r => (sr_id r =? ss_subject_id s)%Z)
                    (filter (fun r => (sr_user_id r =? uid)%Z) subs)
    then [s] else [].
Proof.
  induction subs as [|r subs IH]; simpl; intros Hnd.
  - rewrite andb_false_r. reflexivity.
  - inversion Hnd as [|? ? Hnin Hnd']; subst. rewrite (IH Hnd').
    destruct (Z.eqb_spec (ss_subject_id s) (sr_id r)) as [E|E].
    + assert (Hno : existsb (fun r0 => (sr_id r0 =? ss_subject_id s)%Z)
                            (filter (fun r0 => (sr_user_id r0 =? uid)%Z) subs) = false).
      { apply not_true_is_false. intros H. apply existsb_exists in H.
        destruct H as (r' & Hr' & E'). apply filter_In in Hr'.
        apply Hnin. apply Z.eqb_eq in E'. rewrite <- E, <- E'.
        apply in_map. tauto. }
      rewrite Hno, andb_false_r, app_nil_r. cbn [andb].
      destruct (sr_user_id r =? uid)%Z; simpl.
      * rewrite E, Z.eqb_refl, andb_true_r. cbn [orb]. rewrite andb_true_r.
        reflexivity.
      * rewrite Hno, !andb_false_r. reflexivity.
    + cbn [andb app].
      destruct (sr_user_id r =? uid)%Z; simpl; [|reflexivity].
      destruct (Z.eqb_spec (sr_id r) (ss_subject_id s)); [congruence|]. reflexivity.
Qed.

Lemma day_rows_filter (ws : Z) (day : string) (uid : Z) (db : Db) :
  NoDup (map sr_id (subjects_tbl db)) ->
  day_rows ws day uid db
  = filter (fun s => String.eqb (ss_day_name s) day)
           (filter (in_week_of ws uid db) (sessions_tbl db)).
Proof.
  intros Hnd. unfold day_rows. rewrite <- filter_andb.
  apply flat_map_filter. intros s.
  set (c := (ss_week_start s =? ws)%Z && String.eqb (ss_day_name s) day).
  rewrite (flat_map_ext _
             (fun sub => if (ss_subject_id s =? sr_id sub)%Z && c
                            && (sr_user_id sub =? uid)%Z
                         then [s] else [])).
  - rewrite (join_subject _ s c uid Hnd).
    unfold in_week_of, owned_by, user_subjects. subst c.
    destruct (ss_week_start s =? ws)%Z; simpl; [|reflexivity].
    destruct (String.eqb (ss_day_name s) day); simpl.
    + rewrite andb_true_r. reflexivity.
    + rewrite andb_false_r. reflexivity.
  - intros sub. subst c. rewrite !andb_assoc. reflexivity.
Qed.

Lemma filter_map_comm (A B : Type) (f : A -> B) (g : B -> bool) (l : list A) :
  map f (filter (fun x => g (f x)) l) = filter g (map f l).
Proof.
  induction l as [|x l IH]; simpl; [reflexivity|].
  destruct (g (f x)); simpl; rewrite IH; reflexivity.
Qed.

(** The rows of a plan for day [d] are the blocks of [d], in order. *)
Lemma plan_rows_day (ws : Z) (p : Plan) (d : string) :
  NoDup (map fst p) ->
  filter (fun c => String.eqb (snd (fst (fst (fst c)))) d) (plan_rows ws p)
  = map (fun b => (subject_id b, d, hours b, ws, "pending"%string)) (day_blocks p d).
Proof.
  unfold plan_rows, day_blocks.
  induction p as [|[k bs] p IH]; simpl; intros Hnd; [reflexivity|].
  inversion Hnd as [|? ? Hnin Hnd']; subst. rewrite filter_app.
  destruct (String.eqb_spec k d) as [->|Hne].
  - rewrite filter_all.
    + rewrite filter_none; [apply app_nil_r|].
      apply Forall_forall. intros c Hc.
      destruct (plan_rows_facts ws p c Hc) as (day & bs' & b & He & _ & ->).
      cbn [fst snd]. apply String.eqb_neq. intros ->. apply Hnin.
      apply in_map_iff. exists (d, bs'). auto.
    + apply Forall_forall. intros c Hc. apply in_map_iff in Hc.
      destruct Hc as (b & <- & _). cbn [fst snd]. apply String.eqb_refl.
  - rewrite filter_none.
    + simpl. apply IH, Hnd'.
    + apply Forall_forall. intros c Hc. apply in_map_iff in Hc.
      destruct Hc as (b & <- & _). cbn [fst snd]. apply String.eqb_neq, Hne.
Qed.

Lemma sum_hours_blocks (bs : list Block) : sum_hours (map hours bs) == block_sum bs.
Proof.
  induction bs as [|b bs IH]; simpl; [reflexivity|].
  change (sum_hours (hours b :: map hours bs) == hours b + block_sum bs).
  rewrite sum_hours_cons, IH. reflexivity.
Qed.

Lemma block_sum_tenth (bs : list Block) :
  (forall b, In b bs -> is_tenth (hours b)) -> is_tenth (block_sum bs).
Proof.
  induction bs as [|b bs IH]; simpl; intros H; [apply is_tenth_0|].
  apply is_tenth_plus; [apply H; auto|apply IH; auto].
Qed.

(** What the invariant gives for a returned plan. *)
Lemma plan_facts (strptime : string -> option Z) (today : Z) (fuel : nat)
      (subjects : list Subject) (cap : Q) (p : Plan) :
  ai_generate_plan strptime today fuel subjects cap = Done p ->
  map fst p = DAYS /\
  (forall d, day_total p d <= Qmax 0 cap + (1 # 20)) /\
  (forall b, In b (all_blocks p) -> is_tenth (hours b)).
Proof.
  intros Hrun.
  destruct (ai_generate_plan_run _ _ _ _ _ _ Hrun) as (st & Hfor & <-).
  pose proof (for_subjects_Inv _ _ _ _ _ Hfor (Inv_init cap)) as HI.
  split; [apply (inv_keys _ _ HI)|]. split; [apply (inv_bound _ _ HI)|].
  refine (for_subjects_emits (fun b => is_tenth (hours b)) cap fuel _ _ _ _ Hfor _).
  - intros sub _ h _ _ Ht. exact Ht.
  - intros b [].
Qed.

Lemma count_status_length (st : string) (rows : list SessionRow) :
  count_status st rows
  = Z.of_nat (List.length (filter (fun r => String.eqb (ss_status r) st) rows)).
Proof. unfold count_status. rewrite sum_of_ones. lia. Qed.

Section SummaryFacts.
Variable parse_float : string -> option Q.
Variable strptime : string -> option Z.
Variable today : Z.

(** After a successful [generate_plan] (subject ids being unique) the
    weekly summary shows the new plan: for each day the total is the sum
    of the day's blocks, at most [max(capacity, 0) + 0.1]; no session is
    done or missed, and as many are pending as the day has blocks. *)
Theorem weekly_summary_of_new_plan (fuel : nat) (uid : Z) (db db' : Db) (ws : Z) :
  NoDup (map sr_id (subjects_tbl db)) ->
  generate_plan parse_float strptime today fuel uid db = Reply (PlanOk ws) db' ->
  exists hpd p,
    hours_setting parse_float uid db = Some hpd /\
    ai_generate_plan strptime today fuel (map subject_of (user_subjects uid db)) hpd
    = Done p /\
    forall d sm,
      In (d, sm) (weekly_summary today uid db') ->
      In d DAYS /\
      sum_total sm == day_total p d /\
      sum_total sm <= Qmax 0 hpd + (1 # 10) /\
      sum_done sm = 0%Z /\ sum_missed sm = 0%Z /\
      sum_pending sm = Z.of_nat (List.length (day_blocks p d)).
Proof.
  intros Hnd Hgen.
  destruct (generate_plan_ok _ _ _ _ _ _ _ _ Hgen)
    as (hpd & p & Hh & _ & Hrun & Hws & ->).
  exists hpd, p. split; [exact Hh|]. split; [exact Hrun|].
  destruct (plan_facts _ _ _ _ _ _ Hrun) as (Hkeys & Hbound & Htenth).
  set (cond := in_week_of ws uid db).
  destruct (insert_plan_inserted ws p (delete_sessions cond db)) as (new & Hins & Hc).
  pose proof (new_rows_in_week strptime today fuel uid db hpd p ws new Hrun Hc) as Hnew.
  assert (Hnew' : Forall (fun s => cond s = true) new).
  { eapply Forall_impl; [|exact Hnew]. intros s [H _]. exact H. }
  destruct (delete_then_insert _ _ _ _ Hins Hnew') as [_ Hweek].
  destruct Hins as (Hsub & _ & _ & _).
  set (db' := insert_plan ws p (delete_sessions cond db)) in *.
  cbn [delete_sessions subjects_tbl] in Hsub.
  intros d sm Hin. unfold weekly_summary in Hin. apply in_map_iff in Hin.
  destruct Hin as (d' & E & Hd). injection E as -> <-. cbn [sum_total sum_done sum_missed sum_pending].
  split; [exact Hd|].
  (* the rows of the day *)
  assert (Hrows : day_rows (get_week_start today) d uid db'
                  = filter (fun s => String.eqb (ss_day_name s) d) new).
  { rewrite day_rows_filter by (rewrite Hsub; exact Hnd). rewrite <- Hws.
    rewrite (filter_ext (in_week_of ws uid db') cond)
      by (intros s; apply in_week_of_ext, Hsub).
    rewrite Hweek. reflexivity. }
  rewrite Hrows. set (rows := filter (fun s => String.eqb (ss_day_name s) d) new).
  assert (Hcontent : map session_content rows
                     = map (fun b => (subject_id b, d, hours b, ws, "pending"%string))
                           (day_blocks p d)).
  { unfold rows.
    etransitivity;
      [exact (filter_map_comm _ _ session_content
                              (fun c => String.eqb (snd (fst (fst (fst c)))) d) new)|].
    rewrite Hc. apply plan_rows_day. rewrite Hkeys. apply NoDup_DAYS. }
  assert (Hhours : map ss_hours rows = map hours (day_blocks p d)).
  { transitivity (map (fun c : Z * string * Q * Z * string => snd (fst (fst c)))
                      (map session_content rows)).
    - rewrite map_map. reflexivity.
    - rewrite Hcontent, map_map. reflexivity. }
  assert (Hstatus : map ss_status rows
                    = map (fun _ => "pending"%string) (day_blocks p d)).
  { transitivity (map (fun c : Z * string * Q * Z * string => snd c)
                      (map session_content rows)).
    - rewrite map_map. reflexivity.
    - rewrite Hcontent, map_map. reflexivity. }
  assert (Hlen : List.length rows = List.length (day_blocks p d)).
  { rewrite <- (length_map ss_hours rows), Hhours. apply length_map. }
  assert (Hpend : Forall (fun r => ss_status r = "pending"%string) rows).
  { apply Forall_forall. intros r Hr.
    assert (Hin : In (ss_status r) (map ss_status rows)) by (apply in_map, Hr).
    rewrite Hstatus in Hin. apply in_map_iff in Hin. destruct Hin as (_ & E & _).
    symmetry. exact E. }
  assert (Htot : round1 (sum_hours (map ss_hours rows)) == day_total p d).
  { rewrite Hhours.
    rewrite (round1_comp _ _ (sum_hours_blocks (day_blocks p d))).
    apply round1_tenth, block_sum_tenth. intros b Hb.
    apply Htenth. eapply day_blocks_all, Hb. }
  split; [exact Htot|]. split.
  { rewrite Htot. specialize (Hbound d). lra. }
  rewrite !count_status_length.
  split; [|split].
  - rewrite filter_none; [reflexivity|].
    eapply Forall_impl; [|exact Hpend]. intros r ->. reflexivity.
  - rewrite filter_none; [reflexivity|].
    eapply Forall_impl; [|exact Hpend]. intros r ->. reflexivity.
  - rewrite filter_all; [rewrite Hlen; reflexivity|].
    eapply Forall_impl; [|exact Hpend]. intros r ->. reflexivity.
Qed.
End SummaryFacts.

(** ** The route [adjust_missed] *)

Lemma NoDup_map_inj (A B : Type) (f : A -> B) (l : list A) (a b : A) :
  NoDup (map f l) -> In a l -> In b l -> f a = f b -> a = b.
Proof.
  induction l as [|x l IH]; simpl; intros Hnd Ha Hb E; [tauto|].
  inversion Hnd as [|? ? Hnin Hnd']; subst.
  destruct Ha as [-> | Ha], Hb as [-> | Hb]; auto.
  - exfalso. apply Hnin. rewrite E. apply in_map, Hb.
  - exfalso. apply Hnin. rewrite <- E. apply in_map, Ha.
Qed.

Lemma raised_id (ids : list Z) (r : SubjectRow) : sr_id (raised ids r) = sr_id r.
Proof. unfold raised. destruct (existsb _ ids); reflexivity. Qed.

Lemma raised_user (ids : list Z) (r : SubjectRow) :
  sr_user_id (raised ids r) = sr_user_id r.
Proof. unfold raised. destruct (existsb _ ids); reflexivity. Qed.

Lemma raised_nil (r : SubjectRow) : raised [] r = r.
Proof. reflexivity. Qed.

Lemma bump_priority_spec (sid : Z) (db : Db) :
  NoDup (map sr_id (subjects_tbl db)) -> In sid (map sr_id (subjects_tbl db)) ->
  bump_priority sid db
  = Some (mkDb (map (raised [sid]) (subjects_tbl db)) (sessions_tbl db)
               (settings_tbl db) (sessions_seq db)).
Proof.
  intros Hnd Hin. unfold bump_priority.
  destruct (find (fun r => (sr_id r =? sid)%Z) (subjects_tbl db)) as [sub|] eqn:Ef.
  - apply find_some in Ef. destruct Ef as [Hsub Eid]. apply Z.eqb_eq in Eid.
    do 2 f_equal. apply map_ext_in. intros r Hr. unfold raised. cbn [existsb].
    rewrite orb_false_r.
    destruct (Z.eqb_spec (sr_id r) sid) as [E|E]; [|reflexivity].
    assert (r = sub).
    { apply (NoDup_map_inj _ _ sr_id (subjects_tbl db)); auto. congruence. }
    subst r. reflexivity.
  - exfalso. apply in_map_iff in Hin. destruct Hin as (r & E & Hr).
    apply (find_none _ _ Ef) in Hr. rewrite E, Z.eqb_refl in Hr. discriminate.
Qed.

Lemma raised_cons (sid : Z) (ids : list Z) (r : SubjectRow) :
  ~ In sid ids -> raised ids (raised [sid] r) = raised (sid :: ids) r.
Proof.
  intros Hnin. unfold raised at 2 3. cbn [existsb]. rewrite orb_false_r.
  destruct (Z.eqb_spec (sr_id r) sid) as [E|E]; cbn [orb].
  - unfold raised. cbn [sr_id].
    assert (Hno : existsb (Z.eqb (sr_id r)) ids = false).
    { apply not_true_is_false. intros H. apply existsb_exists in H.
      destruct H as (i & Hi & Ei). apply Z.eqb_eq in Ei. apply Hnin. congruence. }
    rewrite Hno. reflexivity.
  - reflexivity.
Qed.

Lemma bump_priorities_spec (ids : list Z) :
  forall db,
    NoDup ids -> NoDup (map sr_id (subjects_tbl db)) ->
    (forall i, In i ids -> In i (map sr_id (subjects_tbl db))) ->
    bump_priorities ids db
    = Some (mkDb (map (raised ids) (subjects_tbl db)) (sessions_tbl db)
                 (settings_tbl db) (sessions_seq db)).
Proof.
  induction ids as [|sid ids IH]; intros db Hni Hnd Hall; simpl.
  - rewrite (map_ext _ (fun r => r) raised_nil), map_id. destruct db; reflexivity.
  - inversion Hni as [|? ? Hnin Hni']; subst.
    rewrite (bump_priority_spec sid db Hnd (Hall sid (or_introl eq_refl))).
    assert (Eids : map sr_id (map (raised [sid]) (subjects_tbl db))
                   = map sr_id (subjects_tbl db)).
    { rewrite map_map. apply map_ext. intros r. apply raised_id. }
    rewrite IH; cbn [subjects_tbl sessions_tbl settings_tbl sessions_seq].
    + do 2 f_equal. rewrite map_map. apply map_ext. intros r.
      apply raised_cons, Hnin.
    + exact Hni'.
    + rewrite Eids. exact Hnd.
    + intros i Hi. rewrite Eids. apply Hall. right. exact Hi.
Qed.

Lemma owned_by_In (uid : Z) (db : Db) (sid : Z) :
  owned_by uid db sid = true ->
  exists r, In r (subjects_tbl db) /\ sr_id r = sid /\ sr_user_id r = uid.
Proof.
  unfold owned_by, user_subjects. intros H. apply existsb_exists in H.
  destruct H as (r & Hr & E). apply filter_In in Hr. destruct Hr as [Hr Hu].
  exists r. split; [exact Hr|]. split; [apply Z.eqb_eq, E|apply Z.eqb_eq, Hu].
Qed.

Lemma missed_ids_facts (ws uid : Z) (db : Db) :
  NoDup (missed_ids ws uid db) /\
  forall i, In i (missed_ids ws uid db) ->
            exists r, In r (subjects_tbl db) /\ sr_id r = i /\ sr_user_id r = uid.
Proof.
  unfold missed_ids. split; [apply NoDup_nodup|].
  intros i Hi. apply nodup_In in Hi. apply in_map_iff in Hi.
  destruct Hi as (s & <- & Hs). apply filter_In in Hs. destruct Hs as [_ Hs].
  apply andb_prop in Hs. destruct Hs as [_ Hs]. apply owned_by_In, Hs.
Qed.

Lemma owned_by_raised (uid : Z) (db db1 : Db) (ids : list Z) (sid : Z) :
  subjects_tbl db1 = map (raised ids) (subjects_tbl db) ->
  owned_by uid db1 sid = owned_by uid db sid.
Proof.
  intros E. unfold owned_by, user_subjects. rewrite E.
  generalize (subjects_tbl db) as l. induction l as [|r l IH]; simpl; [reflexivity|].
  rewrite raised_user. destruct (sr_user_id r =? uid)%Z; simpl; [|exact IH].
  rewrite raised_id, IH. reflexivity.
Qed.

Section AdjustFacts.
Variable parse_float : string -> option Q.
Variable strptime : string -> option Z.
Variable today : Z.

(** The first half of [adjust_missed]: with unique subject ids the
    priorities are raised and committed, and no lookup fails. *)
Lemma adjust_missed_bumped (uid : Z) (db : Db) :
  NoDup (map sr_id (subjects_tbl db)) ->
  bump_priorities (missed_ids (get_week_start today) uid db) db
  = Some (mkDb (map (raised (missed_ids (get_week_start today) uid db))
                    (subjects_tbl db))
               (sessions_tbl db) (settings_tbl db) (sessions_seq db)).
Proof.
  intros Hnd.
  destruct (missed_ids_facts (get_week_start today) uid db) as [Hni Hall].
  apply bump_priorities_spec; [exact Hni|exact Hnd|].
  intros i Hi. destruct (Hall i Hi) as (r & Hr & <- & _). apply in_map, Hr.
Qed.

(** Whatever the reply of [adjust_missed] (subject ids being unique), the
    committed priorities are: one tier up, at most 3, for the user's
    subjects with a missed session this week, also when the new plan is
    never computed; and as before for every other subject, the subjects
    of other users among them. *)
Theorem adjust_missed_priorities (fuel : nat) (uid : Z) (db : Db) :
  NoDup (map sr_id (subjects_tbl db)) ->
  subjects_tbl (committed (adjust_missed parse_float strptime today fuel uid db))
  = map (raised (missed_ids (get_week_start today) uid db)) (subjects_tbl db) /\
  (forall r, In r (subjects_tbl db) -> sr_user_id r <> uid ->
             raised (missed_ids (get_week_start today) uid db) r = r).
Proof.
  intros Hnd. split.
  - unfold adjust_missed.
    pose proof (adjust_missed_bumped uid db Hnd) as Hb.
    destruct (missed_ids (get_week_start today) uid db) as [|i ids] eqn:Ei.
    + cbn [committed]. rewrite (map_ext _ (fun r => r) raised_nil), map_id. reflexivity.
    + rewrite Hb.
      match goal with |- context [hours_setting ?pf ?u ?d] =>
        destruct (hours_setting pf u d) as [hpd|] end; [|reflexivity].
      match goal with |- context [ai_generate_plan ?a ?b ?c ?d ?e] =>
        destruct (ai_generate_plan a b c d e) as [p| |] end; try reflexivity.
      cbn [committed].
      match goal with |- context [insert_plan ?w ?p ?d] =>
        destruct (insert_plan_inserted w p d) as (new & (Hs & _) & _) end.
      rewrite Hs. reflexivity.
  - intros r Hr Hu. unfold raised.
    destruct (existsb (Z.eqb (sr_id r)) (missed_ids (get_week_start today) uid db))
      eqn:E; [|reflexivity].
    exfalso. apply existsb_exists in E. destruct E as (i & Hi & Ei).
    apply Z.eqb_eq in Ei.
    destruct (proj2 (missed_ids_facts _ uid db) i Hi) as (r' & Hr' & E' & Hu').
    assert (r = r').
    { apply (NoDup_map_inj _ _ sr_id (subjects_tbl db)); auto. congruence. }
    subst r'. contradiction.
Qed.

(** A successful [adjust_missed] (subject ids being unique) replaces only
    the pending sessions of the current week of the user's subjects: they
    become the rows of the plan computed from the raised priorities.
    Every done or missed session, and every session of another week or
    of another user's subject, stays as it is; session ids stay unique. *)
Theorem adjust_missed_keeps_history (fuel : nat) (uid : Z) (db db' : Db) (n : nat) :
  NoDup (map sr_id (subjects_tbl db)) ->
  adjust_missed parse_float strptime today fuel uid db = Reply (Adjusted n) db' ->
  exists hpd p db1,
    n = List.length (missed_ids (get_week_start today) uid db) /\
    subjects_tbl db1
    = map (raised (missed_ids (get_week_start today) uid db)) (subjects_tbl db) /\
    hours_setting parse_float uid db = Some hpd /\
    ai_generate_plan strptime today fuel (map subject_of (user_subjects uid db1)) hpd
    = Done p /\
    filter (fun s => negb (in_week_of (get_week_start today) uid db s
                           && String.eqb (ss_status s) "pending"))
           (sessions_tbl db')
    = filter (fun s => negb (in_week_of (get_week_start today) uid db s
                             && String.eqb (ss_status s) "pending"))
             (sessions_tbl db) /\
    map session_content
        (filter (fun s => in_week_of (get_week_start today) uid db s
                          && String.eqb (ss_status s) "pending")
                (sessions_tbl db'))
    = plan_rows (get_week_start today) p /\
    (NoDup (map ss_id (sessions_tbl db)) -> NoDup (map ss_id (sessions_tbl db'))).
Proof.
  intros Hnd. unfold adjust_missed.
  pose proof (adjust_missed_bumped uid db Hnd) as Hb.
  set (ws := get_week_start today) in *.
  set (ids := missed_ids ws uid db) in *.
  destruct ids as [|i ids'] eqn:Ei; [discriminate|]. rewrite <- Ei in *. clear Ei.
  rewrite Hb.
  set (db1 := mkDb (map (raised ids) (subjects_tbl db)) (sessions_tbl db)
                   (settings_tbl db) (sessions_seq db)).
  assert (Eh : hours_setting parse_float uid db1 = hours_setting parse_float uid db).
  { apply hours_setting_ext. reflexivity. }
  rewrite Eh.
  destruct (hours_setting parse_float uid db) as [hpd|]; [|discriminate].
  destruct (ai_generate_plan strptime today fuel
                             (map subject_of (user_subjects uid db1)) hpd)
    as [p| |] eqn:Hrun; try discriminate.
  intros [= <- <-]. exists hpd, p, db1.
  split; [reflexivity|]. split; [reflexivity|]. split; [reflexivity|].
  split; [exact Hrun|].
  set (cond1 := fun s => in_week_of ws uid db1 s && String.eqb (ss_status s) "pending").
  set (cond := fun s => in_week_of ws uid db s && String.eqb (ss_status s) "pending").
  assert (Ec : forall s, cond1 s = cond s).
  { intros s. unfold cond1, cond, in_week_of.
    rewrite (owned_by_raised uid db db1 ids) by reflexivity. reflexivity. }
  destruct (insert_plan_inserted ws p (delete_sessions cond1 db1)) as (new & Hins & Hc).
  pose proof (new_rows_in_week strptime today fuel uid db1 hpd p ws new Hrun Hc) as Hnew.
  assert (Hnew' : Forall (fun s => cond1 s = true) new).
  { eapply Forall_impl; [|exact Hnew]. intros s [H1 H2]. unfold cond1.
    rewrite H1, H2. reflexivity. }
  destruct (delete_then_insert _ _ _ _ Hins Hnew') as [Hkeep Hweek].
  destruct Hins as (_ & _ & _ & Hnd').
  split; [|split].
  - rewrite (filter_ext (fun s => negb (cond s)) (fun s => negb (cond1 s)))
      by (intros s; rewrite Ec; reflexivity).
    rewrite Hkeep.
    apply filter_ext. intros s. rewrite Ec. reflexivity.
  - rewrite (filter_ext cond cond1) by (intros s; rewrite Ec; reflexivity).
    rewrite Hweek. exact Hc.
  - intros H. apply Hnd'. apply (delete_sessions_NoDup cond1 db1). exact H.
Qed.
End AdjustFacts.

(** ** The route [delete_subject] *)

(** [delete_subject] by a user who does not own subject [sid] leaves the
    subjects as they are, the subject [sid] of its owner among them, and
    still deletes every session of that subject; the other sessions
    stay. *)
Theorem delete_subject_of_other_user (sid uid : Z) (db : Db) :
  (forall r, In r (subjects_tbl db) -> sr_id r = sid -> sr_user_id r <> uid) ->
  subjects_tbl (delete_subject sid uid db) = subjects_tbl db /\
  sessions_tbl (delete_subject sid uid db)
  = filter (fun s => negb (ss_subject_id s =? sid)%Z) (sessions_tbl db) /\
  forall s, In s (sessions_tbl (delete_subject sid uid db)) -> ss_subject_id s <> sid.
Proof.
  intros Hother. unfold delete_subject. cbn [subjects_tbl sessions_tbl].
  split; [|split; [reflexivity|]].
  - apply filter_all. apply Forall_forall. intros r Hr.
    destruct (Z.eqb_spec (sr_id r) sid) as [E|E]; [|reflexivity].
    destruct (Z.eqb_spec (sr_user_id r) uid) as [Eu|Eu]; [|reflexivity].
    exfalso. exact (Hother r Hr E Eu).
  - intros s Hs. apply filter_In in Hs. destruct Hs as [_ Hs].
    destruct (Z.eqb_spec (ss_subject_id s) sid); [discriminate|assumption].
Qed.

(** User 1 deletes the subject 3 of user 2: the subject stays and its
    session is gone. *)
Lemma delete_subject_of_other_user_witness :
  subjects_tbl (delete_subject 3 1 sample_db) = subjects_tbl sample_db /\
  sessions_tbl (delete_subject 3 1 sample_db)
  = filter (fun s => negb (ss_subject_id s =? 3)%Z) (sessions_tbl sample_db) /\
  forall s, In s (sessions_tbl (delete_subject 3 1 sample_db)) -> ss_subject_id s <> 3%Z.
Proof.
  apply (delete_subject_of_other_user 3 1 sample_db).
  intros r Hr E. simpl in Hr.
  destruct Hr as [<- | [<- | [<- | []]]]; simpl in *; congruence.
Defined.

(** ** The routes on the sample database *)

Lemma sample_generate_plan :
  generate_plan sample_parse_float sample_strptime 0 10 1 sample_db
  = Reply (PlanOk (-6)) sample_db_planned.
Proof. vm_compute. reflexivity. Qed.

Lemma sample_adjust_missed :
  adjust_missed sample_parse_float sample_strptime 0 10 1 sample_db
  = Reply (Adjusted 1) sample_db_adjusted.
Proof. vm_compute. reflexivity. Qed.

Lemma sample_subject_ids : NoDup (map sr_id (subjects_tbl sample_db)).
Proof. simpl. repeat constructor; simpl; intuition discriminate. Qed.

(** The done session of last week and the session of user 2 are kept. *)
Lemma generate_plan_replaces_week_witness :
  filter (fun s => negb (in_week_of (-6) 1 sample_db s)) (sessions_tbl sample_db_planned)
  = filter (fun s => negb (in_week_of (-6) 1 sample_db s)) (sessions_tbl sample_db).
Proof.
  destruct (generate_plan_replaces_week _ _ _ _ _ _ _ _ sample_generate_plan)
    as (hpd & p & _ & _ & _ & _ & _ & H & _).
  exact H.
Defined.

Lemma generate_plan_twice_witness :
  exists db2,
    generate_plan sample_parse_float sample_strptime 0 10 1 sample_db_planned
    = Reply (PlanOk (-6)) db2 /\
    subjects_tbl db2 = subjects_tbl sample_db_planned /\
    settings_tbl db2 = settings_tbl sample_db_planned /\
    map session_content (sessions_tbl db2)
    = map session_content (sessions_tbl sample_db_planned).
Proof.
  exact (generate_plan_twice _ _ _ _ _ _ _ _ sample_generate_plan).
Defined.

Lemma weekly_summary_of_new_plan_witness :
  exists hpd p,
    hours_setting sample_parse_float 1 sample_db = Some hpd /\
    ai_generate_plan sample_strptime 0 10
                     (map subject_of (user_subjects 1 sample_db)) hpd = Done p /\
    forall d sm,
      In (d, sm) (weekly_summary 0 1 sample_db_planned) ->
      In d DAYS /\
      sum_total sm == day_total p d /\
      sum_total sm <= Qmax 0 hpd + (1 # 10) /\
      sum_done sm = 0%Z /\ sum_missed sm = 0%Z /\
      sum_pending sm = Z.of_nat (List.length (day_blocks p d)).
Proof.
  exact (weekly_summary_of_new_plan _ _ _ _ _ _ _ _ sample_subject_ids
                                    sample_generate_plan).
Defined.

(** Subject 2 had a missed session: its priority goes from 1 to 2. *)
Lemma adjust_missed_priorities_witness :
  map sr_priority (subjects_tbl sample_db_adjusted) = [3; 2; 2]%Z.
Proof.
  pose proof (adjust_missed_priorities sample_parse_float sample_strptime 0 10 1
                                       sample_db sample_subject_ids) as [H _].
  rewrite sample_adjust_missed in H. cbn [committed] in H. rewrite H.
  vm_compute. reflexivity.
Defined.

(** The done session, the missed session and the session of user 2 are
    kept. *)
Lemma adjust_missed_keeps_history_witness :
  filter (fun s => negb (in_week_of (get_week_start 0) 1 sample_db s
                         && String.eqb (ss_status s) "pending"))
         (sessions_tbl sample_db_adjusted)
  = filter (fun s => negb (in_week_of (get_week_start 0) 1 sample_db s
                           && String.eqb (ss_status s) "pending"))
           (sessions_tbl sample_db).
Proof.
  destruct (adjust_missed_keeps_history _ _ _ _ _ _ _ _ sample_subject_ids
                                        sample_adjust_missed)
    as (hpd & p & db1 & _ & _ & _ & _ & H & _).
  exact H.
Defined.

(** ** Completed hours across a new plan *)

Section CompletedFacts.
Variable parse_float : string -> option Q.
Variable strptime : string -> option Z.
Variable today : Z.

(** The sessions after rows that are all pending were put in the place
    of the sessions that satisfy [cond]: the done sessions of a subject
    are those that were there and do not satisfy [cond]. *)
Lemma done_sessions_after (cond : SessionRow -> bool) (db db' : Db)
      (new : list SessionRow) (sid : Z) :
  inserted (delete_sessions cond db) db' new ->
  Forall (fun s => ss_status s = "pending"%string) new ->
  filter (fun s => (ss_subject_id s =? sid)%Z && String.eqb (ss_status s) "done")
         (sessions_tbl db')
  = filter (fun s => (ss_subject_id s =? sid)%Z && String.eqb (ss_status s) "done"
                     && negb (cond s))
           (sessions_tbl db).
Proof.
  intros (_ & _ & Hs & _) Hnew. rewrite Hs. cbn [delete_sessions sessions_tbl].
  rewrite filter_app.
  rewrite (filter_none _ _ new).
  - rewrite app_nil_r, <- filter_andb. apply filter_ext. intros s.
    destruct (cond s); simpl; [rewrite andb_false_r|rewrite andb_true_r]; reflexivity.
  - eapply Forall_impl; [|exact Hnew]. intros s ->. apply andb_false_r.
Qed.

Lemma adjust_missed_ok (fuel : nat) (uid : Z) (db db' : Db) (n : nat) :
  NoDup (map sr_id (subjects_tbl db)) ->
  adjust_missed parse_float strptime today fuel uid db = Reply (Adjusted n) db' ->
  exists hpd p db1,
    subjects_tbl db1
    = map (raised (missed_ids (get_week_start today) uid db)) (subjects_tbl db) /\
    sessions_tbl db1 = sessions_tbl db /\
    ai_generate_plan strptime today fuel (map subject_of (user_subjects uid db1)) hpd
    = Done p /\
    db' = insert_plan (get_week_start today) p
                      (delete_sessions
                         (fun s => in_week_of (get_week_start today) uid db1 s
                                   && String.eqb (ss_status s) "pending") db1).
Proof.
  intros Hnd. unfold adjust_missed.
  pose proof (adjust_missed_bumped today uid db Hnd) as Hb.
  destruct (missed_ids (get_week_start today) uid db) as [|i ids'] eqn:Ei;
    [discriminate|].
  rewrite Hb.
  match goal with |- context [hours_setting ?pf ?u ?d] =>
    destruct (hours_setting pf u d) as [hpd|] end; [|discriminate].
  match goal with |- context [ai_generate_plan ?a ?b ?c ?d ?e] =>
    destruct (ai_generate_plan a b c d e) as [p| |] eqn:Hrun end; try discriminate.
  intros [= <- <-]. do 3 eexists. split; [|split; [|split; [exact Hrun|reflexivity]]];
    reflexivity.
Qed.

(** A successful [generate_plan] discards the done sessions of the
    current week of the user's subjects: afterwards the completed hours of
    a subject are those of its done sessions outside that week (and, for
    a subject of another user, of all its done sessions). *)
Theorem completed_hours_after_generate_plan (fuel : nat) (uid : Z) (db db' : Db)
        (ws : Z) :
  generate_plan parse_float strptime today fuel uid db = Reply (PlanOk ws) db' ->
  forall sid,
    get_completed_hours sid db'
    = round1 (sum_hours
                (map ss_hours
                     (filter (fun s => (ss_subject_id s =? sid)%Z
                                       && String.eqb (ss_status s) "done"
                                       && negb (in_week_of ws uid db s))
                             (sessions_tbl db)))).
Proof.
  intros Hgen sid.
  destruct (generate_plan_ok _ _ _ _ _ _ _ _ Hgen) as (hpd & p & _ & _ & Hrun & _ & ->).
  destruct (insert_plan_inserted ws p (delete_sessions (in_week_of ws uid db) db))
    as (new & Hins & Hc).
  pose proof (new_rows_in_week strptime today fuel uid db hpd p ws new Hrun Hc) as Hnew.
  unfold get_completed_hours.
  rewrite (done_sessions_after _ _ _ new sid Hins); [reflexivity|].
  eapply Forall_impl; [|exact Hnew]. intros s [_ H]. exact H.
Qed.

(** A successful [adjust_missed] (subject ids being unique) leaves the
    completed hours of every subject as they were. *)
Theorem completed_hours_after_adjust_missed (fuel : nat) (uid : Z) (db db' : Db)
        (n : nat) :
  NoDup (map sr_id (subjects_tbl db)) ->
  adjust_missed parse_float strptime today fuel uid db = Reply (Adjusted n) db' ->
  forall sid, get_completed_hours sid db' = get_completed_hours sid db.
Proof.
  intros Hnd Hadj sid.
  destruct (adjust_missed_ok _ _ _ _ _ Hnd Hadj) as (hpd & p & db1 & _ & Hs1 & Hrun & ->).
  set (ws := get_week_start today) in *.
  set (cond := fun s => in_week_of ws uid db1 s && String.eqb (ss_status s) "pending").
  destruct (insert_plan_inserted ws p (delete_sessions cond db1)) as (new & Hins & Hc).
  pose proof (new_rows_in_week strptime today fuel uid db1 hpd p ws new Hrun Hc) as Hnew.
  unfold get_completed_hours.
  rewrite (done_sessions_after cond db1 _ new sid Hins).
  - rewrite Hs1. do 3 f_equal. apply filter_ext. intros s. unfold cond.
    destruct (String.eqb_spec (ss_status s) "done") as [E|E].
    + rewrite E. simpl. rewrite !andb_false_r, andb_true_r. reflexivity.
    + rewrite !andb_false_r. reflexivity.
  - eapply Forall_impl; [|exact Hnew]. intros s [_ H]. exact H.
Qed.
End CompletedFacts.

(** On the sample database subject 1 has 3 hours done last week and 1
    hour done this week: 4 completed hours before the new plan, 3 after. *)
Lemma completed_hours_after_generate_plan_witness :
  get_completed_hours 1 sample_db_planned
  = round1 (sum_hours
              (map ss_hours
                   (filter (fun s => (ss_subject_id s =? 1)%Z
                                     && String.eqb (ss_status s) "done"
                                     && negb (in_week_of (-6) 1 sample_db s))
                           (sessions_tbl sample_db)))).
Proof.
  exact (completed_hours_after_generate_plan _ _ _ _ _ _ _ _ sample_generate_plan 1).
Defined.

Lemma completed_hours_after_adjust_missed_witness :
  get_completed_hours 1 sample_db_adjusted = get_completed_hours 1 sample_db.
Proof.
  exact (completed_hours_after_adjust_missed _ _ _ _ _ _ _ _ sample_subject_ids
                                             sample_adjust_missed 1).
Defined.
